(** * Scam-Guard-AI: the signal aggregation and risk scoring core

    A shallow embedding of the scoring core of the backend
    ([backend/ai/ml_model.py], [backend/ai/risk_engine.py] and the scoring
    tail of [backend/main.py]) and of the pure methods of the collaborators
    under [backend/services/], together with the properties the
    specification states about the core and further properties read off the
    code.

    Modelling conventions.
    - Python objects are values of the inductive type [Py.value]; the code is
      dynamically typed, so every primitive operation is a function on
      [Py.value] that either returns or raises ([Py.res]).
    - A Python [float] is modelled by an exact rational (type [Q]): rounding
      error, infinities and NaN are outside the model.  The comparisons of
      the embedded code are against decimal literals and give, on a float,
      the answer they give on the rational it denotes; sums, products and
      quotients are exact here where floats round.
    - A Python [str] is a string of bytes (its UTF-8 encoding); [len],
      indexing and [isdigit] count bytes, which are the characters of ASCII
      text such as a validated domain name.
    - A Python [dict] with string keys is an association list in insertion
      order, the order in which the code iterates over the weight table and
      the age brackets (it decides ties and which bracket matches first);
      [dict.get] returns the first binding of the key. *)

From Stdlib Require Import ZArith QArith Qminmax Qround Qabs.
From Stdlib Require Import String Ascii List Bool Lia Lqa.
From Stdlib Require Import DecimalString Sorted Permutation.
Import ListNotations.

Local Open Scope string_scope.
Local Open Scope Z_scope.

(* ================================================================= *)
(** ** Python values and the primitive operations the code uses *)

Module Py.

#[warnings="-register-all"]
Inductive value : Type :=
| VNone
| VBool (b : bool)
| VInt (z : Z)
| VFloat (q : Q)
| VStr (s : string)
| VList (l : list value)
| VDict (d : list (string * value)).

(** Exceptions: the class and the text [str(e)] gives (in CPython's wording;
    no property below depends on the wording).  Every class derives from
    [Exception].  [OverflowError] is what float arithmetic raises on a
    value too large; with exact rationals no primitive below raises it. *)
Inductive exn_class : Type :=
| TypeError | AttributeError | KeyError | IndexError | ZeroDivisionError
| OverflowError | HTTPException.

Record exn : Type := mk_exn { exn_cls : exn_class; exn_msg : string }.

Definition is_Exception (e : exn) : bool :=
  match exn_cls e with
  | TypeError | AttributeError | KeyError | IndexError | ZeroDivisionError
  | OverflowError | HTTPException => true
  end.

Inductive res (A : Type) : Type :=
| Ok (a : A)
| Raise (e : exn).
Arguments Ok {A} a.
Arguments Raise {A} e.

Definition bind {A B} (m : res A) (k : A -> res B) : res B :=
  match m with
  | Ok a => k a
  | Raise e => Raise e
  end.

(** [try: body  except Exception as e: handler e] *)
Definition try_except {A} (body : res A) (handler : exn -> res A) : res A :=
  match body with
  | Ok a => Ok a
  | Raise e => if is_Exception e then handler e else Raise e
  end.

Definition type_name (v : value) : string :=
  match v with
  | VNone => "NoneType"
  | VBool _ => "bool"
  | VInt _ => "int"
  | VFloat _ => "float"
  | VStr _ => "str"
  | VList _ => "list"
  | VDict _ => "dict"
  end.

Definition raise_type {A} (msg : string) : res A := Raise (mk_exn TypeError msg).

(** *** Numbers *)

Definition Z_of_bool (b : bool) : Z := if b then 1 else 0.

(** [int] and its subclass [bool]. *)
Definition int_of (v : value) : option Z :=
  match v with
  | VBool b => Some (Z_of_bool b)
  | VInt z => Some z
  | _ => None
  end.

(** The numeric value of an [int], [bool] or [float]. *)
Definition num_of (v : value) : option Q :=
  match v with
  | VBool b => Some (inject_Z (Z_of_bool b))
  | VInt z => Some (inject_Z z)
  | VFloat q => Some q
  | _ => None
  end.

Definition Qlt_bool (a b : Q) : bool := negb (Qle_bool b a).

(** The four ordering operators.  They are defined between numbers; a number
    against anything else is a [TypeError].  (Python also orders two strings
    or two lists; no comparison of the embedded code has such operands, one
    side is always a number.) *)
Definition compare_op (sym : string) (test : Q -> Q -> bool) (a b : value) : res bool :=
  match num_of a, num_of b with
  | Some x, Some y => Ok (test x y)
  | _, _ =>
      raise_type ("'" ++ sym ++ "' not supported between instances of '"
                  ++ type_name a ++ "' and '" ++ type_name b ++ "'")
  end.

Definition lt := compare_op "<" Qlt_bool.
Definition le := compare_op "<=" Qle_bool.
Definition gt := compare_op ">" (fun x y => Qlt_bool y x).
Definition ge := compare_op ">=" (fun x y => Qle_bool y x).

(** [a == c] for a number [c]: never raises, false on a non-number. *)
Definition eq_num (a : value) (c : Q) : bool :=
  match num_of a with
  | Some x => Qeq_bool x c
  | None => false
  end.

(** [min(a, b)] keeps [a] unless [b < a]; [max(a, b)] keeps [a] unless
    [b > a]. *)
Definition min (a b : value) : res value :=
  bind (lt b a) (fun c => Ok (if c then b else a)).

Definition max (a b : value) : res value :=
  bind (gt b a) (fun c => Ok (if c then b else a)).

Fixpoint str_repeat (s : string) (n : nat) : string :=
  match n with
  | O => ""
  | S n' => s ++ str_repeat s n'
  end.

Fixpoint list_repeat {A} (l : list A) (n : nat) : list A :=
  match n with
  | O => []
  | S n' => l ++ list_repeat l n'
  end.

Definition unsupported {A} (sym : string) (a b : value) : res A :=
  raise_type ("unsupported operand type(s) for " ++ sym ++ ": '"
              ++ type_name a ++ "' and '" ++ type_name b ++ "'").

(** [a + b] *)
Definition add (a b : value) : res value :=
  match int_of a, int_of b with
  | Some x, Some y => Ok (VInt (x + y))
  | _, _ =>
      match num_of a, num_of b with
      | Some x, Some y => Ok (VFloat (x + y))
      | _, _ =>
          match a, b with
          | VStr s, VStr t => Ok (VStr (s ++ t))
          | VList l, VList m => Ok (VList (l ++ m))
          | _, _ => unsupported "+" a b
          end
      end
  end.

(** [a * b]; a sequence times an integer repeats the sequence. *)
Definition mul (a b : value) : res value :=
  match int_of a, int_of b with
  | Some x, Some y => Ok (VInt (x * y))
  | _, _ =>
      match num_of a, num_of b with
      | Some x, Some y => Ok (VFloat (x * y))
      | _, _ =>
          match a, int_of b, int_of a, b with
          | VStr s, Some n, _, _ => Ok (VStr (str_repeat s (Z.to_nat n)))
          | VList l, Some n, _, _ => Ok (VList (list_repeat l (Z.to_nat n)))
          | _, _, Some n, VStr s => Ok (VStr (str_repeat s (Z.to_nat n)))
          | _, _, Some n, VList l => Ok (VList (list_repeat l (Z.to_nat n)))
          | _, _, _, _ =>
              match a, b with
              | (VStr _ | VList _), VFloat _ | VFloat _, (VStr _ | VList _) =>
                  raise_type "can't multiply sequence by non-int of type 'float'"
              | _, _ => unsupported "*" a b
              end
          end
      end
  end.

(** [a * w] where [w] is a float: a float, or the [TypeError] of [mul]. *)
Definition mul_float (a : value) (w : Q) : res Q :=
  match num_of a with
  | Some x => Ok (x * w)%Q
  | None =>
      match a with
      | VStr _ | VList _ => raise_type "can't multiply sequence by non-int of type 'float'"
      | _ => unsupported "*" a (VFloat w)
      end
  end.

(** [a / b] (true division). *)
Definition truediv (a b : value) : res value :=
  match num_of a, num_of b with
  | Some x, Some y =>
      if Qeq_bool y 0 then Raise (mk_exn ZeroDivisionError "division by zero")
      else Ok (VFloat (x / y))
  | _, _ => unsupported "/" a b
  end.

(** [round(x, ndigits)] on a float: to the nearest multiple of
    [10^-ndigits], ties to the even one. *)
Definition round_half_even (x : Q) : Z :=
  let f := Qfloor x in
  match Qcompare (x - inject_Z f) (1 # 2) with
  | Lt => f
  | Gt => f + 1
  | Eq => if Z.even f then f else f + 1
  end.

Definition round (x : Q) (ndigits : nat) : Q :=
  let p := inject_Z (10 ^ Z.of_nat ndigits) in
  inject_Z (round_half_even (x * p)) / p.

(** [round(v, ndigits)]: a float is rounded, an integer is returned as it
    is ([ndigits] is not negative here). *)
Definition round_value (v : value) (ndigits : nat) : res value :=
  match v with
  | VFloat q => Ok (VFloat (round q ndigits))
  | VInt z => Ok (VInt z)
  | VBool b => Ok (VInt (Z_of_bool b))
  | _ => raise_type ("type " ++ type_name v ++ " doesn't define __round__ method")
  end.

(** *** Truth value *)

Definition truthy (v : value) : bool :=
  match v with
  | VNone => false
  | VBool b => b
  | VInt z => negb (z =? 0)
  | VFloat q => negb (Qeq_bool q 0)
  | VStr s => negb (String.eqb s "")
  | VList l => match l with [] => false | _ => true end
  | VDict d => match d with [] => false | _ => true end
  end.

(** *** Dictionaries and sequences *)

Fixpoint assoc {A} (k : string) (d : list (string * A)) : option A :=
  match d with
  | [] => None
  | (k', v) :: d' => if String.eqb k k' then Some v else assoc k d'
  end.

(** [d[k] = v] on a dict: the binding is replaced in place, a new key goes
    last. *)
Fixpoint dict_set {A} (d : list (string * A)) (k : string) (v : A) : list (string * A) :=
  match d with
  | [] => [(k, v)]
  | (k', v') :: d' =>
      if String.eqb k k' then (k, v) :: d' else (k', v') :: dict_set d' k v
  end.

(** [o.get(k, default)] *)
Definition get (o : value) (k : string) (default : value) : res value :=
  match o with
  | VDict d => Ok (match assoc k d with Some v => v | None => default end)
  | _ => Raise (mk_exn AttributeError
                  ("'" ++ type_name o ++ "' object has no attribute 'get'"))
  end.

Definition not_subscriptable {A} (o : value) : res A :=
  raise_type ("'" ++ type_name o ++ "' object is not subscriptable").

(** [o[k]] for a string key [k]. *)
Definition getitem (o : value) (k : string) : res value :=
  match o with
  | VDict d =>
      match assoc k d with
      | Some v => Ok v
      | None => Raise (mk_exn KeyError ("'" ++ k ++ "'"))
      end
  | VList _ => raise_type "list indices must be integers or slices, not str"
  | VStr _ => raise_type "string indices must be integers, not 'str'"
  | _ => not_subscriptable o
  end.

Definition string_of_Z (z : Z) : string := NilZero.string_of_int (Z.to_int z).

(** [o[i]] for a literal index [i >= 0]. *)
Definition index (o : value) (i : nat) : res value :=
  match o with
  | VList l =>
      match nth_error l i with
      | Some v => Ok v
      | None => Raise (mk_exn IndexError "list index out of range")
      end
  | VStr s =>
      match String.get i s with
      | Some c => Ok (VStr (String c ""))
      | None => Raise (mk_exn IndexError "string index out of range")
      end
  | VDict _ => Raise (mk_exn KeyError (string_of_Z (Z.of_nat i)))
  | _ => not_subscriptable o
  end.

(** [o[:n]] *)
Definition slice_to (o : value) (n : nat) : res value :=
  match o with
  | VList l => Ok (VList (firstn n l))
  | VStr s => Ok (VStr (String.substring 0 n s))
  | VDict _ => raise_type "unhashable type: 'slice'"
  | _ => not_subscriptable o
  end.

(** [len(o)]; the length of a string is counted in bytes. *)
Definition len (o : value) : res Z :=
  match o with
  | VStr s => Ok (Z.of_nat (String.length s))
  | VList l => Ok (Z.of_nat (List.length l))
  | VDict d => Ok (Z.of_nat (List.length d))
  | _ => raise_type ("object of type '" ++ type_name o ++ "' has no len()")
  end.

Fixpoint chars (s : string) : list string :=
  match s with
  | EmptyString => []
  | String c s' => String c "" :: chars s'
  end.

(** The elements a [for] loop or a comprehension draws from [o]. *)
Definition iter (o : value) : res (list value) :=
  match o with
  | VList l => Ok l
  | VStr s => Ok (map VStr (chars s))
  | VDict d => Ok (map (fun kv => VStr (fst kv)) d)
  | _ => raise_type ("'" ++ type_name o ++ "' object is not iterable")
  end.

Fixpoint str_contains (needle hay : string) : bool :=
  String.prefix needle hay
  || match hay with
     | EmptyString => false
     | String _ hay' => str_contains needle hay'
     end.

Definition equals_str (s : string) (v : value) : bool :=
  match v with
  | VStr t => String.eqb s t
  | _ => false
  end.

(** [needle in o] for a string literal [needle]: substring of a string,
    element of a list, key of a dict. *)
Definition contains_str (needle : string) (o : value) : res bool :=
  match o with
  | VStr s => Ok (str_contains needle s)
  | VList l => Ok (existsb (equals_str needle) l)
  | VDict d => Ok (existsb (fun kv => String.eqb needle (fst kv)) d)
  | _ => raise_type ("argument of type '" ++ type_name o ++ "' is not iterable")
  end.

Definition is_digit (c : ascii) : bool :=
  let n := nat_of_ascii c in (48 <=? n)%nat && (n <=? 57)%nat.

Fixpoint all_digits (s : string) : bool :=
  match s with
  | EmptyString => true
  | String c s' => is_digit c && all_digits s'
  end.

(** [c.isdigit()]: a non-empty string of digits.  Only the ASCII digits are
    recognised (the Unicode digit table is not modelled). *)
Definition isdigit (c : value) : res bool :=
  match c with
  | VStr s => Ok (negb (String.eqb s "") && all_digits s)
  | _ => Raise (mk_exn AttributeError
                  ("'" ++ type_name c ++ "' object has no attribute 'isdigit'"))
  end.

(** [sep.join(items)]: every item has to be a [str]. *)
Fixpoint join_from (pos : nat) (sep : string) (items : list value) : res string :=
  match items with
  | [] => Ok ""
  | v :: rest =>
      match v with
      | VStr s =>
          match rest with
          | [] => Ok s
          | _ => bind (join_from (S pos) sep rest) (fun t => Ok (s ++ sep ++ t))
          end
      | _ => raise_type ("sequence item " ++ string_of_Z (Z.of_nat pos)
                         ++ ": expected str instance, " ++ type_name v ++ " found")
      end
  end.

Definition join (sep : string) (items : list value) : res string := join_from 0 sep items.

(** [str(v)] as an f-string field renders it.  The text of a float, a list
    or a dict ([repr_other]) is left to the caller. *)
Definition str (repr_other : value -> string) (v : value) : string :=
  match v with
  | VNone => "None"
  | VBool true => "True"
  | VBool false => "False"
  | VInt z => string_of_Z z
  | VStr s => s
  | _ => repr_other v
  end.

End Py.

Declare Scope py_scope.
Delimit Scope py_scope with py.
Notation "x <- m ;; k" := (Py.bind m (fun x => k))
  (at level 100, m at next level, right associativity) : py_scope.

Local Open Scope py_scope.

(* ================================================================= *)
(** ** ai/ml_model.py: class MLModel *)

Module MLModel.
Import Py.

Record t : Type := {
  model_loaded : bool;
  feature_names : list string;
  weights : list (string * Q)
}.

(** [__init__]: the feature names and the simulated model parameters, in the
    order the source lists them. *)
Definition init : t := {|
  model_loaded := false;
  feature_names :=
    [ "domain_age_days"; "has_https"; "ssl_valid"; "blacklist_count";
      "hosting_reputation_score"; "content_scam_score"; "dns_resolved";
      "domain_length"; "has_whois_privacy"; "content_risk_keywords" ];
  weights :=
    [ ("domain_age_days", (-0.05)%Q);
      ("has_https", (-0.15)%Q);
      ("ssl_valid", (-0.10)%Q);
      ("blacklist_count", 0.30%Q);
      ("hosting_reputation_score", (-0.02)%Q);
      ("content_scam_score", 0.40%Q);
      ("dns_resolved", (-0.10)%Q);
      ("domain_length", 0.01%Q);
      ("has_whois_privacy", 0.05%Q);
      ("content_risk_keywords", 0.05%Q) ]
|}.

Definition _normalize_features (self : t) (features : value) : res value :=
  let normalized : list (string * value) := [] in
  (* Domain age (max 365*3 days considered old) *)
  domain_age <- get features "domain_age_days" (VInt 0);;
  r <- truediv domain_age (VInt (365 * 3));;
  v <- min r (VFloat 1.0);;
  let normalized := dict_set normalized "domain_age_days" v in
  (* Binary features *)
  v <- get features "has_https" (VInt 0);;
  let normalized := dict_set normalized "has_https" v in
  v <- get features "ssl_valid" (VInt 0);;
  let normalized := dict_set normalized "ssl_valid" v in
  v <- get features "dns_resolved" (VInt 0);;
  let normalized := dict_set normalized "dns_resolved" v in
  v <- get features "has_whois_privacy" (VInt 0);;
  let normalized := dict_set normalized "has_whois_privacy" v in
  (* Blacklist count (max 5 considered very bad) *)
  blacklist_count <- get features "blacklist_count" (VInt 0);;
  r <- truediv blacklist_count (VFloat 5.0);;
  v <- min r (VFloat 1.0);;
  let normalized := dict_set normalized "blacklist_count" v in
  (* Hosting reputation (already 0-100) *)
  hosting_rep <- get features "hosting_reputation_score" (VInt 50);;
  v <- truediv hosting_rep (VFloat 100.0);;
  let normalized := dict_set normalized "hosting_reputation_score" v in
  (* Content scam score (already 0-1) *)
  v <- get features "content_scam_score" (VFloat 0.5);;
  let normalized := dict_set normalized "content_scam_score" v in
  (* Domain length (max 50 chars) *)
  domain_length <- get features "domain_length" (VInt 0);;
  r <- truediv domain_length (VFloat 50.0);;
  v <- min r (VFloat 1.0);;
  let normalized := dict_set normalized "domain_length" v in
  (* Content risk keywords (max 10) *)
  keyword_count <- get features "content_risk_keywords" (VInt 0);;
  r <- truediv keyword_count (VFloat 10.0);;
  v <- min r (VFloat 1.0);;
  let normalized := dict_set normalized "content_risk_keywords" v in
  Ok (VDict normalized).

(** The loop of [_calculate_score] over [self.weights.items()]. *)
Fixpoint score_loop (normalized_features : value) (ws : list (string * Q)) (score : Q)
  : res Q :=
  match ws with
  | [] => Ok score
  | (feature_name, weight) :: ws' =>
      feature_value <- get normalized_features feature_name (VFloat 0.5);;
      p <- mul_float feature_value weight;;
      score_loop normalized_features ws' (score + p)%Q
  end.

Definition _calculate_score (self : t) (normalized_features : value) : res Q :=
  score_loop normalized_features (weights self) 0.0%Q.

Section Runtime.

(** [numpy.exp] on floats; the exponential itself is not modelled. *)
Variable np_exp : Q -> Q.

Definition _sigmoid (self : t) (x : Q) : res Q :=
  try_except
    (let scaled := (x * 5)%Q in
     Ok (1 / (1 + np_exp (- scaled)))%Q)
    (fun _ => Ok 0.5%Q).

Definition _calculate_confidence (self : t) (normalized_features : value) : res value :=
  let features_with_data := 0 in
  let total_features := List.length (feature_names self) in
  v <- get normalized_features "dns_resolved" (VInt 0);;
  let features_with_data :=
    if eq_num v 1 then features_with_data + 1 else features_with_data in
  v <- get normalized_features "domain_age_days" (VInt 0);;
  c <- gt v (VInt 0);;
  let features_with_data :=
    if c then features_with_data + 1 else features_with_data in
  v <- get normalized_features "has_https" (VInt 0);;
  let features_with_data :=
    if eq_num v 0 || eq_num v 1 then features_with_data + 1 else features_with_data in
  v <- get normalized_features "content_scam_score" (VFloat 0.5);;
  let features_with_data :=
    if negb (eq_num v 0.5) then features_with_data + 1 else features_with_data in
  (* Base confidence on data availability *)
  let base_confidence := VFloat (inject_Z features_with_data / 4.0) in
  (* Increase confidence if we have strong signals *)
  blacklist_hits <- get normalized_features "blacklist_count" (VInt 0);;
  c <- gt blacklist_hits (VInt 0);;
  base_confidence <-
    (if c then max base_confidence (VFloat 0.9) else Ok base_confidence);;
  content_score <- get normalized_features "content_scam_score" (VFloat 0.5);;
  c1 <- gt content_score (VFloat 0.7);;
  c <- (if c1 then Ok true else lt content_score (VFloat 0.3));;
  base_confidence <-
    (if c then max base_confidence (VFloat 0.8) else Ok base_confidence);;
  min base_confidence (VFloat 0.95).

(** [sorted(items, key=value, reverse=True)]: descending, equal values keep
    their order. *)
Fixpoint insert_desc (x : string * Q) (l : list (string * Q)) : list (string * Q) :=
  match l with
  | [] => [x]
  | y :: l' => if Qlt_bool (snd y) (snd x) then x :: y :: l' else y :: insert_desc x l'
  end.

Definition sorted_desc (l : list (string * Q)) : list (string * Q) :=
  fold_left (fun acc x => insert_desc x acc) l [].

Fixpoint importance_loop (normalized_features : value) (ws : list (string * Q))
  (importance : list (string * Q)) : res (list (string * Q)) :=
  match ws with
  | [] => Ok importance
  | (feature_name, weight) :: ws' =>
      feature_value <- get normalized_features feature_name (VFloat 0.5);;
      p <- mul_float feature_value weight;;
      let contribution := Qabs p in
      importance_loop normalized_features ws'
        (dict_set importance feature_name (round contribution 3))
  end.

Definition _calculate_feature_importance (self : t) (normalized_features : value)
  : res value :=
  importance <- importance_loop normalized_features (weights self) [];;
  let sorted_importance := sorted_desc importance in
  Ok (VDict (map (fun kv => (fst kv, VFloat (snd kv))) sorted_importance)).

(** The [try] block of [predict]; the logging call has no effect on the
    result. *)
Definition predict_try (self : t) (features : value) : res value :=
  normalized_features <- _normalize_features self features;;
  score <- _calculate_score self normalized_features;;
  probability <- _sigmoid self score;;
  let risk_score := (probability * 100)%Q in
  feature_importance <- _calculate_feature_importance self normalized_features;;
  confidence <- _calculate_confidence self normalized_features;;
  Ok (VDict [ ("risk_score", VFloat risk_score);
              ("probability", VFloat probability);
              ("confidence", confidence);
              ("feature_importance", feature_importance);
              ("model_version", VStr "1.0-simulated") ]).

(** The dict the [except Exception as e] branch returns. *)
Definition predict_except (e : exn) : res value :=
  Ok (VDict [ ("risk_score", VFloat 50.0);
              ("probability", VFloat 0.5);
              ("confidence", VFloat 0.5);
              ("feature_importance", VDict []);
              ("error", VStr (exn_msg e)) ]).

Definition predict (self : t) (features : value) : res value :=
  try_except (predict_try self features) predict_except.

End Runtime.

End MLModel.

(* ================================================================= *)
(** ** ai/risk_engine.py: class RiskEngine *)

Module RiskEngine.
Import Py.

(** The point table [self.risk_rules]. *)
Record ssl_rules : Type := { no_ssl : Z; invalid_ssl : Z; expiring_soon : Z }.
Record blacklist_rules : Type := { per_hit : Z }.
Record hosting_rules : Type := { bulletproof : Z; low_reputation : Z }.
Record content_rules : Type := {
  high_risk_keywords : Z; medium_risk_keywords : Z; phishing_forms : Z }.
Record dns_rules : Type := { no_resolution : Z }.
Record pattern_rules : Type := {
  suspicious_tld : Z; long_domain : Z; many_numbers : Z; homograph : Z }.

Record rules : Type := {
  r_domain_age : list (string * (Z * Z * Z));
  r_ssl : ssl_rules;
  r_blacklist : blacklist_rules;
  r_hosting : hosting_rules;
  r_content : content_rules;
  r_dns : dns_rules;
  r_patterns : pattern_rules
}.

Record t : Type := { max_score : Z; risk_rules : rules }.

(** [__init__] *)
Definition init : t := {|
  max_score := 100;
  risk_rules := {|
    r_domain_age :=
      [ ("critical", (0, 7, 25));
        ("high", (8, 30, 20));
        ("medium", (31, 90, 10));
        ("low", (91, 180, 5)) ];
    r_ssl := {| no_ssl := 15; invalid_ssl := 10; expiring_soon := 5 |};
    r_blacklist := {| per_hit := 30 |};
    r_hosting := {| bulletproof := 20; low_reputation := 10 |};
    r_content := {| high_risk_keywords := 15; medium_risk_keywords := 5;
                    phishing_forms := 10 |};
    r_dns := {| no_resolution := 20 |};
    r_patterns := {| suspicious_tld := 10; long_domain := 5; many_numbers := 5;
                     homograph := 15 |}
  |}
|}.

(** The loop of [_calculate_age_score] over the age brackets; the first
    bracket with [min_days <= domain_age_days <= max_days] returns. *)
Fixpoint age_loop (brackets : list (string * (Z * Z * Z))) (domain_age_days : value)
  : res Z :=
  match brackets with
  | [] => Ok 0
  | (level, (min_days, max_days, points)) :: rest =>
      c1 <- le (VInt min_days) domain_age_days;;
      c <- (if c1 then le domain_age_days (VInt max_days) else Ok false);;
      if c then Ok points else age_loop rest domain_age_days
  end.

Definition _calculate_age_score (self : t) (domain_age_days : value) : res Z :=
  age_loop (r_domain_age (risk_rules self)) domain_age_days.

Definition _calculate_ssl_score (self : t) (ssl : value) : res Z :=
  let score := 0 in
  has_ssl <- get ssl "has_ssl" (VBool false);;
  if negb (truthy has_ssl) then
    Ok (score + no_ssl (r_ssl (risk_rules self)))
  else
    ssl_valid <- get ssl "ssl_valid" (VBool false);;
    if negb (truthy ssl_valid) then
      Ok (score + invalid_ssl (r_ssl (risk_rules self)))
    else
      days_until_expiry <- get ssl "days_until_expiry" VNone;;
      c <- (if truthy days_until_expiry
            then lt days_until_expiry (VInt 30) else Ok false);;
      Ok (if c then score + expiring_soon (r_ssl (risk_rules self)) else score).

Definition _calculate_blacklist_score (self : t) (blacklist : value) : res value :=
  hits <- get blacklist "blacklist_hits" (VInt 0);;
  p <- mul hits (VInt (per_hit (r_blacklist (risk_rules self))));;
  min p (VInt 50).

Definition _calculate_hosting_score (self : t) (hosting : value) : res Z :=
  let score := 0 in
  rep_score <- get hosting "reputation_score" (VInt 50);;
  c <- lt rep_score (VInt 30);;
  if c then Ok (score + bulletproof (r_hosting (risk_rules self)))
  else
    c <- lt rep_score (VInt 50);;
    Ok (if c then score + low_reputation (r_hosting (risk_rules self)) else score).

Definition _calculate_content_score (self : t) (content : value) : res Z :=
  let score := 0 in
  l <- get content "high_risk_keywords" (VList []);;
  high_risk <- len l;;
  let score :=
    if high_risk >? 0
    then score + high_risk_keywords (r_content (risk_rules self)) else score in
  l <- get content "medium_risk_keywords" (VList []);;
  medium_risk <- len l;;
  let score :=
    if medium_risk >? 2
    then score + medium_risk_keywords (r_content (risk_rules self)) else score in
  has_forms <- get content "has_forms" (VBool false);;
  let score :=
    if truthy has_forms && ((high_risk >? 0) || (medium_risk >? 0))
    then score + phishing_forms (r_content (risk_rules self)) else score in
  Ok score.

Definition _calculate_dns_score (self : t) (dns : value) : res Z :=
  resolved <- get dns "resolved" (VBool false);;
  if negb (truthy resolved) then Ok (no_resolution (r_dns (risk_rules self)))
  else Ok 0.

(** The loop of [_calculate_pattern_score] over the risk indicators. *)
Fixpoint indicator_loop (self : t) (risk_indicators : list value) (score : Z) : res Z :=
  match risk_indicators with
  | [] => Ok score
  | indicator :: rest =>
      c <- contains_str "TLD" indicator;;
      if c then
        indicator_loop self rest (score + suspicious_tld (r_patterns (risk_rules self)))
      else
        c <- contains_str "homograph" indicator;;
        if c then
          indicator_loop self rest (score + homograph (r_patterns (risk_rules self)))
        else indicator_loop self rest score
  end.

(** [sum(c.isdigit() for c in domain)] over the elements drawn from [domain]. *)
Fixpoint digit_sum (cs : list value) (acc : Z) : res Z :=
  match cs with
  | [] => Ok acc
  | c :: rest => b <- isdigit c;; digit_sum rest (acc + Z_of_bool b)
  end.

Definition _calculate_pattern_score (self : t) (signals : value) : res Z :=
  let score := 0 in
  blacklist <- get signals "blacklist" (VDict []);;
  risk_indicators <- get blacklist "risk_indicators" (VList []);;
  items <- iter risk_indicators;;
  score <- indicator_loop self items score;;
  (* Check domain characteristics *)
  whois <- get signals "whois" (VDict []);;
  domain <- get whois "domain" (VStr "");;
  n <- len domain;;
  let score :=
    if n >? 30 then score + long_domain (r_patterns (risk_rules self)) else score in
  cs <- iter domain;;
  digit_count <- digit_sum cs 0;;
  let score :=
    if digit_count >? 5
    then score + many_numbers (r_patterns (risk_rules self)) else score in
  Ok score.

(** [calculate_risk_score]: the category scores are added up inside the
    [try] block; any exception gives the neutral 50.0. *)
Definition calculate_risk_score (self : t) (signals : value) : res value :=
  let total_score := VInt 0 in
  try_except
    ((* Domain age analysis *)
     whois <- get signals "whois" (VDict []);;
     domain_age_days <- get whois "domain_age_days" (VInt 0);;
     age_score <- _calculate_age_score self domain_age_days;;
     total_score <- add total_score (VInt age_score);;
     (* SSL analysis *)
     ssl <- get signals "ssl" (VDict []);;
     ssl_score <- _calculate_ssl_score self ssl;;
     total_score <- add total_score (VInt ssl_score);;
     (* Blacklist analysis *)
     blacklist <- get signals "blacklist" (VDict []);;
     blacklist_score <- _calculate_blacklist_score self blacklist;;
     total_score <- add total_score blacklist_score;;
     (* Hosting analysis *)
     hosting <- get signals "hosting" (VDict []);;
     hosting_score <- _calculate_hosting_score self hosting;;
     total_score <- add total_score (VInt hosting_score);;
     (* Content analysis *)
     content <- get signals "content" (VDict []);;
     content_score <- _calculate_content_score self content;;
     total_score <- add total_score (VInt content_score);;
     (* DNS analysis *)
     dns <- get signals "dns" (VDict []);;
     dns_score <- _calculate_dns_score self dns;;
     total_score <- add total_score (VInt dns_score);;
     (* Pattern analysis *)
     pattern_score <- _calculate_pattern_score self signals;;
     total_score <- add total_score (VInt pattern_score);;
     (* Cap at maximum *)
     min total_score (VInt (max_score self)))
    (fun _ => Ok (VFloat 50.0)).

(** *** Explanations

    [generate_explanations] appends to the list [explanations] statement by
    statement, inside one [try] block: when a statement raises, the lines
    appended before it are still in the list.  A statement is therefore a
    function from the list so far to an outcome and the list after it. *)

Definition M (A : Type) : Type := list string -> res A * list string.

Definition ret {A} (a : A) : M A := fun ex => (Ok a, ex).

Definition bindM {A B} (m : M A) (k : A -> M B) : M B :=
  fun ex =>
    match m ex with
    | (Ok a, ex') => k a ex'
    | (Raise e, ex') => (Raise e, ex')
    end.

Definition lift {A} (r : res A) : M A := fun ex => (r, ex).

(** [explanations.append(s)] and [explanations.insert(0, s)] *)
Definition append (s : string) : M unit := fun ex => (Ok tt, (ex ++ [s])%list).
Definition insert0 (s : string) : M unit := fun ex => (Ok tt, s :: ex).

Definition try_exceptM (body : M unit) (handler : exn -> M unit) : M unit :=
  fun ex =>
    match body ex with
    | (Ok a, ex') => (Ok a, ex')
    | (Raise e, ex') => if is_Exception e then handler e ex' else (Raise e, ex')
    end.

Notation "x <~ m ;; k" := (bindM m (fun x => k))
  (at level 100, m at next level, right associativity).
Notation "'exec' m ;; k" := (bindM m (fun _ => k))
  (at level 100, m at next level, right associativity).

Definition when (b : bool) (m : M unit) : M unit := if b then m else ret tt.

Fixpoint for_each (items : list value) (body : value -> M unit) : M unit :=
  match items with
  | [] => ret tt
  | x :: rest => exec body x;; for_each rest body
  end.

(** A list comprehension [[f x for x in items]]. *)
Fixpoint comprehension (f : value -> res value) (items : list value) : res (list value) :=
  match items with
  | [] => Ok []
  | x :: rest => (y <- f x;; ys <- comprehension f rest;; Ok (y :: ys))%py
  end.

Section Explanations.

(** The text an f-string gives a float, a list or a dict. *)
Variable repr_other : value -> string.

Let fmt := str repr_other.

(* Domain age *)
Definition explain_age (signals : value) : M unit :=
  whois <~ lift (get signals "whois" (VDict []));;
  domain_age_days <~ lift (get whois "domain_age_days" (VInt 0));;
  c <~ lift (lt domain_age_days (VInt 7));;
  if c then append "🚨 CRITICAL: Domain is extremely new (less than 1 week old)"
  else
    c <~ lift (lt domain_age_days (VInt 30));;
    if c then append "⚠️ HIGH RISK: Domain is very new (less than 1 month old)"
    else
      c <~ lift (lt domain_age_days (VInt 90));;
      if c then append "⚠️ MEDIUM: Domain is relatively new (less than 3 months old)"
      else
        c <~ lift (gt domain_age_days (VInt 365));;
        when c (append "✅ POSITIVE: Domain is well-established (over 1 year old)").

(* SSL *)
Definition explain_ssl (signals : value) : M unit :=
  ssl <~ lift (get signals "ssl" (VDict []));;
  has_ssl <~ lift (get ssl "has_ssl" (VBool false));;
  if negb (truthy has_ssl) then
    append "🚨 CRITICAL: No HTTPS/SSL certificate detected"
  else
    ssl_valid <~ lift (get ssl "ssl_valid" (VBool false));;
    if negb (truthy ssl_valid) then
      append "⚠️ HIGH RISK: SSL certificate is invalid or expired"
    else
      days_until_expiry <~ lift (get ssl "days_until_expiry" VNone);;
      c <~ lift (if truthy days_until_expiry
                 then lt days_until_expiry (VInt 30) else Ok false);;
      if c then append "⚠️ WARNING: SSL certificate expiring soon"
      else append "✅ POSITIVE: Valid SSL certificate detected".

(* Blacklist, scam patterns, risk indicators *)
Definition explain_blacklist (signals : value) : M unit :=
  blacklist <~ lift (get signals "blacklist" (VDict []));;
  blacklist_hits <~ lift (get blacklist "blacklist_hits" (VInt 0));;
  c <~ lift (gt blacklist_hits (VInt 0));;
  exec when c
    (exec append ("🚨 CRITICAL: Found on " ++ fmt blacklist_hits
                  ++ " security blacklist(s)");;
     bls <~ lift (get blacklist "blacklists" VNone);;
     when (truthy bls)
       (bls <~ lift (get blacklist "blacklists" (VList []));;
        items <~ lift (iter bls);;
        bl_names <~ lift (comprehension (fun bl => getitem bl "blacklist") items);;
        joined <~ lift (join ", " (firstn 3 bl_names));;
        append ("   Blacklists: " ++ joined)));;
  (* Scam patterns *)
  scam_pattern_detected <~ lift (get blacklist "scam_pattern_detected" (VBool false));;
  exec when (truthy scam_pattern_detected)
    (append "⚠️ HIGH RISK: Domain name contains scam-related keywords");;
  (* Risk indicators *)
  risk_indicators <~ lift (get blacklist "risk_indicators" (VList []));;
  items <~ lift (iter risk_indicators);;
  for_each items (fun indicator => append ("⚠️ WARNING: " ++ fmt indicator)).

(* Hosting *)
Definition explain_hosting (signals : value) : M unit :=
  hosting <~ lift (get signals "hosting" (VDict []));;
  rep_score <~ lift (get hosting "reputation_score" (VInt 50));;
  c <~ lift (lt rep_score (VInt 40));;
  if c then append "⚠️ MEDIUM: Hosted on service with low reputation score"
  else
    c <~ lift (gt rep_score (VInt 70));;
    when c
      (provider <~ lift (get hosting "hosting_provider" (VStr "Unknown"));;
       append ("✅ POSITIVE: Hosted by reputable provider (" ++ fmt provider ++ ")")).

(* Content *)
Definition explain_content (signals : value) : M unit :=
  content <~ lift (get signals "content" (VDict []));;
  content_available <~ lift (get content "content_available" (VBool false));;
  when (truthy content_available)
    (high_risk <~ lift (get content "high_risk_keywords" (VList []));;
     exec when (truthy high_risk)
       (n <~ lift (len high_risk);;
        exec append ("🚨 HIGH RISK: Found " ++ string_of_Z n
                      ++ " high-risk scam keywords in content");;
        head <~ lift (slice_to high_risk 2);;
        when (truthy head)
          (first <~ lift (index high_risk 0);;
           n <~ lift (len high_risk);;
           second <~ (if n >? 1
                      then (v <~ lift (index high_risk 1);; ret (fmt v))
                      else ret "");;
           append ("   Examples: '" ++ fmt first ++ "', '" ++ second ++ "'")));;
     medium_risk <~ lift (get content "medium_risk_keywords" (VList []));;
     exec when (truthy medium_risk)
       (n <~ lift (len medium_risk);;
        append ("⚠️ MEDIUM: Found " ++ string_of_Z n ++ " marketing-related keywords"));;
     has_forms <~ lift (get content "has_forms" (VBool false));;
     when (truthy has_forms && (truthy high_risk || truthy medium_risk))
       (append "⚠️ WARNING: Site contains forms and suspicious keywords (possible phishing)")).

(* DNS *)
Definition explain_dns (signals : value) : M unit :=
  dns <~ lift (get signals "dns" (VDict []));;
  resolved <~ lift (get dns "resolved" (VBool false));;
  when (negb (truthy resolved))
    (append "🚨 CRITICAL: Domain does not resolve to an IP address").

Definition scam_banner : string :=
  "🚨 VERDICT: This domain shows multiple indicators of being a SCAM".
Definition suspicious_banner : string :=
  "⚠️ VERDICT: This domain is SUSPICIOUS - exercise caution".
Definition safe_banner : string :=
  "✅ VERDICT: This domain appears relatively SAFE based on available data".
Definition disclaimer : string :=
  "ℹ️ Note: This analysis is based on automated checks. Always exercise caution online.".

(* Overall verdict explanation *)
Definition explain_verdict (risk_score : value) : M unit :=
  c <~ lift (ge risk_score (VInt 70));;
  if c then insert0 scam_banner
  else
    c <~ lift (ge risk_score (VInt 40));;
    if c then insert0 suspicious_banner
    else insert0 safe_banner.

(** The body of the [try] block, in the order of the source. *)
Definition explanations_body (signals risk_score : value) : M unit :=
  exec explain_age signals;;
  exec explain_ssl signals;;
  exec explain_blacklist signals;;
  exec explain_hosting signals;;
  exec explain_content signals;;
  exec explain_dns signals;;
  exec explain_verdict risk_score;;
  (* Add disclaimer *)
  exec append "";;
  append disclaimer.

Definition generate_explanations (self : t) (signals risk_score : value) : list string :=
  let explanations := [] in
  snd (try_exceptM (explanations_body signals risk_score)
         (fun _ => append "Error generating detailed explanations")
         explanations).

End Explanations.

End RiskEngine.

(* ================================================================= *)
(** ** main.py: feature extraction, verdict and the scoring tail of
    [check_domain] *)

Module Main.
Import Py.

Record DomainCheckResponse : Type := {
  domain : string;
  risk_score : value;
  verdict : string;
  confidence : Q;
  detailed_reasons : list string;
  technical_signals : value;
  analysis_timestamp : string
}.

Definition one_if (v : value) : value := if truthy v then VInt 1 else VInt 0.

Definition extract_features (signals : value) : res value :=
  whois <- get signals "whois" (VDict []);;
  ssl <- get signals "ssl" (VDict []);;
  blacklist <- get signals "blacklist" (VDict []);;
  hosting <- get signals "hosting" (VDict []);;
  content <- get signals "content" (VDict []);;
  domain_age_days <- get whois "domain_age_days" (VInt 0);;
  has_ssl <- get ssl "has_ssl" (VBool false);;
  ssl_valid <- get ssl "ssl_valid" (VBool false);;
  blacklist_hits <- get blacklist "blacklist_hits" (VInt 0);;
  reputation_score <- get hosting "reputation_score" (VInt 50);;
  scam_score <- get content "scam_score" (VFloat 0.5);;
  dns <- get signals "dns" (VDict []);;
  resolved <- get dns "resolved" (VBool false);;
  whois' <- get signals "whois" (VDict []);;
  name <- get whois' "domain" (VStr "");;
  domain_length <- len name;;
  privacy_protected <- get whois "privacy_protected" (VBool false);;
  risk_keyword_count <- get content "risk_keyword_count" (VInt 0);;
  Ok (VDict
        [ ("domain_age_days", domain_age_days);
          ("has_https", one_if has_ssl);
          ("ssl_valid", one_if ssl_valid);
          ("blacklist_count", blacklist_hits);
          ("hosting_reputation_score", reputation_score);
          ("content_scam_score", scam_score);
          ("dns_resolved", one_if resolved);
          ("domain_length", VInt domain_length);
          ("has_whois_privacy", one_if privacy_protected);
          ("content_risk_keywords", risk_keyword_count) ]).

Definition determine_verdict (risk_score signals : value) : res (string * Q) :=
  blacklist <- get signals "blacklist" (VDict []);;
  blacklist_hits <- get blacklist "blacklist_hits" (VInt 0);;
  (* Critical override: blacklist hits *)
  c <- gt blacklist_hits (VInt 0);;
  if c then Ok ("LIKELY SCAM", 0.95%Q)
  else
    (* Risk score based verdict *)
    c <- ge risk_score (VInt 70);;
    if c then Ok ("LIKELY SCAM", 0.85%Q)
    else
      c <- ge risk_score (VInt 40);;
      if c then Ok ("SUSPICIOUS", 0.75%Q)
      else Ok ("SAFE", 0.80%Q).

(** The combination step of [check_domain]: the weighted average of the two
    scores and the verdict taken from it. *)
Definition combine (ml_prediction rule_score signals : value)
  : res (value * (string * Q)) :=
  ml_risk <- getitem ml_prediction "risk_score";;
  a <- mul ml_risk (VFloat 0.6);;
  b <- mul rule_score (VFloat 0.4);;
  final_risk_score <- add a b;;
  vc <- determine_verdict final_risk_score signals;;
  Ok (final_risk_score, vc).

Section Runtime.

Variable np_exp : Q -> Q.
Variable repr_other : value -> string.

(** [check_domain] from the point where the six collectors have filled
    [signals]; [now] is the text of [datetime.utcnow().isoformat()].  An
    exception of the scoring steps leaves as [HTTPException] (status 500). *)
Definition check_domain (ml_model : MLModel.t) (risk_engine : RiskEngine.t)
  (domain : string) (signals : value) (now : string) : res DomainCheckResponse :=
  try_except
    (features <- extract_features signals;;
     ml_prediction <- MLModel.predict np_exp ml_model features;;
     rule_score <- RiskEngine.calculate_risk_score risk_engine signals;;
     r <- combine ml_prediction rule_score signals;;
     let '(final_risk_score, (verdict, confidence)) := r in
     let detailed_reasons :=
       RiskEngine.generate_explanations repr_other risk_engine signals final_risk_score in
     shown <- round_value final_risk_score 2;;
     Ok {| domain := domain;
           risk_score := shown;
           verdict := verdict;
           confidence := round confidence 2;
           detailed_reasons := detailed_reasons;
           technical_signals := signals;
           analysis_timestamp := now |})
    (fun e => Raise (mk_exn HTTPException ("Analysis failed: " ++ exn_msg e))).

End Runtime.

End Main.

(* ================================================================= *)
(** ** String methods of the collaborators *)

Module PyStr.

(** [str.lower] on ASCII letters.  (The tests that use it look for ASCII
    keywords; a character outside ASCII is left as it is.) *)
Definition lower_char (c : ascii) : ascii :=
  let n := nat_of_ascii c in
  if (65 <=? n)%nat && (n <=? 90)%nat then ascii_of_nat (n + 32) else c.

Fixpoint lower (s : string) : string :=
  match s with
  | EmptyString => EmptyString
  | String c s' => String (lower_char c) (lower s')
  end.

(** [s.split(sep)] for a one-character separator: never empty. *)
Fixpoint split (sep : ascii) (s : string) : list string :=
  match s with
  | EmptyString => [""]
  | String c s' =>
      if Ascii.eqb c sep then "" :: split sep s'
      else match split sep s' with
           | h :: t => String c h :: t
           | [] => [String c ""]
           end
  end.

(** [s.endswith(suffix)] *)
Fixpoint endswith (suffix s : string) : bool :=
  String.eqb suffix s
  || match s with
     | EmptyString => false
     | String _ s' => endswith suffix s'
     end.

(** [s.count(c)] for a one-character string. *)
Fixpoint count_char (c : ascii) (s : string) : Z :=
  match s with
  | EmptyString => 0
  | String c' s' => (if Ascii.eqb c' c then 1 else 0) + count_char c s'
  end.

(** [s.encode('ascii')] succeeds: no byte above 127. *)
Fixpoint is_ascii (s : string) : bool :=
  match s with
  | EmptyString => true
  | String c s' => (nat_of_ascii c <? 128)%nat && is_ascii s'
  end.

(** [any(c.isdigit() for c in s)] *)
Fixpoint any_digit (s : string) : bool :=
  match s with
  | EmptyString => false
  | String c s' => Py.is_digit c || any_digit s'
  end.

(** [sum(c.isdigit() for c in s)] *)
Fixpoint digit_count (s : string) : Z :=
  match s with
  | EmptyString => 0
  | String c s' => Py.Z_of_bool (Py.is_digit c) + digit_count s'
  end.

End PyStr.

(* ================================================================= *)
(** ** services/content_analyzer.py: the pure methods of ContentAnalyzer *)

Module ContentAnalyzer.
Import Py.

Definition HIGH_RISK_KEYWORDS : list string :=
  [ "congratulations you won"; "claim your prize"; "act now"; "limited time offer";
    "verify your account"; "suspended account"; "urgent action required";
    "confirm your identity"; "update payment info"; "winner"; "free money";
    "click here immediately"; "account will be closed"; "unusual activity";
    "verify identity"; "tax refund"; "inheritance"; "nigerian prince";
    "bitcoin giveaway"; "double your crypto"; "guaranteed returns";
    "risk-free investment" ].

Definition MEDIUM_RISK_KEYWORDS : list string :=
  [ "free gift"; "no credit card required"; "limited spots"; "exclusive offer";
    "special promotion"; "act fast"; "don't miss out"; "instant approval";
    "lowest price"; "satisfaction guaranteed"; "work from home"; "make money fast";
    "lose weight quickly" ].

(** The two loops of [_analyze_keywords]: the keywords found in [text], in
    the order of the table. *)
Definition found_in (text : string) (keywords : list string) : list string :=
  filter (fun keyword => str_contains (PyStr.lower keyword) text) keywords.

Definition _analyze_keywords (text : string) : value :=
  let high_risk_found := found_in text HIGH_RISK_KEYWORDS in
  let medium_risk_found := found_in text MEDIUM_RISK_KEYWORDS in
  VDict [ ("high_risk_keywords", VList (map VStr high_risk_found));
          ("medium_risk_keywords", VList (map VStr medium_risk_found));
          ("risk_keyword_count",
           VInt (Z.of_nat (List.length high_risk_found)
                 + Z.of_nat (List.length medium_risk_found))) ].

(** [score += min(n * per, cap)] *)
Definition add_capped (score : value) (n : Z) (per cap : Q) : res value :=
  p <- mul (VInt n) (VFloat per);;
  m <- min p (VFloat cap);;
  add score m.

Definition _calculate_content_score (result : value) : res value :=
  let score := VFloat 0.0 in
  (* High risk keywords (0.15 per keyword, max 0.6) *)
  l <- getitem result "high_risk_keywords";;
  high_risk_count <- len l;;
  score <- add_capped score high_risk_count 0.15 0.6;;
  (* Medium risk keywords (0.05 per keyword, max 0.2) *)
  l <- getitem result "medium_risk_keywords";;
  medium_risk_count <- len l;;
  score <- add_capped score medium_risk_count 0.05 0.2;;
  (* Suspicious patterns (0.1 per pattern, max 0.3) *)
  l <- getitem result "suspicious_patterns";;
  pattern_count <- len l;;
  score <- add_capped score pattern_count 0.1 0.3;;
  (* Forms present (potential phishing) *)
  has_forms <- getitem result "has_forms";;
  c <- (if truthy has_forms
        then (n <- getitem result "risk_keyword_count";; gt n (VInt 0))
        else Ok false);;
  score <- (if c then add score (VFloat 0.2) else Ok score);;
  (* Very short content (possible parking page) *)
  text_length <- getitem result "text_length";;
  c1 <- lt text_length (VInt 200);;
  c <- (if c1
        then (text_length <- getitem result "text_length";; gt text_length (VInt 0))
        else Ok false);;
  score <- (if c then add score (VFloat 0.1) else Ok score);;
  (* Excessive external links *)
  links <- getitem result "external_links_count";;
  c <- gt links (VInt 50);;
  score <- (if c then add score (VFloat 0.1) else Ok score);;
  min score (VFloat 1.0).

Section Analysis.

(** The text an f-string gives a float, a list or a dict. *)
Variable repr_other : value -> string.

Definition _generate_content_analysis (result : value) : res (list string) :=
  let analysis : list string := [] in
  high <- getitem result "high_risk_keywords";;
  analysis <-
    (if truthy high
     then (l <- getitem result "high_risk_keywords";; n <- len l;;
           Ok (analysis ++ [("Found " ++ string_of_Z n ++ " high-risk scam keywords")%string])%list)
     else Ok analysis);;
  medium <- getitem result "medium_risk_keywords";;
  analysis <-
    (if truthy medium
     then (l <- getitem result "medium_risk_keywords";; n <- len l;;
           Ok (analysis
               ++ [("Found " ++ string_of_Z n ++ " medium-risk marketing keywords")%string])%list)
     else Ok analysis);;
  patterns <- getitem result "suspicious_patterns";;
  analysis <-
    (if truthy patterns
     then (l <- getitem result "suspicious_patterns";; n <- len l;;
           Ok (analysis
               ++ [("Detected " ++ string_of_Z n ++ " suspicious text patterns")%string])%list)
     else Ok analysis);;
  has_forms <- getitem result "has_forms";;
  let analysis :=
    if truthy has_forms
    then (analysis ++ ["Website contains forms (possible credential harvesting)"])%list
    else analysis in
  text_length <- getitem result "text_length";;
  c1 <- lt text_length (VInt 200);;
  c <- (if c1
        then (text_length <- getitem result "text_length";; gt text_length (VInt 0))
        else Ok false);;
  let analysis :=
    if c then (analysis ++ ["Very little content (possible parking page)"])%list
    else analysis in
  links <- getitem result "external_links_count";;
  c <- gt links (VInt 50);;
  analysis <-
    (if c
     then (links <- getitem result "external_links_count";;
           Ok (analysis
               ++ [("Excessive external links (" ++ str repr_other links ++ ")")%string])%list)
     else Ok analysis);;
  let analysis :=
    match analysis with
    | [] => ["No obvious content-based risk indicators detected"]
    | _ => analysis
    end in
  Ok analysis.

(** What is found in a fetched page: the visible text in lower case
    ([_extract_text]), the entries of [SUSPICIOUS_PATTERNS] that match it
    ([_check_patterns]), the number of [form] elements and the number of
    external links. *)
Record page : Type := {
  text : string;
  pattern_matches : list string;
  forms : nat;
  external_links : nat
}.

(** [result.update(other)] *)
Definition update (result : list (string * value)) (other : value)
  : list (string * value) :=
  match other with
  | VDict d => fold_left (fun r kv => dict_set r (fst kv) (snd kv)) d result
  | _ => result
  end.

(** [analyze_content] from the point where the page has been fetched and
    parsed: [fetched] is [None] when [_fetch_content] gave the empty string.
    An exception of the two scoring steps is recorded under [error]; the
    exceptions of the fetching and parsing libraries are outside the
    model. *)
Definition analyze_content (domain : string) (fetched : option page) : value :=
  let result : list (string * value) :=
    [ ("domain", VStr domain);
      ("content_available", VBool false);
      ("scam_score", VFloat 0.5);
      ("risk_keyword_count", VInt 0);
      ("high_risk_keywords", VList []);
      ("medium_risk_keywords", VList []);
      ("suspicious_patterns", VList []);
      ("text_length", VInt 0);
      ("has_forms", VBool false);
      ("external_links_count", VInt 0);
      ("analysis", VList []) ] in
  match fetched with
  | Some pg =>
      let result := dict_set result "content_available" (VBool true) in
      let result :=
        dict_set result "text_length" (VInt (Z.of_nat (String.length (text pg)))) in
      (* Analyze for scam keywords *)
      let keyword_analysis := _analyze_keywords (text pg) in
      let result := update result keyword_analysis in
      (* Check for suspicious patterns *)
      let result :=
        dict_set result "suspicious_patterns" (VList (map VStr (pattern_matches pg))) in
      (* Check for forms (phishing indicator) *)
      let result := dict_set result "has_forms" (VBool (Z.of_nat (forms pg) >? 0)) in
      (* Count external links *)
      let result :=
        dict_set result "external_links_count" (VInt (Z.of_nat (external_links pg))) in
      (* Calculate scam score *)
      match _calculate_content_score (VDict result) with
      | Ok scam_score =>
          let result := dict_set result "scam_score" scam_score in
          (* Generate analysis *)
          match _generate_content_analysis (VDict result) with
          | Ok analysis => VDict (dict_set result "analysis" (VList (map VStr analysis)))
          | Raise e => VDict (dict_set result "error" (VStr (exn_msg e)))
          end
      | Raise e => VDict (dict_set result "error" (VStr (exn_msg e)))
      end
  | None =>
      VDict (dict_set result "analysis"
               (VList [VStr "Website content could not be retrieved"]))
  end.

End Analysis.

End ContentAnalyzer.

(* ================================================================= *)
(** ** services/hosting_service.py: HostingService *)

Module HostingService.
Import Py.

(** [HOSTING_REPUTATION]: key, score and display name, in the order of the
    source. *)
Definition HOSTING_REPUTATION : list (string * (Z * string)) :=
  [ ("amazon", (70, "Amazon Web Services"));
    ("google", (75, "Google Cloud"));
    ("microsoft", (75, "Microsoft Azure"));
    ("cloudflare", (80, "Cloudflare"));
    ("digitalocean", (65, "DigitalOcean"));
    ("ovh", (60, "OVH"));
    ("hetzner", (65, "Hetzner"));
    ("linode", (70, "Linode"));
    ("vultr", (65, "Vultr"));
    ("namecheap", (55, "Namecheap"));
    ("godaddy", (55, "GoDaddy")) ].

Definition BULLETPROOF_INDICATORS : list string :=
  [ "offshore"; "privacy"; "anonymous"; "bulletproof" ].

(** The first table entry whose key occurs in [text]. *)
Fixpoint first_provider (text : string) (table : list (string * (Z * string)))
  : option (Z * string) :=
  match table with
  | [] => None
  | (provider_key, provider_info) :: rest =>
      if str_contains provider_key text then Some provider_info
      else first_provider text rest
  end.

(** [parts[-2]] and [parts[-1]] of a list with at least two elements. *)
Fixpoint last_two (parts : list string) : option (string * string) :=
  match parts with
  | [a; b] => Some (a, b)
  | _ :: rest => last_two rest
  | [] => None
  end.

Definition _identify_provider (hostname : string) : string :=
  let hostname_lower := PyStr.lower hostname in
  match first_provider hostname_lower HOSTING_REPUTATION with
  | Some provider_info => snd provider_info
  | None =>
      (* Extract domain from hostname *)
      let parts := PyStr.split "." hostname in
      match last_two parts with
      | Some (a, b) => a ++ "." ++ b
      | None => hostname
      end
  end.

Definition _get_provider_reputation (provider : string) : option (Z * string) :=
  let provider_lower := PyStr.lower provider in
  first_provider provider_lower HOSTING_REPUTATION.

(** [get_hosting_info].  What the method obtains from outside is given:
    [reverse_dns] is the awaited [_get_reverse_dns(ip)] ([None] on failure),
    [suspicious] the answer of [_is_suspicious_ip(ip)] (the [ipaddress]
    library), [asn] and [country] the values of the two simulated lookups.
    The reputation is an integer throughout. *)
Definition get_hosting_info (domain : string) (ip : option string)
  (reverse_dns : option string) (suspicious : bool) (asn country : value) : value :=
  let hosting_provider := "Unknown" in
  let reputation_score := 50 in
  let is_cloud := false in
  let risk_factors : list string := [] in
  let ip_given := match ip with Some s => negb (String.eqb s "") | None => false end in
  let '(hosting_provider, reputation_score, is_cloud) :=
    if ip_given then
      match reverse_dns with
      | Some hostname =>
          if negb (String.eqb hostname "") then
            let hosting_provider := _identify_provider hostname in
            match _get_provider_reputation hosting_provider with
            | Some provider_info => (hosting_provider, fst provider_info, true)
            | None => (hosting_provider, reputation_score, is_cloud)
            end
          else (hosting_provider, reputation_score, is_cloud)
      | None => (hosting_provider, reputation_score, is_cloud)
      end
    else (hosting_provider, reputation_score, is_cloud) in
  let '(risk_factors, reputation_score) :=
    if ip_given && suspicious
    then ((risk_factors ++ ["IP in suspicious range"])%list, reputation_score - 15)
    else (risk_factors, reputation_score) in
  let '(asn, country) := if ip_given then (asn, country) else (VNone, VNone) in
  (* Check for bulletproof hosting indicators *)
  let '(risk_factors, reputation_score) :=
    if existsb (fun indicator => str_contains indicator (PyStr.lower hosting_provider))
         BULLETPROOF_INDICATORS
    then ((risk_factors ++ ["Possible bulletproof hosting"])%list, reputation_score - 25)
    else (risk_factors, reputation_score) in
  (* Adjust score boundaries *)
  let reputation_score := Z.max 0 (Z.min 100 reputation_score) in
  VDict [ ("domain", VStr domain);
          ("ip", match ip with Some s => VStr s | None => VNone end);
          ("hosting_provider", VStr hosting_provider);
          ("reputation_score", VInt reputation_score);
          ("asn", asn);
          ("country", country);
          ("is_cloud", VBool is_cloud);
          ("risk_factors", VList (map VStr risk_factors)) ].

End HostingService.

(* ================================================================= *)
(** ** services/whois_service.py: the fallback data of WhoisService *)

Module WhoisService.
Import Py.

Section Clock.

(** The text of [(datetime.now() - timedelta(days=n)).isoformat()] and of
    [(datetime.now() + timedelta(days=365)).isoformat()]. *)
Variable creation_date_text : Z -> string.
Variable expiration_date_text : string.

Definition suspicious_tlds : list string := ["xyz"; "top"; "club"; "online"; "site"; "tech"].

Definition _generate_fallback_data (domain : string) : value :=
  let tld := last (PyStr.split "." domain) "" in
  let first_label := hd "" (PyStr.split "." domain) in
  let age_days :=
    if existsb (String.eqb tld) suspicious_tlds
       || (Z.of_nat (String.length first_label) >? 20)
    then 15
    else if PyStr.any_digit domain && (Z.of_nat (String.length first_label) >? 12)
    then 45
    else 800 in
  VDict [ ("domain", VStr domain);
          ("domain_age_days", VInt age_days);
          ("creation_date", VStr (creation_date_text age_days));
          ("expiration_date", VStr expiration_date_text);
          ("registrar", VStr "Unknown (Simulated)");
          ("privacy_protected", VBool false);
          ("status", VStr "simulated");
          ("note", VStr "This is simulated data for demonstration purposes") ].

End Clock.

End WhoisService.

(* ================================================================= *)
(** ** services/blacklist_service.py: BlacklistService *)

Module BlacklistService.
Import Py.

Definition DOMAIN_BLACKLISTS : list string :=
  [ "dbl.spamhaus.org"; "multi.uribl.com"; "rhsbl.sorbs.net"; "nomail.rhsbl.sorbs.net" ].

Definition IP_BLACKLISTS : list string :=
  [ "zen.spamhaus.org"; "bl.spamcop.net"; "dnsbl.sorbs.net"; "cbl.abuseat.org" ].

Definition SCAM_KEYWORDS : list string :=
  [ "verify-account"; "confirm-identity"; "suspended-account"; "urgent-action";
    "claim-prize"; "free-money"; "crypto-giveaway"; "bitcoin-generator" ].

Definition _check_scam_patterns (domain : string) : bool :=
  let domain_lower := PyStr.lower domain in
  if existsb (fun keyword => str_contains keyword domain_lower) SCAM_KEYWORDS then true
  else
    let digit_count := PyStr.digit_count domain in
    if digit_count >? 5 then true
    else
      let hyphen_count := PyStr.count_char "-" domain in
      if hyphen_count >? 3 then true else false.

Definition _has_unicode_chars (domain : string) : bool := negb (PyStr.is_ascii domain).

Section Lookups.

(** The awaited [_dns_lookup(query)]: it catches every exception itself and
    answers whether the query resolved. *)
Variable _dns_lookup : string -> bool.

Definition _query_dbl (domain blacklist : string) : bool :=
  _dns_lookup (domain ++ "." ++ blacklist).

Definition _query_dnsbl (reversed_ip blacklist : string) : bool :=
  _dns_lookup (reversed_ip ++ "." ++ blacklist).

Definition _check_domain_blacklists (domain : string) : list value :=
  flat_map
    (fun blacklist =>
       if _query_dbl domain blacklist
       then [ VDict [ ("blacklist", VStr blacklist);
                      ("type", VStr "domain");
                      ("listed", VBool true) ] ]
       else [])
    DOMAIN_BLACKLISTS.

Definition _check_ip_blacklists (ip : string) : list value :=
  let reversed_ip := String.concat "." (rev (PyStr.split "." ip)) in
  flat_map
    (fun blacklist =>
       if _query_dnsbl reversed_ip blacklist
       then [ VDict [ ("blacklist", VStr blacklist);
                      ("type", VStr "ip");
                      ("listed", VBool true);
                      ("ip", VStr ip) ] ]
       else [])
    IP_BLACKLISTS.

Definition suspicious_tlds : list string :=
  [ ".tk"; ".ml"; ".ga"; ".cf"; ".gq"; ".xyz"; ".top"; ".club" ].

Definition check_domain (domain : string) (ip : option string) : value :=
  (* Check domain-based blacklists *)
  let blacklists := _check_domain_blacklists domain in
  (* Check IP-based blacklists if IP provided *)
  let blacklists :=
    match ip with
    | Some s => if negb (String.eqb s "") then (blacklists ++ _check_ip_blacklists s)%list
                else blacklists
    | None => blacklists
    end in
  let blacklist_hits := Z.of_nat (List.length blacklists) in
  let risk_indicators : list string := [] in
  (* Check for scam patterns in domain name *)
  let scam_pattern_detected := _check_scam_patterns domain in
  let risk_indicators :=
    if scam_pattern_detected
    then (risk_indicators ++ ["Domain name contains scam-related keywords"])%list
    else risk_indicators in
  (* Check for suspicious TLDs *)
  let risk_indicators :=
    if existsb (fun tld => PyStr.endswith tld domain) suspicious_tlds
    then (risk_indicators ++ ["Domain uses commonly abused TLD"])%list
    else risk_indicators in
  (* Check for lookalike domains (homograph attack indicators) *)
  let risk_indicators :=
    if _has_unicode_chars domain
    then (risk_indicators
          ++ ["Domain contains non-ASCII characters (possible homograph attack)"])%list
    else risk_indicators in
  VDict [ ("domain", VStr domain);
          ("blacklist_hits", VInt blacklist_hits);
          ("blacklists", VList blacklists);
          ("scam_pattern_detected", VBool scam_pattern_detected);
          ("risk_indicators", VList (map VStr risk_indicators)) ].

End Lookups.

End BlacklistService.

(* ================================================================= *)
(** ** services/ssl_service.py and services/dns_service.py: the answers for
    a failed check *)

Module SSLService.
Import Py.

Definition _get_no_ssl_response (domain error : string) : value :=
  VDict [ ("domain", VStr domain);
          ("has_ssl", VBool false);
          ("ssl_valid", VBool false);
          ("issuer", VNone);
          ("valid_from", VNone);
          ("valid_until", VNone);
          ("days_until_expiry", VNone);
          ("version", VNone);
          ("cipher", VNone);
          ("error", VStr error) ].

End SSLService.

Module DNSService.
Import Py.

Definition _get_failed_resolution (domain error : string) : value :=
  VDict [ ("domain", VStr domain);
          ("resolved", VBool false);
          ("ip", VNone);
          ("ip_addresses", VList []);
          ("hostname", VNone);
          ("ip_version", VNone);
          ("error", VStr error) ].

End DNSService.

(* ================================================================= *)
(** ** Vocabulary of the properties *)

Module Spec.
Import Py.

(** [v] is a number between [lo] and [hi] (no upper bound for [None]). *)
Definition in_range (lo : Q) (hi : option Q) (v : value) : bool :=
  match num_of v with
  | Some q =>
      Qle_bool lo q && match hi with Some h => Qle_bool q h | None => true end
  | None => false
  end.

Definition in_unit (v : value) : bool := in_range 0 (Some 1%Q) v.

(** Every one of the ten features of a normalized vector is in [0,1]. *)
Definition all_features_in_unit (normalized : value) : bool :=
  forallb
    (fun name =>
       match getitem normalized name with
       | Ok v => in_unit v
       | Raise _ => false
       end)
    (MLModel.feature_names MLModel.init).

(** The ranges the comments of [_normalize_features] take for granted:
    counts are not negative, binary features are 0 or 1, the hosting
    reputation is "already 0-100" and the content score "already 0-1". *)
Definition nominal_ranges : list (string * (Q * option Q)) :=
  [ ("domain_age_days", (0, None));
    ("has_https", (0, Some 1));
    ("ssl_valid", (0, Some 1));
    ("dns_resolved", (0, Some 1));
    ("has_whois_privacy", (0, Some 1));
    ("blacklist_count", (0, None));
    ("hosting_reputation_score", (0, Some 100));
    ("content_scam_score", (0, Some 1));
    ("domain_length", (0, None));
    ("content_risk_keywords", (0, None)) ]%Q.

Definition field_ok {A} (d : list (string * A)) (k : string) (p : A -> bool) : bool :=
  match assoc k d with
  | Some v => p v
  | None => true
  end.

(** A raw feature dict whose entries, where present, are in their nominal
    ranges. *)
Definition nominal_features (features : value) : bool :=
  match features with
  | VDict d =>
      forallb (fun r => field_ok d (fst r) (in_range (fst (snd r)) (snd (snd r))))
        nominal_ranges
  | _ => false
  end.

(** The upper clamp [min(x, 1.0)]. *)
Definition clamp1 (x : Q) : Q := if Qlt_bool 1.0 x then 1.0%Q else x.


Definition old_domain_features : value :=
  VDict [ ("domain_age_days", VInt 100000);
          ("has_https", VInt 1);
          ("ssl_valid", VInt 1);
          ("blacklist_count", VInt 0);
          ("hosting_reputation_score", VInt 80);
          ("content_scam_score", VFloat 0.2);
          ("dns_resolved", VInt 1);
          ("domain_length", VInt 11);
          ("has_whois_privacy", VInt 0);
          ("content_risk_keywords", VInt 0) ].

(** *** Confidence of the model *)

(** A feature vector: a dict all of whose entries are numbers. *)
Definition is_number (v : value) : bool :=
  match num_of v with Some _ => true | None => false end.

Definition numeric_vector (nf : value) : bool :=
  match nf with
  | VDict d => forallb (fun kv => is_number (snd kv)) d
  | _ => false
  end.

(** The number stored under [name], [default] when the key is absent. *)
Definition feature (nf : value) (name : string) (default : Q) : Q :=
  match nf with
  | VDict d =>
      match assoc name d with
      | Some v => match num_of v with Some q => q | None => default end
      | None => default
      end
  | _ => default
  end.

(** How many of the four signals are informative. *)
Definition data_availability (nf : value) : Z :=
  Z_of_bool (Qeq_bool (feature nf "dns_resolved" 0) 1)
  + Z_of_bool (Qlt_bool 0 (feature nf "domain_age_days" 0))
  + Z_of_bool (Qeq_bool (feature nf "has_https" 0) 0
               || Qeq_bool (feature nf "has_https" 0) 1)
  + Z_of_bool (negb (Qeq_bool (feature nf "content_scam_score" 0.5) 0.5)).

(** The confidence as the specification words it: availability over four,
    raised to 0.9 on a blacklist hit, raised to 0.8 on an extreme content
    score, capped at 0.95. *)
Definition confidence_spec (nf : value) : Q :=
  let c := (inject_Z (data_availability nf) / 4)%Q in
  let c := if Qlt_bool 0 (feature nf "blacklist_count" 0) then Qmax c 0.9 else c in
  let content := feature nf "content_scam_score" 0.5 in
  let c := if Qlt_bool 0.7 content || Qlt_bool content 0.3 then Qmax c 0.8 else c in
  Qmin c 0.95.

Definition blacklisted_vector : value :=
  VDict [ ("domain_age_days", VFloat 0.01);
          ("has_https", VInt 0);
          ("blacklist_count", VFloat 0.4);
          ("content_scam_score", VFloat 0.5);
          ("dns_resolved", VInt 1) ].

(** *** Verdict *)

(** The blacklist hit count as [determine_verdict] reads it. *)
Definition hit_count (signals : value) : res value :=
  blacklist <- get signals "blacklist" (VDict []);;
  get blacklist "blacklist_hits" (VInt 0).

(** The verdict table of the combiner, first match first. *)
Definition verdict_for (hits final_score : Q) : string * Q :=
  if Qlt_bool 0 hits then ("LIKELY SCAM", 0.95%Q)
  else if Qle_bool 70 final_score then ("LIKELY SCAM", 0.85%Q)
  else if Qle_bool 40 final_score then ("SUSPICIOUS", 0.75%Q)
  else ("SAFE", 0.80%Q).

(** The verdict strings of the code, and the three names the specification
    gives for them. *)
Definition verdict_strings : list string := ["SAFE"; "SUSPICIOUS"; "LIKELY SCAM"].
Definition claimed_verdict_strings : list string := ["SAFE"; "SUSPICIOUS"; "LIKELY_SCAM"].

Definition blacklisted_bundle : value :=
  VDict [ ("whois", VDict [ ("domain", VStr "example.com"); ("domain_age_days", VInt 800) ]);
          ("ssl", VDict [ ("has_ssl", VBool true); ("ssl_valid", VBool true);
                          ("days_until_expiry", VInt 200) ]);
          ("dns", VDict [ ("resolved", VBool true) ]);
          ("blacklist", VDict [ ("blacklist_hits", VInt 1);
                                ("blacklists",
                                 VList [ VDict [ ("blacklist", VStr "dbl.spamhaus.org");
                                                 ("type", VStr "domain");
                                                 ("listed", VBool true) ] ]);
                                ("scam_pattern_detected", VBool false);
                                ("risk_indicators", VList []) ]);
          ("hosting", VDict [ ("reputation_score", VInt 80);
                              ("hosting_provider", VStr "Cloudflare") ]);
          ("content", VDict [ ("content_available", VBool false);
                              ("scam_score", VFloat 0.5) ]) ].


(** *** Rule score *)

(** The blacklist hit count, when it is a number, is not negative (the
    collaborator reports the length of a list). *)
Definition hits_nonneg (signals : value) : bool :=
  match hit_count signals with
  | Ok hv => match num_of hv with Some q => Qle_bool 0 q | None => true end
  | Raise _ => true
  end.

(** The seven category scores as [calculate_risk_score] requests them. *)
Definition category_scores (self : RiskEngine.t) (signals : value)
  : res (Z * Z * value * Z * Z * Z * Z) :=
  whois <- get signals "whois" (VDict []);;
  domain_age_days <- get whois "domain_age_days" (VInt 0);;
  age_score <- RiskEngine._calculate_age_score self domain_age_days;;
  ssl <- get signals "ssl" (VDict []);;
  ssl_score <- RiskEngine._calculate_ssl_score self ssl;;
  blacklist <- get signals "blacklist" (VDict []);;
  blacklist_score <- RiskEngine._calculate_blacklist_score self blacklist;;
  hosting <- get signals "hosting" (VDict []);;
  hosting_score <- RiskEngine._calculate_hosting_score self hosting;;
  content <- get signals "content" (VDict []);;
  content_score <- RiskEngine._calculate_content_score self content;;
  dns <- get signals "dns" (VDict []);;
  dns_score <- RiskEngine._calculate_dns_score self dns;;
  pattern_score <- RiskEngine._calculate_pattern_score self signals;;
  Ok (age_score, ssl_score, blacklist_score, hosting_score, content_score,
      dns_score, pattern_score).

Definition many_hits_bundle : value :=
  VDict [ ("whois", VDict [ ("domain", VStr "free-money-123456.xyz");
                            ("domain_age_days", VInt 3) ]);
          ("blacklist", VDict [ ("blacklist_hits", VInt 100);
                                ("risk_indicators",
                                 VList [ VStr "Domain uses commonly abused TLD" ]) ]);
          ("hosting", VDict [ ("reputation_score", VInt 10) ]) ].

(** *** SSL category *)

(** A valid certificate on the day it expires. *)
Definition expiring_today_ssl : value :=
  VDict [ ("has_ssl", VBool true); ("ssl_valid", VBool true);
          ("days_until_expiry", VInt 0) ].

(** The SSL points as the specification words them, and as the code
    computes them on a typed sub-record ([days = None]: key absent or
    [None]). *)
Definition ssl_points_claimed (has_ssl ssl_valid : bool) (days : option Z) : Z :=
  if negb has_ssl then 15
  else if negb ssl_valid then 10
  else match days with
       | Some n => if n <? 30 then 5 else 0
       | None => 0
       end.

Definition ssl_points (has_ssl ssl_valid : bool) (days : option Z) : Z :=
  if negb has_ssl then 15
  else if negb ssl_valid then 10
  else match days with
       | Some n => if negb (n =? 0) && (n <? 30) then 5 else 0
       | None => 0
       end.

Definition days_value (days : option Z) : value :=
  match days with Some n => VInt n | None => VNone end.

(** *** Missing age *)

(** The age as [calculate_risk_score] reads it. *)
Definition age_lookup (signals : value) : res value :=
  whois <- get signals "whois" (VDict []);;
  get whois "domain_age_days" (VInt 0).

(** The bundle has no [whois] sub-record, or one without [domain_age_days]. *)
Definition age_absent (signals : value) : bool :=
  match signals with
  | VDict d =>
      match assoc "whois" d with
      | None => true
      | Some (VDict w) =>
          match assoc "domain_age_days" w with None => true | Some _ => false end
      | Some _ => false
      end
  | _ => false
  end.

Definition no_age_bundle : value :=
  VDict [ ("whois", VDict [ ("domain", VStr "example.com") ]);
          ("ssl", VDict [ ("has_ssl", VBool true); ("ssl_valid", VBool true) ]);
          ("dns", VDict [ ("resolved", VBool true) ]) ].

(** *** Pattern category *)

Definition indicator_points (indicator : string) : Z :=
  if str_contains "TLD" indicator then 10
  else if str_contains "homograph" indicator then 15
  else 0.


Fixpoint count_digits (s : string) : Z :=
  match s with
  | EmptyString => 0
  | String c s' => Z_of_bool (is_digit c) + count_digits s'
  end.

Definition domain_points (name : string) : Z :=
  (if Z.of_nat (String.length name) >? 30 then 5 else 0)
  + (if count_digits name >? 5 then 5 else 0).

Fixpoint sum_points (f : string -> Z) (indicators : list string) : Z :=
  match indicators with
  | [] => 0
  | i :: rest => f i + sum_points f rest
  end.

Definition pattern_points (indicators : list string) (name : string) : Z :=
  sum_points indicator_points indicators + domain_points name.




Definition patterns_bundle : value :=
  VDict [ ("whois", VDict [ ("domain", VStr "secure-login-verification-1234567.example.xyz") ]);
          ("blacklist",
           VDict [ ("risk_indicators",
                    VList [ VStr "Domain name contains scam-related keywords";
                            VStr "Domain uses commonly abused TLD";
                            VStr "Domain contains non-ASCII characters (possible homograph attack)" ]) ]) ].

(** *** Explanation trail *)

Definition is_bool (v : value) : bool := match v with VBool _ => true | _ => false end.
Definition is_int (v : value) : bool := match v with VInt _ => true | _ => false end.
Definition is_str (v : value) : bool := match v with VStr _ => true | _ => false end.
Definition is_int_or_none (v : value) : bool :=
  match v with VInt _ | VNone => true | _ => false end.
Definition is_list_of (p : value -> bool) (v : value) : bool :=
  match v with VList l => forallb p l | _ => false end.

(** An entry of [blacklists]: a dict with a string under [blacklist]. *)
Definition is_blacklist_entry (v : value) : bool :=
  match v with
  | VDict d => match assoc "blacklist" d with Some (VStr _) => true | _ => false end
  | _ => false
  end.

(** The sub-record [name] of a bundle is absent or a dict that [p] accepts. *)
Definition record_ok (d : list (string * value)) (name : string)
  (p : list (string * value) -> bool) : bool :=
  match assoc name d with
  | None => true
  | Some (VDict r) => p r
  | Some _ => false
  end.

Definition whois_ok (r : list (string * value)) : bool :=
  field_ok r "domain_age_days" is_int
  && field_ok r "privacy_protected" is_bool
  && field_ok r "domain" is_str.

Definition ssl_ok (r : list (string * value)) : bool :=
  field_ok r "has_ssl" is_bool
  && field_ok r "ssl_valid" is_bool
  && field_ok r "days_until_expiry" is_int_or_none.

Definition dns_ok (r : list (string * value)) : bool :=
  field_ok r "resolved" is_bool.

Definition blacklist_ok (r : list (string * value)) : bool :=
  field_ok r "blacklist_hits" is_int
  && field_ok r "blacklists" (is_list_of is_blacklist_entry)
  && field_ok r "scam_pattern_detected" is_bool
  && field_ok r "risk_indicators" (is_list_of is_str).

Definition hosting_ok (r : list (string * value)) : bool :=
  field_ok r "reputation_score" is_int
  && field_ok r "hosting_provider" is_str.

Definition content_ok (r : list (string * value)) : bool :=
  field_ok r "scam_score" is_number
  && field_ok r "risk_keyword_count" is_int
  && field_ok r "high_risk_keywords" (is_list_of is_str)
  && field_ok r "medium_risk_keywords" (is_list_of is_str)
  && field_ok r "has_forms" is_bool
  && field_ok r "content_available" is_bool.

(** A SignalBundle: six optional sub-records whose keys, where present, have
    the types of the collaborator interface. *)
Definition signal_bundle (signals : value) : bool :=
  match signals with
  | VDict d =>
      record_ok d "whois" whois_ok
      && record_ok d "ssl" ssl_ok
      && record_ok d "dns" dns_ok
      && record_ok d "blacklist" blacklist_ok
      && record_ok d "hosting" hosting_ok
      && record_ok d "content" content_ok
  | _ => false
  end.

Definition int_at_least (lo : Z) (v : value) : bool :=
  match v with VInt z => lo <=? z | _ => false end.

Definition int_between (lo hi : Z) (v : value) : bool :=
  match v with VInt z => (lo <=? z) && (z <=? hi) | _ => false end.

(** A bundle whose numeric entries, where present, are in the ranges of the
    collaborator interface: age, hit count and keyword count not negative,
    reputation within 0..100, content score within 0..1. *)
Definition ranged_bundle (signals : value) : bool :=
  match signals with
  | VDict d =>
      record_ok d "whois"
        (fun r => field_ok r "domain_age_days" (int_at_least 0)
                  && field_ok r "domain" is_str)
      && record_ok d "ssl" (fun _ => true)
      && record_ok d "dns" (fun _ => true)
      && record_ok d "blacklist" (fun r => field_ok r "blacklist_hits" (int_at_least 0))
      && record_ok d "hosting" (fun r => field_ok r "reputation_score" (int_between 0 100))
      && record_ok d "content"
           (fun r => field_ok r "scam_score" (in_range 0 (Some 1%Q))
                     && field_ok r "risk_keyword_count" (int_at_least 0))
  | _ => false
  end.

Definition is_banner (line : string) : bool :=
  String.eqb line RiskEngine.scam_banner
  || String.eqb line RiskEngine.suspicious_banner
  || String.eqb line RiskEngine.safe_banner.

Definition banner_for (final_score : Q) : string :=
  if Qle_bool 70 final_score then RiskEngine.scam_banner
  else if Qle_bool 40 final_score then RiskEngine.suspicious_banner
  else RiskEngine.safe_banner.

Definition no_banner (lines : list string) : Prop :=
  Forall (fun line => is_banner line = false) lines.

(** The statement [m] returns and only appends lines, none of them a
    verdict banner. *)
Definition appends_lines (m : RiskEngine.M unit) : Prop :=
  forall ex, exists lines,
    m ex = (Ok tt, (ex ++ lines)%list) /\ no_banner lines.

(** A stand-in for the text of floats and containers. *)
Definition plain_repr (v : value) : string := "<" ++ type_name v ++ ">".

Definition rich_bundle : value :=
  VDict [ ("whois", VDict [ ("domain", VStr "win-prize-now.top"); ("domain_age_days", VInt 12);
                            ("privacy_protected", VBool true) ]);
          ("ssl", VDict [ ("has_ssl", VBool true); ("ssl_valid", VBool true);
                          ("days_until_expiry", VInt 12) ]);
          ("dns", VDict [ ("resolved", VBool true) ]);
          ("blacklist", VDict [ ("blacklist_hits", VInt 2);
                                ("blacklists",
                                 VList [ VDict [ ("blacklist", VStr "dbl.spamhaus.org") ];
                                         VDict [ ("blacklist", VStr "multi.uribl.com") ] ]);
                                ("scam_pattern_detected", VBool true);
                                ("risk_indicators",
                                 VList [ VStr "Domain uses commonly abused TLD" ]) ]);
          ("hosting", VDict [ ("reputation_score", VInt 80);
                              ("hosting_provider", VStr "Cloudflare") ]);
          ("content", VDict [ ("content_available", VBool true);
                              ("scam_score", VFloat 0.8);
                              ("risk_keyword_count", VInt 3);
                              ("high_risk_keywords", VList [ VStr "winner"; VStr "act now" ]);
                              ("medium_risk_keywords", VList [ VStr "free gift" ]);
                              ("has_forms", VBool true) ]) ].

End Spec.

(* ================================================================= *)
(** ** Vocabulary of the further properties *)

Module Props.
Import Py.

(** The statement [m] only appends lines, none of them a verdict banner,
    whether it returns or raises. *)
Definition appends_or_raises (m : RiskEngine.M unit) : Prop :=
  forall ex, exists lines r,
    m ex = (r, (ex ++ lines)%list) /\ Spec.no_banner lines.

(** The statement [m] leaves the list as it is. *)
Definition keeps_lines {A} (m : RiskEngine.M A) : Prop :=
  forall ex, exists r, m ex = (r, ex).

Definition error_line : string := "Error generating detailed explanations".

(** What the [try] block leaves behind, started on lines without a banner:
    it returned, and the list is a banner, such lines, the empty line and the
    disclaimer; or it raised, and the list holds such lines only. *)
Definition block_outcome (out : res unit * list string) : Prop :=
  exists lines, Spec.no_banner lines /\
    ((exists banner, Spec.is_banner banner = true /\
        out = (Ok tt, (banner :: lines ++ [""; RiskEngine.disclaimer])%list))
     \/ (exists e, out = (Raise e, lines))).

(** The two shapes of an explanation trail. *)
Definition trail_shape (trail : list string) : Prop :=
  exists lines, Spec.no_banner lines /\
    ((exists banner, Spec.is_banner banner = true /\
        trail = (banner :: lines ++ [""; RiskEngine.disclaimer])%list)
     \/ trail = (lines ++ [error_line])%list).

(** The age brackets of the point table, for an integer age. *)
Definition age_points (d : Z) : Z :=
  if d <? 0 then 0
  else if d <=? 7 then 25
  else if d <=? 30 then 20
  else if d <=? 90 then 10
  else if d <=? 180 then 5
  else 0.

(** The age tiers of the explanation, for an integer age. *)
Definition age_lines (d : Z) : list string :=
  if d <? 7 then ["🚨 CRITICAL: Domain is extremely new (less than 1 week old)"]
  else if d <? 30 then ["⚠️ HIGH RISK: Domain is very new (less than 1 month old)"]
  else if d <? 90 then ["⚠️ MEDIUM: Domain is relatively new (less than 3 months old)"]
  else if 365 <? d then ["✅ POSITIVE: Domain is well-established (over 1 year old)"]
  else [].

(** The relation of a list sorted by value, largest first. *)
Definition value_ge (a b : string * Q) : Prop := (snd b <= snd a)%Q.

(** Each verdict with the banner that names it. *)
Definition verdict_banners : list (string * string) :=
  [ ("LIKELY SCAM", RiskEngine.scam_banner);
    ("SUSPICIOUS", RiskEngine.suspicious_banner);
    ("SAFE", RiskEngine.safe_banner) ].

Definition quiet_line : string := "No obvious content-based risk indicators detected".

(** The bundle [check_domain] fills from the answers of the six
    collaborators, in the order it asks them. *)
Definition collected (whois_data ssl_data dns_data blacklist_data hosting_data
                      content_data : value) : value :=
  VDict [ ("whois", whois_data);
          ("ssl", ssl_data);
          ("dns", dns_data);
          ("blacklist", blacklist_data);
          ("hosting", hosting_data);
          ("content", content_data) ].

(** A record (a dict) that [p] accepts. *)
Definition record_of (p : list (string * value) -> bool) (v : value) : bool :=
  match v with VDict r => p r | _ => false end.

(** The line of the SSL block for the points of the SSL category. *)
Definition ssl_line (points : Z) : string :=
  if points =? 15 then "🚨 CRITICAL: No HTTPS/SSL certificate detected"
  else if points =? 10 then "⚠️ HIGH RISK: SSL certificate is invalid or expired"
  else if points =? 5 then "⚠️ WARNING: SSL certificate expiring soon"
  else "✅ POSITIVE: Valid SSL certificate detected".

(** The line of the DNS block for the points of the DNS category. *)
Definition dns_lines (points : Z) : list string :=
  if points =? 20 then ["🚨 CRITICAL: Domain does not resolve to an IP address"]
  else [].

(** The line of the explanation for one risk indicator. *)
Definition warning_line (indicator : string) : string := "⚠️ WARNING: " ++ indicator.

Definition scam_keywords_line : string :=
  "⚠️ HIGH RISK: Domain name contains scam-related keywords".

(** The statement [m] returns and appends exactly [lines]. *)
Definition appends_exactly (m : RiskEngine.M unit) (lines : list string) : Prop :=
  forall ex, m ex = (Ok tt, (ex ++ lines)%list).

End Props.

(* ================================================================= *)
(** ** Properties *)

Import Py.

(** *** Rational comparisons *)

Lemma Qlt_bool_iff (a b : Q) : Qlt_bool a b = true <-> (a < b)%Q.
Proof.
  unfold Qlt_bool. rewrite negb_true_iff.
  split.
  - intros H. apply Qnot_le_lt. intros Hle.
    apply Qle_bool_iff in Hle. congruence.
  - intros H. destruct (Qle_bool b a) eqn:E; [|reflexivity].
    apply Qle_bool_iff in E. exfalso. apply (Qlt_not_le _ _ H E).
Qed.

Lemma Qlt_bool_false_iff (a b : Q) : Qlt_bool a b = false <-> (b <= a)%Q.
Proof.
  unfold Qlt_bool. rewrite negb_false_iff. apply Qle_bool_iff.
Qed.

(** *** Feature normalization (C1) *)

Lemma in_range_num lo hi v :
  Spec.in_range lo hi v = true ->
  exists q, num_of v = Some q /\ (lo <= q)%Q /\
            match hi with Some h => (q <= h)%Q | None => True end.
Proof.
  unfold Spec.in_range. destruct (num_of v) as [q|]; [|discriminate].
  intros H. apply andb_prop in H. destruct H as [H1 H2].
  exists q. split; [reflexivity|]. split.
  - now apply Qle_bool_iff.
  - destruct hi; [now apply Qle_bool_iff | exact I].
Qed.

Lemma in_unit_float (x : Q) : (0 <= x)%Q -> (x <= 1)%Q -> Spec.in_unit (VFloat x) = true.
Proof.
  intros H0 H1. unfold Spec.in_unit, Spec.in_range. simpl.
  apply andb_true_intro. split; now apply Qle_bool_iff.
Qed.

Lemma truediv_num v dv q c :
  num_of v = Some q -> num_of dv = Some c -> (0 < c)%Q ->
  truediv v dv = Ok (VFloat (q / c)).
Proof.
  intros Hv Hd Hc. unfold truediv. rewrite Hv, Hd.
  destruct (Qeq_bool c 0) eqn:E; [|reflexivity].
  apply Qeq_bool_iff in E. rewrite E in Hc. exfalso. apply (Qlt_irrefl _ Hc).
Qed.

Lemma min_float_one (x : Q) : min (VFloat x) (VFloat 1.0) = Ok (VFloat (Spec.clamp1 x)).
Proof.
  unfold min, lt, compare_op, Spec.clamp1. simpl.
  destruct (Qlt_bool 1.0 x); reflexivity.
Qed.

Lemma clamp1_le_one (x : Q) : (Spec.clamp1 x <= 1)%Q.
Proof.
  unfold Spec.clamp1. destruct (Qlt_bool 1.0 x) eqn:E.
  - lra.
  - apply Qlt_bool_false_iff in E. lra.
Qed.

Lemma clamp1_nonneg (x : Q) : (0 <= x)%Q -> (0 <= Spec.clamp1 x)%Q.
Proof.
  intros H. unfold Spec.clamp1. destruct (Qlt_bool 1.0 x); lra.
Qed.

Lemma clamp1_ratio_unit (q c : Q) :
  (0 <= q)%Q -> (0 < c)%Q -> Spec.in_unit (VFloat (Spec.clamp1 (q / c))) = true.
Proof.
  intros Hq Hc. apply in_unit_float.
  - apply clamp1_nonneg. apply Qle_shift_div_l; lra.
  - apply clamp1_le_one.
Qed.

Lemma in_unit_number (v : value) : Spec.in_range 0 (Some 1%Q) v = true -> Spec.is_number v = true.
Proof.
  unfold Spec.in_range, Spec.is_number. destruct (num_of v); [reflexivity | discriminate].
Qed.

Lemma field_default {A} (d : list (string * A)) k (p : A -> bool) dflt :
  Spec.field_ok d k p = true -> p dflt = true ->
  p (match assoc k d with Some v => v | None => dflt end) = true.
Proof.
  unfold Spec.field_ok. destruct (assoc k d); auto.
Qed.

Lemma normalize_features_nominal_aux (d : list (string * value)) :
  Spec.nominal_features (VDict d) = true ->
  exists nf qa,
    MLModel._normalize_features MLModel.init (VDict d) = Ok nf /\
    Spec.all_features_in_unit nf = true /\
    Spec.numeric_vector nf = true /\
    num_of (match assoc "domain_age_days" d with Some v => v | None => VInt 0 end)
      = Some qa /\
    getitem nf "domain_age_days" = Ok (VFloat (Spec.clamp1 (qa / inject_Z 1095))).
Proof.
  intros H. unfold Spec.nominal_features in H. simpl in H.
  repeat (apply andb_prop in H; destruct H as [?H H]).
  clear H.
  apply (fun h => field_default d _ _ (VInt 0) h eq_refl) in H0.
  apply (fun h => field_default d _ _ (VInt 0) h eq_refl) in H1.
  apply (fun h => field_default d _ _ (VInt 0) h eq_refl) in H2.
  apply (fun h => field_default d _ _ (VInt 0) h eq_refl) in H3.
  apply (fun h => field_default d _ _ (VInt 0) h eq_refl) in H4.
  apply (fun h => field_default d _ _ (VInt 0) h eq_refl) in H5.
  apply (fun h => field_default d _ _ (VInt 50) h eq_refl) in H6.
  apply (fun h => field_default d _ _ (VFloat 0.5) h eq_refl) in H7.
  apply (fun h => field_default d _ _ (VInt 0) h eq_refl) in H8.
  apply (fun h => field_default d _ _ (VInt 0) h eq_refl) in H9.
  unfold MLModel._normalize_features, get.
  set (age := match assoc "domain_age_days" d with Some v => v | None => _ end) in *.
  set (https := match assoc "has_https" d with Some v => v | None => _ end) in *.
  set (sslv := match assoc "ssl_valid" d with Some v => v | None => _ end) in *.
  set (dns := match assoc "dns_resolved" d with Some v => v | None => _ end) in *.
  set (priv := match assoc "has_whois_privacy" d with Some v => v | None => _ end) in *.
  set (bl := match assoc "blacklist_count" d with Some v => v | None => _ end) in *.
  set (rep := match assoc "hosting_reputation_score" d with Some v => v | None => _ end) in *.
  set (cs := match assoc "content_scam_score" d with Some v => v | None => _ end) in *.
  set (dl := match assoc "domain_length" d with Some v => v | None => _ end) in *.
  set (kw := match assoc "content_risk_keywords" d with Some v => v | None => _ end) in *.
  clearbody https sslv dns priv bl rep cs dl kw.
  destruct (in_range_num _ _ _ H0) as (qa & Na & La & _).
  destruct (in_range_num _ _ _ H5) as (qb & Nb & Lb & _).
  destruct (in_range_num _ _ _ H6) as (qr & Nr & Lr & Ur).
  destruct (in_range_num _ _ _ H8) as (ql & Nl & Ll & _).
  destruct (in_range_num _ _ _ H9) as (qk & Nk & Lk & _).
  cbn [bind].
  rewrite (truediv_num age (VInt (365 * 3)) qa (inject_Z 1095) Na eq_refl eq_refl).
  cbn [bind]. rewrite min_float_one. cbn [bind].
  rewrite (truediv_num bl (VFloat 5.0) qb 5.0%Q Nb eq_refl eq_refl).
  cbn [bind]. rewrite min_float_one. cbn [bind].
  rewrite (truediv_num rep (VFloat 100.0) qr 100.0%Q Nr eq_refl eq_refl).
  cbn [bind].
  rewrite (truediv_num dl (VFloat 50.0) ql 50.0%Q Nl eq_refl eq_refl).
  cbn [bind]. rewrite min_float_one. cbn [bind].
  rewrite (truediv_num kw (VFloat 10.0) qk 10.0%Q Nk eq_refl eq_refl).
  cbn [bind]. rewrite min_float_one. cbn [bind].
  eexists. exists qa. split; [reflexivity|].
  split; [|split; [|split; [exact Na | reflexivity]]].
  2: { cbn [Spec.numeric_vector dict_set String.eqb Ascii.eqb Bool.eqb forallb snd].
       rewrite (in_unit_number _ H1), (in_unit_number _ H2), (in_unit_number _ H3),
         (in_unit_number _ H4), (in_unit_number _ H7).
       reflexivity. }
  unfold Spec.all_features_in_unit. cbn [forallb MLModel.feature_names MLModel.init].
  cbn [dict_set String.eqb Ascii.eqb Bool.eqb getitem assoc].
  change (Spec.in_unit https = true) in H1. change (Spec.in_unit sslv = true) in H2.
  change (Spec.in_unit dns = true) in H3. change (Spec.in_unit priv = true) in H4.
  change (Spec.in_unit cs = true) in H7.
  rewrite H1, H2, H3, H4, H7.
  rewrite !clamp1_ratio_unit by (assumption || reflexivity).
  rewrite in_unit_float; [reflexivity | |].
  - apply Qle_shift_div_l; [reflexivity | lra].
  - apply Qle_shift_div_r; [reflexivity | lra].
Qed.




(** Nor is there a clamp from below, or any on the content score. *)
Example normalize_negative_age :
  exists nf q,
    MLModel._normalize_features MLModel.init (VDict [("domain_age_days", VInt (-1))])
      = Ok nf /\
    getitem nf "domain_age_days" = Ok (VFloat q) /\
    (q < 0)%Q /\
    Spec.all_features_in_unit nf = false.
Proof.
  eexists. eexists. split; [reflexivity|]. split; [reflexivity|].
  split; reflexivity.
Qed.

Example normalize_content_score_passes_through :
  exists nf,
    MLModel._normalize_features MLModel.init (VDict [("content_scam_score", VFloat 2.5)])
      = Ok nf /\
    getitem nf "content_scam_score" = Ok (VFloat 2.5) /\
    Spec.all_features_in_unit nf = false.
Proof.
  eexists. split; [reflexivity|]. split; reflexivity.
Qed.

(** *** Confidence (C7) *)

Lemma max_float (a b : Q) :
  max (VFloat a) (VFloat b) = Ok (VFloat (if Qlt_bool a b then b else a)).
Proof. unfold max, gt, compare_op. simpl. destruct (Qlt_bool a b); reflexivity. Qed.

Lemma min_float (a b : Q) :
  min (VFloat a) (VFloat b) = Ok (VFloat (if Qlt_bool b a then b else a)).
Proof. unfold min, lt, compare_op. simpl. destruct (Qlt_bool b a); reflexivity. Qed.

Lemma if_Qmax (a b : Q) : ((if Qlt_bool a b then b else a) == Qmax a b)%Q.
Proof.
  destruct (Qlt_bool a b) eqn:E.
  - apply Qlt_bool_iff in E. symmetry. apply Q.max_r. lra.
  - apply Qlt_bool_false_iff in E. symmetry. apply Q.max_l. exact E.
Qed.

Lemma if_Qmin (a b : Q) : ((if Qlt_bool b a then b else a) == Qmin a b)%Q.
Proof.
  destruct (Qlt_bool b a) eqn:E.
  - apply Qlt_bool_iff in E. symmetry. apply Q.min_r. lra.
  - apply Qlt_bool_false_iff in E. symmetry. apply Q.min_l. exact E.
Qed.

Lemma numeric_lookup (d : list (string * value)) (k : string) (dflt : value) (q0 : Q) :
  Spec.numeric_vector (VDict d) = true ->
  num_of dflt = Some q0 ->
  num_of (match assoc k d with Some v => v | None => dflt end)
    = Some (Spec.feature (VDict d) k q0).
Proof.
  unfold Spec.numeric_vector, Spec.feature.
  intros H Hd. induction d as [|[k' v] d IH]; simpl in *.
  - exact Hd.
  - apply andb_prop in H. destruct H as [Hv H].
    destruct (String.eqb k k').
    + unfold Spec.is_number in Hv. destruct (num_of v); [reflexivity | discriminate].
    + apply IH. exact H.
Qed.

Lemma gt_num v c q x :
  num_of v = Some q -> num_of c = Some x -> gt v c = Ok (Qlt_bool x q).
Proof. intros Hv Hc. unfold gt, compare_op. rewrite Hv, Hc. reflexivity. Qed.

Lemma lt_num v c q x :
  num_of v = Some q -> num_of c = Some x -> lt v c = Ok (Qlt_bool q x).
Proof. intros Hv Hc. unfold lt, compare_op. rewrite Hv, Hc. reflexivity. Qed.

Lemma ge_num v c q x :
  num_of v = Some q -> num_of c = Some x -> ge v c = Ok (Qle_bool x q).
Proof. intros Hv Hc. unfold ge, compare_op. rewrite Hv, Hc. reflexivity. Qed.

Lemma le_num v c q x :
  num_of v = Some q -> num_of c = Some x -> le v c = Ok (Qle_bool q x).
Proof. intros Hv Hc. unfold le, compare_op. rewrite Hv, Hc. reflexivity. Qed.

Lemma eq_num_num v q c : num_of v = Some q -> eq_num v c = Qeq_bool q c.
Proof. intros Hv. unfold eq_num. rewrite Hv. reflexivity. Qed.

Lemma data_availability_bounds (nf : value) :
  0 <= Spec.data_availability nf <= 4.
Proof.
  unfold Spec.data_availability, Z_of_bool.
  repeat match goal with |- context [if ?b then _ else _] => destruct b end; lia.
Qed.

Lemma confidence_spec_range (nf : value) :
  (0 <= Spec.confidence_spec nf <= 0.95)%Q.
Proof.
  unfold Spec.confidence_spec.
  assert (H0 : (0 <= inject_Z (Spec.data_availability nf) / 4)%Q).
  { apply Qle_shift_div_l; [reflexivity|].
    ring_simplify. change 0%Q with (inject_Z 0). rewrite <- Zle_Qle.
    apply data_availability_bounds. }
  set (c0 := (inject_Z (Spec.data_availability nf) / 4)%Q) in *.
  clearbody c0.
  cbv zeta.
  assert (Hmax : forall (b : bool) (x y : Q), (0 <= x)%Q ->
                 (0 <= (if b then Qmax x y else x))%Q).
  { intros b x y Hx. destruct b; [|exact Hx].
    apply Qle_trans with x; [exact Hx | apply Q.le_max_l]. }
  assert (H2 := Hmax (Qlt_bool 0.7 (Spec.feature nf "content_scam_score" 0.5)
                      || Qlt_bool (Spec.feature nf "content_scam_score" 0.5) 0.3)
                     _ 0.8%Q
                     (Hmax (Qlt_bool 0 (Spec.feature nf "blacklist_count" 0)) c0 0.9%Q H0)).
  split.
  - apply Q.min_glb; [exact H2 | discriminate].
  - apply Q.le_min_r.
Qed.

Lemma calculate_confidence_spec (self : MLModel.t) (d : list (string * value)) :
  Spec.numeric_vector (VDict d) = true ->
  exists c, MLModel._calculate_confidence self (VDict d) = Ok (VFloat c)
          /\ (c == Spec.confidence_spec (VDict d))%Q.
Proof.
  intros H.
  unfold MLModel._calculate_confidence, get. cbn [bind].
  pose proof (numeric_lookup d "dns_resolved" (VInt 0) 0 H eq_refl) as Hdns.
  pose proof (numeric_lookup d "domain_age_days" (VInt 0) 0 H eq_refl) as Hage.
  pose proof (numeric_lookup d "has_https" (VInt 0) 0 H eq_refl) as Hhttps.
  pose proof (numeric_lookup d "content_scam_score" (VFloat 0.5) 0.5 H eq_refl) as Hcs.
  pose proof (numeric_lookup d "blacklist_count" (VInt 0) 0 H eq_refl) as Hbl.
  rewrite (eq_num_num _ _ 1 Hdns), (eq_num_num _ _ 0 Hhttps), (eq_num_num _ _ 1 Hhttps),
    (eq_num_num _ _ 0.5 Hcs).
  rewrite (gt_num _ (VInt 0) _ 0 Hage eq_refl). cbn [bind].
  rewrite (gt_num _ (VInt 0) _ 0 Hbl eq_refl). cbn [bind].
  rewrite (gt_num _ (VFloat 0.7) _ 0.7 Hcs eq_refl). cbn [bind].
  rewrite (lt_num _ (VFloat 0.3) _ 0.3 Hcs eq_refl).
  unfold Spec.confidence_spec. cbv zeta.
  set (avail := Spec.data_availability (VDict d)).
  match goal with
  | |- context [(inject_Z ?z / 4.0)%Q] =>
      replace z with avail
        by (subst avail; unfold Spec.data_availability, Z_of_bool;
            repeat match goal with
                   | |- context [if ?b then _ else _] => destruct b
                   end; reflexivity)
  end.
  set (bl := Qlt_bool 0 (Spec.feature (VDict d) "blacklist_count" 0)).
  set (hi := Qlt_bool 0.7 (Spec.feature (VDict d) "content_scam_score" 0.5)).
  set (lo := Qlt_bool (Spec.feature (VDict d) "content_scam_score" 0.5) 0.3).
  clearbody avail bl hi lo.
  assert (E4 : (inject_Z avail / 4.0 == inject_Z avail / 4)%Q) by field.
  set (c0 := (inject_Z avail / 4.0)%Q) in *.
  destruct bl; cbn [bind]; rewrite ?max_float; cbn [bind];
    destruct hi; cbn [bind orb]; rewrite ?max_float; cbn [bind];
    try (destruct lo; cbn [bind]; rewrite ?max_float; cbn [bind]);
    rewrite min_float; eexists; (split; [reflexivity|]);
    rewrite if_Qmin, ?if_Qmax; rewrite E4; reflexivity.
Qed.

(** C7: on every numeric feature vector [_calculate_confidence] returns the
    confidence the specification describes (availability count over four,
    at least 0.9 on a blacklist hit, at least 0.8 on an extreme content
    score, capped at 0.95), a value in [0, 0.95]. *)
Theorem calculate_confidence_range (self : MLModel.t) (nf : value) :
  Spec.numeric_vector nf = true ->
  exists c,
    MLModel._calculate_confidence self nf = Ok (VFloat c) /\
    (c == Spec.confidence_spec nf)%Q /\
    (0 <= c <= 0.95)%Q.
Proof.
  intros H. destruct nf as [| | | | | |d]; try discriminate H.
  destruct (calculate_confidence_spec self d H) as (c & Hc & Heq).
  exists c. split; [exact Hc|]. split; [exact Heq|].
  rewrite Heq. apply confidence_spec_range.
Qed.

Lemma calculate_confidence_range_witness :
  exists c,
    MLModel._calculate_confidence MLModel.init Spec.blacklisted_vector = Ok (VFloat c) /\
    (c == Spec.confidence_spec Spec.blacklisted_vector)%Q /\
    (0 <= c <= 0.95)%Q.
Proof.
  apply (calculate_confidence_range MLModel.init Spec.blacklisted_vector). reflexivity.
Defined.

(** *** The prediction boundary (C8) *)

Lemma every_exn_is_Exception (e : exn) : is_Exception e = true.
Proof. destruct e as [[] msg]; reflexivity. Qed.

Lemma try_except_returns {A} (body : res A) (handler : exn -> res A) :
  (forall e, exists a, handler e = Ok a) ->
  exists a, try_except body handler = Ok a.
Proof.
  intros Hh. unfold try_except. destruct body as [a|e].
  - exists a. reflexivity.
  - rewrite every_exn_is_Exception. apply Hh.
Qed.

(** C8: whatever object is passed as [features], [predict] returns; when
    the [try] block raises, what it returns is the neutral fallback (risk
    score 50, probability 0.5, confidence 0.5, no feature importance)
    carrying the text of the error under the key [error]; when the block
    returns, [predict] returns its result. *)
Theorem predict_never_raises (np_exp : Q -> Q) (self : MLModel.t) (features : value) :
  (exists result, MLModel.predict np_exp self features = Ok result) /\
  (forall e,
     MLModel.predict_try np_exp self features = Raise e ->
     MLModel.predict np_exp self features =
       Ok (VDict [ ("risk_score", VFloat 50.0);
                   ("probability", VFloat 0.5);
                   ("confidence", VFloat 0.5);
                   ("feature_importance", VDict []);
                   ("error", VStr (exn_msg e)) ])) /\
  (forall result,
     MLModel.predict_try np_exp self features = Ok result ->
     MLModel.predict np_exp self features = Ok result).
Proof.
  split; [|split].
  - apply try_except_returns. intros e. eexists. reflexivity.
  - intros e He. unfold MLModel.predict, try_except. rewrite He.
    rewrite every_exn_is_Exception. reflexivity.
  - intros result Hr. unfold MLModel.predict, try_except. rewrite Hr. reflexivity.
Qed.

(** The fallback is taken on malformed input: a [None] age, a string where a
    flag is expected, or no dict at all. *)
Example predict_malformed_age (np_exp : Q -> Q) :
  MLModel.predict np_exp MLModel.init (VDict [("domain_age_days", VNone)]) =
    Ok (VDict [ ("risk_score", VFloat 50.0);
                ("probability", VFloat 0.5);
                ("confidence", VFloat 0.5);
                ("feature_importance", VDict []);
                ("error", VStr "unsupported operand type(s) for /: 'NoneType' and 'int'") ]).
Proof. reflexivity. Qed.

Example predict_malformed_flag (np_exp : Q -> Q) :
  MLModel.predict np_exp MLModel.init (VDict [("has_https", VStr "yes")]) =
    Ok (VDict [ ("risk_score", VFloat 50.0);
                ("probability", VFloat 0.5);
                ("confidence", VFloat 0.5);
                ("feature_importance", VDict []);
                ("error", VStr "can't multiply sequence by non-int of type 'float'") ]).
Proof. reflexivity. Qed.

Example predict_not_a_dict (np_exp : Q -> Q) :
  MLModel.predict np_exp MLModel.init VNone =
    Ok (VDict [ ("risk_score", VFloat 50.0);
                ("probability", VFloat 0.5);
                ("confidence", VFloat 0.5);
                ("feature_importance", VDict []);
                ("error", VStr "'NoneType' object has no attribute 'get'") ]).
Proof. reflexivity. Qed.

(** On features in their nominal ranges the [try] block returns, so
    [predict] gives a prediction and not the fallback. *)

Lemma mul_float_num v q w : num_of v = Some q -> mul_float v w = Ok (q * w)%Q.
Proof. intros Hv. unfold mul_float. rewrite Hv. reflexivity. Qed.

Lemma score_loop_returns (d : list (string * value)) (ws : list (string * Q)) (acc : Q) :
  Spec.numeric_vector (VDict d) = true ->
  exists s, MLModel.score_loop (VDict d) ws acc = Ok s.
Proof.
  intros H. revert acc. induction ws as [|[name w] ws IH]; intros acc.
  - exists acc. reflexivity.
  - cbn [MLModel.score_loop get bind].
    rewrite (mul_float_num _ _ w (numeric_lookup d name (VFloat 0.5) 0.5 H eq_refl)).
    cbn [bind]. apply IH.
Qed.

Lemma importance_loop_returns (d : list (string * value)) (ws : list (string * Q))
  (acc : list (string * Q)) :
  Spec.numeric_vector (VDict d) = true ->
  exists imp, MLModel.importance_loop (VDict d) ws acc = Ok imp.
Proof.
  intros H. revert acc. induction ws as [|[name w] ws IH]; intros acc.
  - exists acc. reflexivity.
  - cbn [MLModel.importance_loop get bind].
    rewrite (mul_float_num _ _ w (numeric_lookup d name (VFloat 0.5) 0.5 H eq_refl)).
    cbn [bind]. apply IH.
Qed.

Lemma predict_returns_prediction (np_exp : Q -> Q) (features : value) :
  Spec.nominal_features features = true ->
  exists score importance c,
    let probability := (1 / (1 + np_exp (- (score * 5))))%Q in
    MLModel.predict np_exp MLModel.init features =
      Ok (VDict [ ("risk_score", VFloat (probability * 100));
                  ("probability", VFloat probability);
                  ("confidence", VFloat c);
                  ("feature_importance", VDict importance);
                  ("model_version", VStr "1.0-simulated") ]) /\
    (0 <= c <= 0.95)%Q.
Proof.
  intros H. destruct features as [| | | | | |d]; try discriminate H.
  destruct (normalize_features_nominal_aux d H) as (nf & qa & Hn & _ & Hnum & _).
  destruct nf as [| | | | | |n]; try discriminate Hnum.
  destruct (score_loop_returns n (MLModel.weights MLModel.init) 0.0%Q Hnum) as (score & Hs).
  destruct (importance_loop_returns n (MLModel.weights MLModel.init) [] Hnum) as (imp & Hi).
  destruct (calculate_confidence_spec MLModel.init n Hnum) as (c & Hc & Heq).
  exists score. eexists. exists c. split.
  - unfold MLModel.predict, MLModel.predict_try.
    rewrite Hn. cbn [bind]. unfold MLModel._calculate_score. rewrite Hs. cbn [bind].
    unfold MLModel._sigmoid. cbn [try_except bind].
    unfold MLModel._calculate_feature_importance. rewrite Hi. cbn [bind].
    rewrite Hc. cbn [bind]. reflexivity.
  - rewrite Heq. apply confidence_spec_range.
Qed.

Example predict_old_domain (np_exp : Q -> Q) :
  exists score importance c,
    let probability := (1 / (1 + np_exp (- (score * 5))))%Q in
    MLModel.predict np_exp MLModel.init Spec.old_domain_features =
      Ok (VDict [ ("risk_score", VFloat (probability * 100));
                  ("probability", VFloat probability);
                  ("confidence", VFloat c);
                  ("feature_importance", VDict importance);
                  ("model_version", VStr "1.0-simulated") ]) /\
    (0 <= c <= 0.95)%Q.
Proof. apply predict_returns_prediction. reflexivity. Qed.

(** *** Rounding for presentation *)



(** *** Verdict and combination (C2, C3) *)

Lemma mul_float_agrees (a : value) (w : Q) :
  mul a (VFloat w) = bind (mul_float a w) (fun q => Ok (VFloat q)).
Proof. destruct a; reflexivity. Qed.

Lemma mul_num_float v q w :
  num_of v = Some q -> mul v (VFloat w) = Ok (VFloat (q * w)).
Proof.
  intros Hv. unfold mul. simpl int_of.
  destruct v; simpl in Hv; try discriminate; injection Hv as <-; reflexivity.
Qed.

Lemma determine_verdict_table (risk_score signals hv : value) (q h : Q) :
  Spec.hit_count signals = Ok hv ->
  num_of hv = Some h ->
  num_of risk_score = Some q ->
  Main.determine_verdict risk_score signals = Ok (Spec.verdict_for h q).
Proof.
  intros Hc Hh Hq. unfold Spec.hit_count in Hc. unfold Main.determine_verdict.
  destruct (get signals "blacklist" (VDict [])) as [bl|e]; [|discriminate Hc].
  cbn [bind] in *. rewrite Hc. cbn [bind].
  rewrite (gt_num hv (VInt 0) h 0 Hh eq_refl). cbn [bind].
  unfold Spec.verdict_for. destruct (Qlt_bool 0 h); [reflexivity|].
  rewrite (ge_num risk_score (VInt 70) q 70 Hq eq_refl). cbn [bind].
  destruct (Qle_bool 70 q); [reflexivity|].
  rewrite (ge_num risk_score (VInt 40) q 40 Hq eq_refl). cbn [bind].
  destruct (Qle_bool 40 q); reflexivity.
Qed.



(** The boundary scores of the specification, on a bundle without blacklist
    hits. *)
Example determine_verdict_boundaries :
  Main.determine_verdict (VFloat 70.00) (VDict []) = Ok ("LIKELY SCAM", 0.85%Q) /\
  Main.determine_verdict (VFloat 69.99) (VDict []) = Ok ("SUSPICIOUS", 0.75%Q) /\
  Main.determine_verdict (VFloat 40.00) (VDict []) = Ok ("SUSPICIOUS", 0.75%Q) /\
  Main.determine_verdict (VFloat 39.99) (VDict []) = Ok ("SAFE", 0.80%Q) /\
  Main.determine_verdict (VFloat 10.0) Spec.blacklisted_bundle = Ok ("LIKELY SCAM", 0.95%Q).
Proof. repeat split; reflexivity. Qed.

(** What [check_domain] puts in a response: the combined score rounded to two
    decimals, the verdict and confidence of [combine], the trail generated
    from the unrounded score, and the bundle itself. *)
Lemma check_domain_response (np_exp : Q -> Q) (repr_other : value -> string)
  (ml_model : MLModel.t) (risk_engine : RiskEngine.t)
  (domain : string) (signals : value) (now : string) (resp : Main.DomainCheckResponse) :
  Main.check_domain np_exp repr_other ml_model risk_engine domain signals now = Ok resp ->
  exists features ml_prediction rule_score final v c,
    Main.extract_features signals = Ok features /\
    MLModel.predict np_exp ml_model features = Ok ml_prediction /\
    RiskEngine.calculate_risk_score risk_engine signals = Ok rule_score /\
    Main.combine ml_prediction rule_score signals = Ok (final, (v, c)) /\
    round_value final 2 = Ok (Main.risk_score resp) /\
    Main.verdict resp = v /\
    Main.confidence resp = round c 2 /\
    Main.detailed_reasons resp
      = RiskEngine.generate_explanations repr_other risk_engine signals final /\
    Main.technical_signals resp = signals.
Proof.
  unfold Main.check_domain, try_except.
  destruct (Main.extract_features signals) as [features|e] eqn:Ef; cbn [bind];
    [|rewrite every_exn_is_Exception; discriminate].
  destruct (MLModel.predict np_exp ml_model features) as [ml|e] eqn:Em; cbn [bind];
    [|rewrite every_exn_is_Exception; discriminate].
  destruct (RiskEngine.calculate_risk_score risk_engine signals) as [rule|e] eqn:Er;
    cbn [bind]; [|rewrite every_exn_is_Exception; discriminate].
  destruct (Main.combine ml rule signals) as [[final [v c]]|e] eqn:Ec; cbn [bind];
    [|rewrite every_exn_is_Exception; discriminate].
  destruct (round_value final 2) as [shown|e] eqn:Es; cbn [bind];
    [|rewrite every_exn_is_Exception; discriminate].
  intros H. injection H as <-.
  exists features, ml, rule, final, v, c. cbn. repeat split; assumption || reflexivity.
Qed.

(** C3 fails as stated: the scam verdict is the string with a space,
    "LIKELY SCAM", which is not one of SAFE, SUSPICIOUS, LIKELY_SCAM. *)
Lemma determine_verdict_not_claimed_string :
  exists v c,
    Main.determine_verdict (VFloat 80.0) (VDict []) = Ok (v, c) /\
    ~ In v Spec.claimed_verdict_strings.
Proof.
  exists "LIKELY SCAM", 0.85%Q. split; [reflexivity|].
  unfold Spec.claimed_verdict_strings. simpl.
  intros [H|[H|[H|[]]]]; discriminate H.
Qed.

(** C3 (amended): for every numeric risk score and every bundle whose
    blacklist hit count is a number (or absent), [determine_verdict] returns
    a verdict that is exactly one of the three strings "SAFE", "SUSPICIOUS",
    "LIKELY SCAM". *)
Theorem determine_verdict_strings (risk_score signals hv : value) (q h : Q) :
  Spec.hit_count signals = Ok hv ->
  num_of hv = Some h ->
  num_of risk_score = Some q ->
  exists v c,
    Main.determine_verdict risk_score signals = Ok (v, c) /\
    In v Spec.verdict_strings /\
    NoDup Spec.verdict_strings.
Proof.
  intros Hc Hh Hq.
  rewrite (determine_verdict_table risk_score signals hv q h Hc Hh Hq).
  unfold Spec.verdict_for, Spec.verdict_strings.
  assert (Hnd : NoDup ["SAFE"; "SUSPICIOUS"; "LIKELY SCAM"]).
  { repeat constructor; simpl; intuition discriminate. }
  destruct (Qlt_bool 0 h); [|destruct (Qle_bool 70 q); [|destruct (Qle_bool 40 q)]];
    eexists; eexists; (split; [reflexivity|]); (split; [simpl; tauto | exact Hnd]).
Qed.

Lemma determine_verdict_strings_witness :
  exists v c,
    Main.determine_verdict (VFloat 55.5) Spec.blacklisted_bundle = Ok (v, c) /\
    In v Spec.verdict_strings /\
    NoDup Spec.verdict_strings.
Proof.
  apply (determine_verdict_strings (VFloat 55.5) Spec.blacklisted_bundle (VInt 1)
           55.5%Q (inject_Z 1)); reflexivity.
Defined.

(** *** Rule score (C4) *)

Lemma age_loop_nonneg brackets d z :
  Forall (fun b => 0 <= snd (snd b)) brackets ->
  RiskEngine.age_loop brackets d = Ok z -> 0 <= z.
Proof.
  intros Hb. induction Hb as [|[level [[lo hi] points]] rest Hp Hrest IH]; simpl.
  - intros H. injection H as <-. lia.
  - destruct (le (VInt lo) d) as [c1|e]; cbn [bind]; [|discriminate].
    destruct c1.
    + destruct (le d (VInt hi)) as [c|e]; cbn [bind]; [|discriminate].
      destruct c; [|exact IH].
      intros H. injection H as <-. exact Hp.
    + cbn [bind]. exact IH.
Qed.

Lemma age_score_nonneg d z :
  RiskEngine._calculate_age_score RiskEngine.init d = Ok z -> 0 <= z.
Proof.
  apply age_loop_nonneg. simpl. repeat constructor; simpl; lia.
Qed.

Ltac bind_cases :=
  repeat match goal with
    | |- context [bind ?m _] =>
        match m with
        | Ok _ => cbn [bind]
        | Raise _ => cbn [bind]
        | _ => let E := fresh "E" in destruct m eqn:E; cbn [bind]
        end
    | |- context [if ?b then _ else _] =>
        let E := fresh "E" in destruct b eqn:E
    end.

Lemma ssl_score_nonneg ssl z :
  RiskEngine._calculate_ssl_score RiskEngine.init ssl = Ok z -> 0 <= z.
Proof.
  unfold RiskEngine._calculate_ssl_score. simpl.
  bind_cases; intros H; try discriminate H; injection H as <-; lia.
Qed.

Lemma hosting_score_nonneg hosting z :
  RiskEngine._calculate_hosting_score RiskEngine.init hosting = Ok z -> 0 <= z.
Proof.
  unfold RiskEngine._calculate_hosting_score. simpl.
  bind_cases; intros H; try discriminate H; injection H as <-; lia.
Qed.

Lemma content_score_nonneg content z :
  RiskEngine._calculate_content_score RiskEngine.init content = Ok z -> 0 <= z.
Proof.
  unfold RiskEngine._calculate_content_score. simpl.
  bind_cases; intros H; try discriminate H; injection H as <-; lia.
Qed.

Lemma dns_score_nonneg dns z :
  RiskEngine._calculate_dns_score RiskEngine.init dns = Ok z -> 0 <= z.
Proof.
  unfold RiskEngine._calculate_dns_score. simpl.
  bind_cases; intros H; try discriminate H; injection H as <-; lia.
Qed.

Lemma indicator_loop_nonneg items acc z :
  0 <= acc ->
  RiskEngine.indicator_loop RiskEngine.init items acc = Ok z -> acc <= z.
Proof.
  revert acc. induction items as [|i items IH]; intros acc Hacc; simpl.
  - intros H. injection H as <-. lia.
  - destruct (contains_str "TLD" i) as [c|e]; cbn [bind]; [|discriminate].
    destruct c.
    + intros H. apply IH in H; lia.
    + destruct (contains_str "homograph" i) as [c|e]; cbn [bind]; [|discriminate].
      destruct c; intros H; apply IH in H; lia.
Qed.

Lemma pattern_score_nonneg signals z :
  RiskEngine._calculate_pattern_score RiskEngine.init signals = Ok z -> 0 <= z.
Proof.
  unfold RiskEngine._calculate_pattern_score.
  destruct (get signals "blacklist" (VDict [])) as [bl|e]; cbn [bind]; [|discriminate].
  destruct (get bl "risk_indicators" (VList [])) as [ri|e]; cbn [bind]; [|discriminate].
  destruct (iter ri) as [items|e]; cbn [bind]; [|discriminate].
  destruct (RiskEngine.indicator_loop RiskEngine.init items 0) as [s|e] eqn:El;
    cbn [bind]; [|discriminate].
  apply indicator_loop_nonneg in El; [|lia].
  simpl. bind_cases; intros H; try discriminate H; injection H as <-; lia.
Qed.

Lemma in_range_nonneg_intro v q :
  num_of v = Some q -> (0 <= q)%Q -> Spec.in_range 0 None v = true.
Proof.
  intros Hv Hq. unfold Spec.in_range. rewrite Hv.
  rewrite andb_true_r. now apply Qle_bool_iff.
Qed.

Lemma in_range_nonneg_elim v :
  Spec.in_range 0 None v = true -> exists q, num_of v = Some q /\ (0 <= q)%Q.
Proof.
  intros H. destruct (in_range_num _ _ _ H) as (q & Hq & Hl & _). eauto.
Qed.

Lemma min_num_cases a b x y :
  num_of a = Some x -> num_of b = Some y ->
  min a b = Ok (if Qlt_bool y x then b else a).
Proof.
  intros Ha Hb. unfold min. rewrite (lt_num b a y x Hb Ha). reflexivity.
Qed.

Lemma add_nonneg a b :
  Spec.in_range 0 None a = true -> Spec.in_range 0 None b = true ->
  exists v, add a b = Ok v /\ Spec.in_range 0 None v = true.
Proof.
  intros Ha Hb.
  destruct (in_range_nonneg_elim a Ha) as (x & Hx & Lx).
  destruct (in_range_nonneg_elim b Hb) as (y & Hy & Ly).
  assert (Hsum : forall z, (z == x + y)%Q -> (0 <= z)%Q) by (intros z Hz; lra).
  destruct a; simpl in Hx; try discriminate; injection Hx as <-;
    destruct b; simpl in Hy; try discriminate; injection Hy as <-;
    eexists; (split; [reflexivity|]);
    (eapply in_range_nonneg_intro; [reflexivity|]); apply Hsum;
    rewrite ?inject_Z_plus; reflexivity.
Qed.

Lemma min_cap a (cap : Z) :
  0 <= cap ->
  Spec.in_range 0 None a = true ->
  exists v, min a (VInt cap) = Ok v
            /\ Spec.in_range 0 (Some (inject_Z cap)) v = true.
Proof.
  intros Hcap Ha. destruct (in_range_nonneg_elim a Ha) as (x & Hx & Lx).
  rewrite (min_num_cases a (VInt cap) x (inject_Z cap) Hx eq_refl).
  destruct (Qlt_bool (inject_Z cap) x) eqn:E; eexists; (split; [reflexivity|]).
  - unfold Spec.in_range. simpl. apply andb_true_intro. split; apply Qle_bool_iff.
    + change 0%Q with (inject_Z 0). rewrite <- Zle_Qle. exact Hcap.
    + apply Qle_refl.
  - apply Qlt_bool_false_iff in E.
    unfold Spec.in_range. rewrite Hx. apply andb_true_intro.
    split; apply Qle_bool_iff; assumption.
Qed.

Lemma blacklist_score_nonneg bl hv v :
  get bl "blacklist_hits" (VInt 0) = Ok hv ->
  match num_of hv with Some q => Qle_bool 0 q | None => true end = true ->
  RiskEngine._calculate_blacklist_score RiskEngine.init bl = Ok v ->
  Spec.in_range 0 None v = true.
Proof.
  intros Hg Hn. unfold RiskEngine._calculate_blacklist_score. rewrite Hg. cbn [bind].
  cbn [RiskEngine.per_hit RiskEngine.r_blacklist RiskEngine.risk_rules RiskEngine.init].
  destruct hv as [|b|z|q|s|l|d]; simpl in Hn.
  - discriminate.
  - cbn [mul int_of bind]. rewrite (min_num_cases (VInt _) (VInt 50) _ _ eq_refl eq_refl).
    intros H. injection H as <-.
    destruct (Qlt_bool _ _); [reflexivity|]. destruct b; reflexivity.
  - cbn [mul int_of bind]. rewrite (min_num_cases (VInt _) (VInt 50) _ _ eq_refl eq_refl).
    intros H. injection H as <-.
    destruct (Qlt_bool _ _); [reflexivity|].
    eapply in_range_nonneg_intro; [reflexivity|].
    apply Qle_bool_iff in Hn. change 0%Q with (inject_Z 0) in *.
    rewrite <- Zle_Qle in *. lia.
  - cbn [mul int_of num_of bind].
    rewrite (min_num_cases (VFloat _) (VInt 50) _ _ eq_refl eq_refl).
    intros H. injection H as <-.
    destruct (Qlt_bool _ _); [reflexivity|].
    eapply in_range_nonneg_intro; [reflexivity|].
    apply Qle_bool_iff in Hn. change (inject_Z 30) with 30%Q. lra.
  - cbn. discriminate.
  - cbn. discriminate.
  - cbn. discriminate.
Qed.

Lemma blacklist_score_formula bl (h : Z) :
  get bl "blacklist_hits" (VInt 0) = Ok (VInt h) ->
  RiskEngine._calculate_blacklist_score RiskEngine.init bl
    = Ok (VInt (Z.min (h * 30) 50)).
Proof.
  intros Hg. unfold RiskEngine._calculate_blacklist_score. rewrite Hg. cbn [bind].
  cbn [RiskEngine.per_hit RiskEngine.r_blacklist RiskEngine.risk_rules RiskEngine.init].
  cbn [mul int_of bind]. rewrite (min_num_cases (VInt _) (VInt 50) _ _ eq_refl eq_refl).
  destruct (Qlt_bool (inject_Z 50) (inject_Z (h * 30))) eqn:E.
  - apply Qlt_bool_iff in E. rewrite <- Zlt_Qlt in E.
    rewrite Z.min_r by lia. reflexivity.
  - apply Qlt_bool_false_iff in E. rewrite <- Zle_Qle in E.
    rewrite Z.min_l by lia. reflexivity.
Qed.

Ltac step :=
  match goal with
  | |- bind ?m _ = Ok _ -> _ =>
      let E := fresh "E" in destruct m eqn:E; cbn [bind]; [|discriminate]
  end.

Ltac step_as x E :=
  match goal with
  | |- bind ?m _ = Ok _ -> _ =>
      destruct m as [x|] eqn:E; cbn [bind]; [|discriminate]
  end.

Lemma add_int_nonneg a z :
  Spec.in_range 0 None a = true -> 0 <= z ->
  exists v, add a (VInt z) = Ok v /\ Spec.in_range 0 None v = true.
Proof.
  intros Ha Hz. apply add_nonneg; [exact Ha|].
  eapply in_range_nonneg_intro; [reflexivity|].
  change 0%Q with (inject_Z 0). rewrite <- Zle_Qle. exact Hz.
Qed.

Lemma risk_score_body_range (signals v : value) :
  Spec.hits_nonneg signals = true ->
  (whois <- get signals "whois" (VDict []);;
   domain_age_days <- get whois "domain_age_days" (VInt 0);;
   age_score <- RiskEngine._calculate_age_score RiskEngine.init domain_age_days;;
   total_score <- add (VInt 0) (VInt age_score);;
   ssl <- get signals "ssl" (VDict []);;
   ssl_score <- RiskEngine._calculate_ssl_score RiskEngine.init ssl;;
   total_score <- add total_score (VInt ssl_score);;
   blacklist <- get signals "blacklist" (VDict []);;
   blacklist_score <- RiskEngine._calculate_blacklist_score RiskEngine.init blacklist;;
   total_score <- add total_score blacklist_score;;
   hosting <- get signals "hosting" (VDict []);;
   hosting_score <- RiskEngine._calculate_hosting_score RiskEngine.init hosting;;
   total_score <- add total_score (VInt hosting_score);;
   content <- get signals "content" (VDict []);;
   content_score <- RiskEngine._calculate_content_score RiskEngine.init content;;
   total_score <- add total_score (VInt content_score);;
   dns <- get signals "dns" (VDict []);;
   dns_score <- RiskEngine._calculate_dns_score RiskEngine.init dns;;
   total_score <- add total_score (VInt dns_score);;
   pattern_score <- RiskEngine._calculate_pattern_score RiskEngine.init signals;;
   total_score <- add total_score (VInt pattern_score);;
   min total_score (VInt (RiskEngine.max_score RiskEngine.init))) = Ok v ->
  Spec.in_range 0 (Some 100%Q) v = true.
Proof.
  intros Hh.
  step_as whois Ew. step_as age Ea. step_as a Eas.
  apply age_score_nonneg in Eas.
  assert (T0 : Spec.in_range 0 None (VInt 0) = true) by reflexivity.
  destruct (add_int_nonneg _ _ T0 Eas) as (t1 & -> & T1). cbn [bind].
  step_as ssl Es. step_as s Ess. apply ssl_score_nonneg in Ess.
  destruct (add_int_nonneg _ _ T1 Ess) as (t2 & -> & T2). cbn [bind].
  step_as bl Eb. step_as b Ebs.
  assert (B : Spec.in_range 0 None b = true).
  { unfold Spec.hits_nonneg, Spec.hit_count in Hh. rewrite Eb in Hh. cbn [bind] in Hh.
    destruct (get bl "blacklist_hits" (VInt 0)) as [hv|e] eqn:Eh.
    - eapply blacklist_score_nonneg; [exact Eh | exact Hh | exact Ebs].
    - unfold RiskEngine._calculate_blacklist_score in Ebs. rewrite Eh in Ebs.
      discriminate Ebs. }
  destruct (add_nonneg _ _ T2 B) as (t3 & -> & T3). cbn [bind].
  step_as hosting Eh. step_as h Ehs. apply hosting_score_nonneg in Ehs.
  destruct (add_int_nonneg _ _ T3 Ehs) as (t4 & -> & T4). cbn [bind].
  step_as content Ec. step_as c Ecs. apply content_score_nonneg in Ecs.
  destruct (add_int_nonneg _ _ T4 Ecs) as (t5 & -> & T5). cbn [bind].
  step_as dns Ed. step_as d Eds. apply dns_score_nonneg in Eds.
  destruct (add_int_nonneg _ _ T5 Eds) as (t6 & -> & T6). cbn [bind].
  step_as p Eps. apply pattern_score_nonneg in Eps.
  destruct (add_int_nonneg _ _ T6 Eps) as (t7 & -> & T7). cbn [bind].
  destruct (min_cap t7 100 ltac:(lia) T7) as (r & Hr & Hrange).
  cbn [RiskEngine.max_score RiskEngine.init]. rewrite Hr.
  intros H. injection H as <-. exact Hrange.
Qed.

Lemma risk_score_sum_cap (signals : value) (a s b h c d p : Z) :
  Spec.category_scores RiskEngine.init signals = Ok (a, s, VInt b, h, c, d, p) ->
  RiskEngine.calculate_risk_score RiskEngine.init signals
    = Ok (VInt (Z.min (a + s + b + h + c + d + p) 100)).
Proof.
  unfold Spec.category_scores, RiskEngine.calculate_risk_score.
  repeat step.
  intros H. injection H as -> -> -> -> -> -> ->.
  cbn [add int_of bind try_except RiskEngine.max_score RiskEngine.init].
  rewrite (min_num_cases (VInt _) (VInt 100) _ _ eq_refl eq_refl).
  destruct (Qlt_bool (inject_Z 100) (inject_Z (0 + a + s + b + h + c + d + p))) eqn:Elt.
  - apply Qlt_bool_iff in Elt. rewrite <- Zlt_Qlt in Elt.
    rewrite Z.min_r by lia. reflexivity.
  - apply Qlt_bool_false_iff in Elt. rewrite <- Zle_Qle in Elt.
    rewrite Z.min_l by lia. unfold try_except. do 3 f_equal.
Qed.

(** C4: for every bundle whose blacklist hit count is not a negative number,
    [calculate_risk_score] returns a value in [0,100]; when the seven
    categories are scored, it is their sum capped at 100; the blacklist
    category scores [min(hits * 30, 50)], which is 50 at 100 hits. *)
Theorem risk_score_in_range (signals : value) :
  Spec.hits_nonneg signals = true ->
  (exists v, RiskEngine.calculate_risk_score RiskEngine.init signals = Ok v
             /\ Spec.in_range 0 (Some 100%Q) v = true) /\
  (forall a s b h c d p,
     Spec.category_scores RiskEngine.init signals = Ok (a, s, VInt b, h, c, d, p) ->
     RiskEngine.calculate_risk_score RiskEngine.init signals
       = Ok (VInt (Z.min (a + s + b + h + c + d + p) 100))) /\
  (forall blacklist hits,
     get blacklist "blacklist_hits" (VInt 0) = Ok (VInt hits) ->
     RiskEngine._calculate_blacklist_score RiskEngine.init blacklist
       = Ok (VInt (Z.min (hits * 30) 50))
     /\ Z.min (hits * 30) 50 <= 50) /\
  RiskEngine._calculate_blacklist_score RiskEngine.init
    (VDict [("blacklist_hits", VInt 100)]) = Ok (VInt 50).
Proof.
  intros Hh. split; [|split; [|split]].
  - unfold RiskEngine.calculate_risk_score.
    match goal with
    | |- context [try_except ?body _] => destruct body as [v|e] eqn:E
    end.
    + exists v. split; [reflexivity|].
      exact (risk_score_body_range signals v Hh E).
    + exists (VFloat 50.0). split; [|reflexivity].
      unfold try_except. rewrite every_exn_is_Exception. reflexivity.
  - intros a s b h c d p. apply risk_score_sum_cap.
  - intros blacklist hits Hg. split.
    + apply blacklist_score_formula. exact Hg.
    + apply Z.le_min_r.
  - reflexivity.
Qed.

Lemma risk_score_in_range_witness :
  (exists v, RiskEngine.calculate_risk_score RiskEngine.init Spec.many_hits_bundle = Ok v
             /\ Spec.in_range 0 (Some 100%Q) v = true) /\
  (forall a s b h c d p,
     Spec.category_scores RiskEngine.init Spec.many_hits_bundle
       = Ok (a, s, VInt b, h, c, d, p) ->
     RiskEngine.calculate_risk_score RiskEngine.init Spec.many_hits_bundle
       = Ok (VInt (Z.min (a + s + b + h + c + d + p) 100))) /\
  (forall blacklist hits,
     get blacklist "blacklist_hits" (VInt 0) = Ok (VInt hits) ->
     RiskEngine._calculate_blacklist_score RiskEngine.init blacklist
       = Ok (VInt (Z.min (hits * 30) 50))
     /\ Z.min (hits * 30) 50 <= 50) /\
  RiskEngine._calculate_blacklist_score RiskEngine.init
    (VDict [("blacklist_hits", VInt 100)]) = Ok (VInt 50).
Proof.
  apply (risk_score_in_range Spec.many_hits_bundle). reflexivity.
Defined.

(** The scores of [Spec.many_hits_bundle]: 25 (age) + 15 (no SSL) + 50
    (blacklist cap) + 20 (hosting) + 0 (content) + 20 (DNS) + 15 (patterns)
    is 145, capped at 100. *)
Example many_hits_scores :
  Spec.category_scores RiskEngine.init Spec.many_hits_bundle
    = Ok (25, 15, VInt 50, 20, 0, 20, 15) /\
  RiskEngine.calculate_risk_score RiskEngine.init Spec.many_hits_bundle = Ok (VInt 100).
Proof. split; reflexivity. Qed.

(** Without the condition on the hit count the range fails: a negative count
    is multiplied by 30 and never capped from below. *)
Example negative_hits_score :
  RiskEngine.calculate_risk_score RiskEngine.init
    (VDict [("blacklist", VDict [("blacklist_hits", VInt (-5))])]) = Ok (VInt (-90)).
Proof. reflexivity. Qed.

(** A malformed bundle takes the neutral 50.0 of the [except] branch. *)
Example malformed_bundle_score :
  RiskEngine.calculate_risk_score RiskEngine.init
    (VDict [("hosting", VDict [("reputation_score", VStr "high")])]) = Ok (VFloat 50.0).
Proof. reflexivity. Qed.

(** *** SSL category (C5) *)

(** C5, the code at the input on which it departs from the claim: a valid
    certificate with [days_until_expiry = 0] scores 0, not 5, because the
    test [days_until_expiry and days_until_expiry < 30] takes 0 for a
    missing value; one day before, and one day after, the score is 5. *)
Theorem ssl_score_expiring_today :
  RiskEngine._calculate_ssl_score RiskEngine.init Spec.expiring_today_ssl = Ok 0 /\
  Spec.ssl_points_claimed true true (Some 0) = 5 /\
  RiskEngine._calculate_ssl_score RiskEngine.init
    (VDict [ ("has_ssl", VBool true); ("ssl_valid", VBool true);
             ("days_until_expiry", VInt 1) ]) = Ok 5 /\
  RiskEngine._calculate_ssl_score RiskEngine.init
    (VDict [ ("has_ssl", VBool true); ("ssl_valid", VBool true);
             ("days_until_expiry", VInt (-1)) ]) = Ok 5.
Proof. repeat split; reflexivity. Qed.

(** On a typed SSL sub-record the code computes [Spec.ssl_points]. *)
Lemma ssl_score_typed (ssl : value) (has_ssl ssl_valid : bool) (days : option Z) :
  get ssl "has_ssl" (VBool false) = Ok (VBool has_ssl) ->
  get ssl "ssl_valid" (VBool false) = Ok (VBool ssl_valid) ->
  get ssl "days_until_expiry" VNone = Ok (Spec.days_value days) ->
  RiskEngine._calculate_ssl_score RiskEngine.init ssl
    = Ok (Spec.ssl_points has_ssl ssl_valid days).
Proof.
  intros Hh Hv Hd. unfold RiskEngine._calculate_ssl_score, Spec.ssl_points.
  rewrite Hh. cbn [bind truthy]. destruct has_ssl; [|reflexivity]. cbn [negb].
  rewrite Hv. cbn [bind truthy]. destruct ssl_valid; [|reflexivity]. cbn [negb].
  rewrite Hd. cbn [bind]. destruct days as [n|]; [|reflexivity].
  cbn [Spec.days_value truthy]. destruct (n =? 0) eqn:E0; cbn [negb andb bind].
  - reflexivity.
  - rewrite (lt_num (VInt n) (VInt 30) _ _ eq_refl eq_refl). cbn [bind].
    destruct (n <? 30) eqn:E30.
    + apply Z.ltb_lt in E30.
      assert (H : Qlt_bool (inject_Z n) (inject_Z 30) = true).
      { apply Qlt_bool_iff. rewrite <- Zlt_Qlt. exact E30. }
      rewrite H. reflexivity.
    + apply Z.ltb_ge in E30.
      assert (H : Qlt_bool (inject_Z n) (inject_Z 30) = false).
      { apply Qlt_bool_false_iff. rewrite <- Zle_Qle. exact E30. }
      rewrite H. reflexivity.
Qed.

(** The claimed table and the code agree everywhere else. *)
Lemma ssl_points_agree (has_ssl ssl_valid : bool) (days : option Z) :
  days <> Some 0 ->
  Spec.ssl_points has_ssl ssl_valid days = Spec.ssl_points_claimed has_ssl ssl_valid days.
Proof.
  intros Hd. unfold Spec.ssl_points, Spec.ssl_points_claimed.
  destruct has_ssl, ssl_valid; try reflexivity.
  destruct days as [n|]; [|reflexivity].
  destruct (n =? 0) eqn:E; [|reflexivity].
  apply Z.eqb_eq in E. subst n. contradiction.
Qed.

(** *** Missing age (C10) *)

Lemma age_absent_lookup (signals : value) :
  Spec.age_absent signals = true -> Spec.age_lookup signals = Ok (VInt 0).
Proof.
  unfold Spec.age_absent, Spec.age_lookup.
  destruct signals as [| | | | | |d]; try discriminate.
  cbn [get bind]. destruct (assoc "whois" d) as [w|]; [|reflexivity].
  destruct w as [| | | | | |wd]; try discriminate.
  cbn [get]. destruct (assoc "domain_age_days" wd); [discriminate | reflexivity].
Qed.

(** C10: when the bundle has no [whois] sub-record or no [domain_age_days]
    in it, the age read is 0, which the critical bracket [0,7] turns into 25
    points: 25 is the age score of every such bundle.  The empty bundle
    scores 25 (age) + 15 (no SSL) + 20 (unresolved DNS) = 60, a score in the
    SUSPICIOUS band. *)
Theorem missing_age_scores_critical (signals : value) :
  Spec.age_absent signals = true ->
  Spec.age_lookup signals = Ok (VInt 0) /\
  RiskEngine._calculate_age_score RiskEngine.init (VInt 0) = Ok 25 /\
  (forall a s b h c d p,
     Spec.category_scores RiskEngine.init signals = Ok (a, s, b, h, c, d, p) ->
     a = 25) /\
  Spec.category_scores RiskEngine.init (VDict []) = Ok (25, 15, VInt 0, 0, 0, 20, 0) /\
  RiskEngine.calculate_risk_score RiskEngine.init (VDict []) = Ok (VInt 60) /\
  Main.determine_verdict (VInt 60) (VDict []) = Ok ("SUSPICIOUS", 0.75%Q).
Proof.
  intros Ha. pose proof (age_absent_lookup signals Ha) as Hl.
  split; [exact Hl|]. split; [reflexivity|]. split; [|repeat split; reflexivity].
  intros a s b h c d p. unfold Spec.category_scores.
  unfold Spec.age_lookup in Hl.
  destruct (get signals "whois" (VDict [])) as [w|e]; [|discriminate Hl].
  cbn [bind] in *. rewrite Hl. cbn [bind].
  change (RiskEngine._calculate_age_score RiskEngine.init (VInt 0)) with (Ok (A:=Z) 25).
  cbn [bind]. repeat step.
  intros H. injection H as <- _ _ _ _ _ _. reflexivity.
Qed.

Lemma missing_age_scores_critical_witness :
  Spec.age_lookup Spec.no_age_bundle = Ok (VInt 0) /\
  RiskEngine._calculate_age_score RiskEngine.init (VInt 0) = Ok 25 /\
  (forall a s b h c d p,
     Spec.category_scores RiskEngine.init Spec.no_age_bundle = Ok (a, s, b, h, c, d, p) ->
     a = 25) /\
  Spec.category_scores RiskEngine.init (VDict []) = Ok (25, 15, VInt 0, 0, 0, 20, 0) /\
  RiskEngine.calculate_risk_score RiskEngine.init (VDict []) = Ok (VInt 60) /\
  Main.determine_verdict (VInt 60) (VDict []) = Ok ("SUSPICIOUS", 0.75%Q).
Proof.
  apply (missing_age_scores_critical Spec.no_age_bundle). reflexivity.
Defined.

Example no_age_bundle_scores :
  Spec.category_scores RiskEngine.init Spec.no_age_bundle
    = Ok (25, 0, VInt 0, 0, 0, 0, 0) /\
  RiskEngine.calculate_risk_score RiskEngine.init Spec.no_age_bundle = Ok (VInt 25).
Proof. split; reflexivity. Qed.

(** *** Pattern category (C6) *)

Lemma indicator_loop_sum (inds : list string) (acc : Z) :
  RiskEngine.indicator_loop RiskEngine.init (map VStr inds) acc
    = Ok (acc + Spec.sum_points Spec.indicator_points inds).
Proof.
  revert acc. induction inds as [|i inds IH]; intros acc;
    cbn [RiskEngine.indicator_loop map contains_str bind Spec.sum_points].
  - f_equal. lia.
  - replace (Spec.indicator_points i)
      with (if str_contains "TLD" i then 10
            else if str_contains "homograph" i then 15 else 0) by reflexivity.
    cbn [RiskEngine.suspicious_tld RiskEngine.homograph RiskEngine.r_patterns
         RiskEngine.risk_rules RiskEngine.init].
    destruct (str_contains "TLD" i); cbn [bind].
    + rewrite IH. f_equal. lia.
    + destruct (str_contains "homograph" i); cbn [bind]; rewrite IH; f_equal; lia.
Qed.

Lemma digit_sum_count (name : string) (acc : Z) :
  RiskEngine.digit_sum (map VStr (chars name)) acc = Ok (acc + Spec.count_digits name).
Proof.
  revert acc. induction name as [|c name IH]; intros acc;
    cbn [chars map RiskEngine.digit_sum Spec.count_digits].
  - f_equal. lia.
  - cbn [isdigit String.eqb negb all_digits andb bind]. rewrite andb_true_r.
    rewrite IH. f_equal. lia.
Qed.



Example patterns_bundle_score :
  RiskEngine._calculate_pattern_score RiskEngine.init Spec.patterns_bundle = Ok 35.
Proof. reflexivity. Qed.


(** *** Explanation trail (C9) *)

Lemma no_banner_app (l1 l2 : list string) :
  Spec.no_banner l1 -> Spec.no_banner l2 -> Spec.no_banner (l1 ++ l2)%list.
Proof. unfold Spec.no_banner. intros H1 H2. apply Forall_app. split; assumption. Qed.

Lemma appends_ret : Spec.appends_lines (RiskEngine.ret tt).
Proof.
  intros ex. exists []. split.
  - unfold RiskEngine.ret. rewrite app_nil_r. reflexivity.
  - constructor.
Qed.

Lemma appends_append (s : string) :
  Spec.is_banner s = false -> Spec.appends_lines (RiskEngine.append s).
Proof.
  intros Hs ex. exists [s]. split; [reflexivity|].
  constructor; [exact Hs | constructor].
Qed.

Lemma appends_bind_lift {A} (r : res A) (a : A) (k : A -> RiskEngine.M unit) :
  r = Ok a -> Spec.appends_lines (k a) ->
  Spec.appends_lines (RiskEngine.bindM (RiskEngine.lift r) k).
Proof.
  intros -> Hk ex. unfold RiskEngine.bindM, RiskEngine.lift. apply Hk.
Qed.

Lemma appends_seq (m k : RiskEngine.M unit) :
  Spec.appends_lines m -> Spec.appends_lines k ->
  Spec.appends_lines (RiskEngine.bindM m (fun _ => k)).
Proof.
  intros Hm Hk ex. destruct (Hm ex) as (l1 & E1 & N1).
  destruct (Hk (ex ++ l1)%list) as (l2 & E2 & N2).
  exists (l1 ++ l2)%list. split.
  - unfold RiskEngine.bindM. rewrite E1, E2. rewrite app_assoc. reflexivity.
  - apply no_banner_app; assumption.
Qed.

Lemma appends_when (b : bool) (m : RiskEngine.M unit) :
  (b = true -> Spec.appends_lines m) -> Spec.appends_lines (RiskEngine.when b m).
Proof.
  intros Hm. unfold RiskEngine.when. destruct b; [apply Hm; reflexivity | apply appends_ret].
Qed.

Lemma appends_for_each (items : list value) (body : value -> RiskEngine.M unit) :
  (forall x, In x items -> Spec.appends_lines (body x)) ->
  Spec.appends_lines (RiskEngine.for_each items body).
Proof.
  induction items as [|x items IH]; intros Hb; simpl.
  - apply appends_ret.
  - apply appends_seq.
    + apply Hb. left. reflexivity.
    + apply IH. intros y Hy. apply Hb. right. exact Hy.
Qed.

(** Typed lookups. *)

Lemma record_lookup (d : list (string * value)) (name : string)
  (p : list (string * value) -> bool) :
  Spec.record_ok d name p = true -> p [] = true ->
  exists r, get (VDict d) name (VDict []) = Ok (VDict r) /\ p r = true.
Proof.
  unfold Spec.record_ok, get. intros H Hp.
  destruct (assoc name d) as [v|].
  - destruct v; try discriminate H. eexists. split; [reflexivity | exact H].
  - exists []. split; [reflexivity | exact Hp].
Qed.

Lemma field_lookup (r : list (string * value)) (k : string) (p : value -> bool)
  (dflt : value) :
  Spec.field_ok r k p = true -> p dflt = true ->
  exists v, get (VDict r) k dflt = Ok v /\ p v = true.
Proof.
  unfold Spec.field_ok, get. intros H Hp.
  destruct (assoc k r) as [v|]; eexists; (split; [reflexivity|]); assumption.
Qed.

Ltac lookup_record H r Hr Hok :=
  let H' := fresh in
  pose proof (record_lookup _ _ _ H eq_refl) as H';
  destruct H' as (r & Hr & Hok).

Ltac lookup_field H dflt v Hv Hp :=
  let H' := fresh in
  pose proof (field_lookup _ _ _ dflt H eq_refl) as H';
  destruct H' as (v & Hv & Hp).

Lemma lt_int (a b : Z) : lt (VInt a) (VInt b) = Ok (Qlt_bool (inject_Z a) (inject_Z b)).
Proof. reflexivity. Qed.

Lemma gt_int (a b : Z) : gt (VInt a) (VInt b) = Ok (Qlt_bool (inject_Z b) (inject_Z a)).
Proof. reflexivity. Qed.

Lemma explain_age_appends (d : list (string * value)) :
  Spec.record_ok d "whois" Spec.whois_ok = true ->
  Spec.appends_lines (RiskEngine.explain_age (VDict d)).
Proof.
  intros H. lookup_record H r Hr Hok.
  unfold Spec.whois_ok in Hok.
  apply andb_prop in Hok. destruct Hok as [Hok _].
  apply andb_prop in Hok. destruct Hok as [Hage _].
  lookup_field Hage (VInt 0) v Hv Hp.
  destruct v; try discriminate Hp.
  unfold RiskEngine.explain_age.
  eapply appends_bind_lift; [exact Hr|].
  eapply appends_bind_lift; [exact Hv|].
  eapply appends_bind_lift; [apply lt_int|].
  destruct (Qlt_bool _ _); [apply appends_append; reflexivity|].
  eapply appends_bind_lift; [apply lt_int|].
  destruct (Qlt_bool _ _); [apply appends_append; reflexivity|].
  eapply appends_bind_lift; [apply lt_int|].
  destruct (Qlt_bool _ _); [apply appends_append; reflexivity|].
  eapply appends_bind_lift; [apply gt_int|].
  apply appends_when. intros _. apply appends_append. reflexivity.
Qed.

Lemma explain_ssl_appends (d : list (string * value)) :
  Spec.record_ok d "ssl" Spec.ssl_ok = true ->
  Spec.appends_lines (RiskEngine.explain_ssl (VDict d)).
Proof.
  intros H. lookup_record H r Hr Hok.
  unfold Spec.ssl_ok in Hok.
  apply andb_prop in Hok. destruct Hok as [Hok Hdays].
  apply andb_prop in Hok. destruct Hok as [Hhas Hvalid].
  lookup_field Hhas (VBool false) has Hh Hhp.
  lookup_field Hvalid (VBool false) valid Hv Hvp.
  lookup_field Hdays VNone days Hd Hdp.
  unfold RiskEngine.explain_ssl.
  eapply appends_bind_lift; [exact Hr|].
  eapply appends_bind_lift; [exact Hh|].
  destruct (negb (truthy has)); [apply appends_append; reflexivity|].
  eapply appends_bind_lift; [exact Hv|].
  destruct (negb (truthy valid)); [apply appends_append; reflexivity|].
  eapply appends_bind_lift; [exact Hd|].
  destruct days as [| |n| | | |]; try discriminate Hdp.
  - eapply appends_bind_lift; [reflexivity|]. apply appends_append. reflexivity.
  - cbn [truthy]. destruct (negb (n =? 0)).
    + eapply appends_bind_lift; [apply lt_int|].
      destruct (Qlt_bool _ _); apply appends_append; reflexivity.
    + eapply appends_bind_lift; [reflexivity|]. apply appends_append. reflexivity.
Qed.

Lemma explain_hosting_appends (repr_other : value -> string) (d : list (string * value)) :
  Spec.record_ok d "hosting" Spec.hosting_ok = true ->
  Spec.appends_lines (RiskEngine.explain_hosting repr_other (VDict d)).
Proof.
  intros H. lookup_record H r Hr Hok.
  unfold Spec.hosting_ok in Hok.
  apply andb_prop in Hok. destruct Hok as [Hrep Hprov].
  lookup_field Hrep (VInt 50) rep Hv Hp.
  lookup_field Hprov (VStr "Unknown") prov Hpv Hpp.
  destruct rep; try discriminate Hp.
  unfold RiskEngine.explain_hosting.
  eapply appends_bind_lift; [exact Hr|].
  eapply appends_bind_lift; [exact Hv|].
  eapply appends_bind_lift; [apply lt_int|].
  destruct (Qlt_bool _ _); [apply appends_append; reflexivity|].
  eapply appends_bind_lift; [apply gt_int|].
  apply appends_when. intros _.
  eapply appends_bind_lift; [exact Hpv|].
  apply appends_append. reflexivity.
Qed.

Lemma explain_dns_appends (d : list (string * value)) :
  Spec.record_ok d "dns" Spec.dns_ok = true ->
  Spec.appends_lines (RiskEngine.explain_dns (VDict d)).
Proof.
  intros H. lookup_record H r Hr Hok.
  unfold Spec.dns_ok in Hok.
  lookup_field Hok (VBool false) resolved Hv Hp.
  unfold RiskEngine.explain_dns.
  eapply appends_bind_lift; [exact Hr|].
  eapply appends_bind_lift; [exact Hv|].
  apply appends_when. intros _. apply appends_append. reflexivity.
Qed.

Lemma appends_bind_pure {A} (m : RiskEngine.M A) (a : A) (k : A -> RiskEngine.M unit) :
  (forall ex, m ex = (Ok a, ex)) -> Spec.appends_lines (k a) ->
  Spec.appends_lines (RiskEngine.bindM m k).
Proof.
  intros Hm Hk ex. unfold RiskEngine.bindM. rewrite Hm. apply Hk.
Qed.

Lemma comprehension_names (entries : list value) :
  forallb Spec.is_blacklist_entry entries = true ->
  exists names,
    RiskEngine.comprehension (fun bl => getitem bl "blacklist") entries = Ok names
    /\ forallb Spec.is_str names = true.
Proof.
  induction entries as [|e entries IH]; simpl; intros H.
  - exists []. split; reflexivity.
  - apply andb_prop in H. destruct H as [He H].
    destruct (IH H) as (names & Hn & Hs).
    unfold Spec.is_blacklist_entry in He.
    destruct e as [| | | | | |d]; try discriminate He.
    cbn [getitem]. destruct (assoc "blacklist" d) as [v|]; [|discriminate He].
    destruct v as [| | | |s| |]; try discriminate He.
    cbn [bind]. rewrite Hn. cbn [bind].
    exists (VStr s :: names). split; [reflexivity|]. simpl. exact Hs.
Qed.

Lemma join_strings (sep : string) (items : list value) (pos : nat) :
  forallb Spec.is_str items = true ->
  exists s, join_from pos sep items = Ok s.
Proof.
  revert pos. induction items as [|v items IH]; intros pos H.
  - exists "". reflexivity.
  - simpl in H. apply andb_prop in H. destruct H as [Hv H].
    destruct v as [| | | |s| |]; try discriminate Hv.
    cbn [join_from]. destruct items as [|w items'].
    + exists s. reflexivity.
    + destruct (IH (S pos) H) as (t & Ht). rewrite Ht. cbn [bind].
      eexists. reflexivity.
Qed.

Lemma forallb_firstn {A} (p : A -> bool) (n : nat) (l : list A) :
  forallb p l = true -> forallb p (firstn n l) = true.
Proof.
  revert l. induction n as [|n IH]; intros l H; [reflexivity|].
  destruct l as [|x l]; [reflexivity|].
  simpl in *. apply andb_prop in H. destruct H as [Hx H].
  rewrite Hx. simpl. apply IH. exact H.
Qed.

Lemma explain_blacklist_appends (repr_other : value -> string) (d : list (string * value)) :
  Spec.record_ok d "blacklist" Spec.blacklist_ok = true ->
  Spec.appends_lines (RiskEngine.explain_blacklist repr_other (VDict d)).
Proof.
  intros H. lookup_record H r Hr Hok.
  unfold Spec.blacklist_ok in Hok.
  apply andb_prop in Hok. destruct Hok as [Hok Hind].
  apply andb_prop in Hok. destruct Hok as [Hok Hscam].
  apply andb_prop in Hok. destruct Hok as [Hhits Hbls].
  lookup_field Hhits (VInt 0) hits Hh Hhp.
  lookup_field Hscam (VBool false) scam Hs Hsp.
  lookup_field Hind (VList []) inds Hi Hip.
  destruct hits; try discriminate Hhp.
  unfold RiskEngine.explain_blacklist.
  eapply appends_bind_lift; [exact Hr|].
  eapply appends_bind_lift; [exact Hh|].
  eapply appends_bind_lift; [apply gt_int|].
  apply appends_seq; [|].
  - apply appends_when. intros _.
    apply appends_seq; [apply appends_append; reflexivity|].
    unfold Spec.field_ok in Hbls. unfold get.
    destruct (assoc "blacklists" r) as [bls|].
    + eapply appends_bind_lift; [reflexivity|].
      apply appends_when. intros _.
      eapply appends_bind_lift; [reflexivity|].
      destruct bls as [| | | | |entries|]; try discriminate Hbls.
      eapply appends_bind_lift; [reflexivity|].
      cbn [Spec.is_list_of] in Hbls.
      destruct (comprehension_names entries Hbls) as (names & Hn & Hstr).
      eapply appends_bind_lift; [exact Hn|].
      destruct (join_strings ", " (firstn 3 names) 0 (forallb_firstn _ 3 _ Hstr))
        as (joined & Hj).
      eapply appends_bind_lift; [exact Hj|].
      apply appends_append. reflexivity.
    + eapply appends_bind_lift; [reflexivity|].
      apply appends_when. intros Hf. discriminate Hf.
  - eapply appends_bind_lift; [exact Hs|].
    apply appends_seq.
    + apply appends_when. intros _. apply appends_append. reflexivity.
    + eapply appends_bind_lift; [exact Hi|].
      destruct inds as [| | | | |items|]; try discriminate Hip.
      eapply appends_bind_lift; [reflexivity|].
      apply appends_for_each. intros x _. apply appends_append. reflexivity.
Qed.

Lemma len_two_more {A} (x y : A) (rest : list A) :
  (Z.of_nat (List.length (x :: y :: rest)) >? 1) = true.
Proof.
  apply Z.gtb_lt. simpl List.length. lia.
Qed.

Lemma explain_content_appends (repr_other : value -> string) (d : list (string * value)) :
  Spec.record_ok d "content" Spec.content_ok = true ->
  Spec.appends_lines (RiskEngine.explain_content repr_other (VDict d)).
Proof.
  intros H. lookup_record H r Hr Hok.
  unfold Spec.content_ok in Hok.
  apply andb_prop in Hok. destruct Hok as [Hok Havail].
  apply andb_prop in Hok. destruct Hok as [Hok Hforms].
  apply andb_prop in Hok. destruct Hok as [Hok Hmed].
  apply andb_prop in Hok. destruct Hok as [_ Hhigh].
  lookup_field Havail (VBool false) avail Ha Hap.
  lookup_field Hforms (VBool false) forms Hf Hfp.
  lookup_field Hmed (VList []) med Hm Hmp.
  lookup_field Hhigh (VList []) high Hh Hhp.
  destruct high as [| | | | |hl|]; try discriminate Hhp.
  destruct med as [| | | | |ml|]; try discriminate Hmp.
  unfold RiskEngine.explain_content.
  eapply appends_bind_lift; [exact Hr|].
  eapply appends_bind_lift; [exact Ha|].
  apply appends_when. intros _.
  eapply appends_bind_lift; [exact Hh|].
  apply appends_seq.
  - apply appends_when. intros Ht.
    eapply appends_bind_lift; [reflexivity|].
    apply appends_seq; [apply appends_append; reflexivity|].
    eapply appends_bind_lift; [reflexivity|].
    apply appends_when. intros _.
    destruct hl as [|x [|y rest]]; [discriminate Ht | |].
    + eapply appends_bind_lift; [reflexivity|].
      eapply appends_bind_lift; [reflexivity|].
      eapply appends_bind_pure; [intros ex; reflexivity|].
      apply appends_append. reflexivity.
    + eapply appends_bind_lift; [reflexivity|].
      eapply appends_bind_lift; [reflexivity|].
      rewrite len_two_more.
      eapply appends_bind_pure; [intros ex; reflexivity|].
      apply appends_append. reflexivity.
  - eapply appends_bind_lift; [exact Hm|].
    apply appends_seq.
    + apply appends_when. intros _.
      eapply appends_bind_lift; [reflexivity|].
      apply appends_append. reflexivity.
    + eapply appends_bind_lift; [exact Hf|].
      apply appends_when. intros _. apply appends_append. reflexivity.
Qed.

Lemma seq_appends (m : RiskEngine.M unit) (k : RiskEngine.M unit) (ex : list string) :
  Spec.appends_lines m ->
  exists lines,
    RiskEngine.bindM m (fun _ => k) ex = k (ex ++ lines)%list /\ Spec.no_banner lines.
Proof.
  intros Hm. destruct (Hm ex) as (lines & E & N). exists lines.
  split; [|exact N]. unfold RiskEngine.bindM. rewrite E. reflexivity.
Qed.

Ltac run_block H l N :=
  match type of H with
  | Spec.appends_lines ?m =>
      match goal with
      | |- context [RiskEngine.bindM m (fun _ => ?k) ?ex] =>
          destruct (seq_appends m k ex H) as (l & -> & N)
      end
  end.

Lemma no_banner_tail : Spec.no_banner [""; RiskEngine.disclaimer].
Proof. repeat constructor. Qed.

(** C9: on every SignalBundle (sub-records and keys optional, present keys of
    the interface types) and every numeric final score, the trail is one
    verdict banner (the scam banner from 70, the suspicious banner from 40
    to below 70, the safe banner below 40), then the category lines, then an
    empty string and the disclaimer; no line after the first is a verdict
    banner. *)
Theorem explanations_banner_and_disclaimer
  (repr_other : value -> string) (self : RiskEngine.t)
  (signals risk_score : value) (q : Q) :
  Spec.signal_bundle signals = true ->
  num_of risk_score = Some q ->
  exists lines,
    RiskEngine.generate_explanations repr_other self signals risk_score
      = (Spec.banner_for q :: lines ++ [""; RiskEngine.disclaimer])%list /\
    Spec.no_banner (lines ++ [""; RiskEngine.disclaimer])%list /\
    Spec.is_banner (Spec.banner_for q) = true /\
    ((70 <= q)%Q -> Spec.banner_for q = RiskEngine.scam_banner) /\
    ((40 <= q < 70)%Q -> Spec.banner_for q = RiskEngine.suspicious_banner) /\
    ((q < 40)%Q -> Spec.banner_for q = RiskEngine.safe_banner).
Proof.
  intros Hs Hq. destruct signals as [| | | | | |d]; try discriminate Hs.
  unfold Spec.signal_bundle in Hs.
  apply andb_prop in Hs. destruct Hs as [Hs Hcontent].
  apply andb_prop in Hs. destruct Hs as [Hs Hhosting].
  apply andb_prop in Hs. destruct Hs as [Hs Hblacklist].
  apply andb_prop in Hs. destruct Hs as [Hs Hdns].
  apply andb_prop in Hs. destruct Hs as [Hwhois Hssl].
  unfold RiskEngine.generate_explanations, RiskEngine.try_exceptM,
    RiskEngine.explanations_body.
  run_block (explain_age_appends d Hwhois) l1 N1.
  run_block (explain_ssl_appends d Hssl) l2 N2.
  run_block (explain_blacklist_appends repr_other d Hblacklist) l3 N3.
  run_block (explain_hosting_appends repr_other d Hhosting) l4 N4.
  run_block (explain_content_appends repr_other d Hcontent) l5 N5.
  run_block (explain_dns_appends d Hdns) l6 N6.
  set (lines := (((((([] ++ l1) ++ l2) ++ l3) ++ l4) ++ l5) ++ l6)%list).
  assert (Nl : Spec.no_banner lines).
  { subst lines. repeat apply no_banner_app; try assumption. constructor. }
  clearbody lines.
  exists lines.
  split; [|split; [|split; [|split; [|split]]]].
  - assert (Htail : forall banner,
              snd (let (r, ex') :=
                     RiskEngine.bindM (RiskEngine.insert0 banner)
                       (fun _ => RiskEngine.bindM (RiskEngine.append "")
                                   (fun _ => RiskEngine.append RiskEngine.disclaimer))
                       lines in
                   match r with
                   | Ok a => (Ok a, ex')
                   | Raise e =>
                       if is_Exception e
                       then RiskEngine.append "Error generating detailed explanations" ex'
                       else (Raise e, ex')
                   end)
              = (banner :: lines ++ [""; RiskEngine.disclaimer])%list).
    { intros banner. unfold RiskEngine.bindM, RiskEngine.insert0, RiskEngine.append.
      cbn [snd]. rewrite <- app_assoc. reflexivity. }
    unfold RiskEngine.explain_verdict.
    unfold RiskEngine.bindM at 1. unfold RiskEngine.bindM at 1.
    unfold RiskEngine.lift at 1.
    rewrite (ge_num risk_score (VInt 70) q 70 Hq eq_refl).
    unfold Spec.banner_for.
    destruct (Qle_bool 70 q); [apply Htail|].
    unfold RiskEngine.bindM at 1. unfold RiskEngine.lift at 1.
    rewrite (ge_num risk_score (VInt 40) q 40 Hq eq_refl).
    destruct (Qle_bool 40 q); apply Htail.
  - apply no_banner_app; [exact Nl | exact no_banner_tail].
  - unfold Spec.banner_for.
    destruct (Qle_bool 70 q); [reflexivity|]. destruct (Qle_bool 40 q); reflexivity.
  - intros H70. unfold Spec.banner_for. apply Qle_bool_iff in H70. rewrite H70. reflexivity.
  - intros [H40 H70]. unfold Spec.banner_for.
    destruct (Qle_bool 70 q) eqn:E; [apply Qle_bool_iff in E; lra|].
    apply Qle_bool_iff in H40. rewrite H40. reflexivity.
  - intros H40. unfold Spec.banner_for.
    destruct (Qle_bool 70 q) eqn:E; [apply Qle_bool_iff in E; lra|].
    destruct (Qle_bool 40 q) eqn:E'; [apply Qle_bool_iff in E'; lra|].
    reflexivity.
Qed.

Lemma explanations_banner_and_disclaimer_witness :
  exists lines,
    RiskEngine.generate_explanations Spec.plain_repr RiskEngine.init
      Spec.rich_bundle (VFloat 72.5)
      = (Spec.banner_for 72.5 :: lines ++ [""; RiskEngine.disclaimer])%list /\
    Spec.no_banner (lines ++ [""; RiskEngine.disclaimer])%list /\
    Spec.is_banner (Spec.banner_for 72.5) = true /\
    ((70 <= 72.5)%Q -> Spec.banner_for 72.5 = RiskEngine.scam_banner) /\
    ((40 <= 72.5 < 70)%Q -> Spec.banner_for 72.5 = RiskEngine.suspicious_banner) /\
    ((72.5 < 40)%Q -> Spec.banner_for 72.5 = RiskEngine.safe_banner).
Proof.
  apply (explanations_banner_and_disclaimer Spec.plain_repr RiskEngine.init
           Spec.rich_bundle (VFloat 72.5) 72.5%Q); reflexivity.
Defined.

(** The trail of the empty bundle at the score 60, and of
    [Spec.rich_bundle] at 72.5. *)
Example empty_bundle_trail :
  RiskEngine.generate_explanations Spec.plain_repr RiskEngine.init (VDict []) (VInt 60) =
    [ "⚠️ VERDICT: This domain is SUSPICIOUS - exercise caution";
      "🚨 CRITICAL: Domain is extremely new (less than 1 week old)";
      "🚨 CRITICAL: No HTTPS/SSL certificate detected";
      "🚨 CRITICAL: Domain does not resolve to an IP address";
      "";
      "ℹ️ Note: This analysis is based on automated checks. Always exercise caution online." ].
Proof. reflexivity. Qed.

Example rich_bundle_trail :
  RiskEngine.generate_explanations Spec.plain_repr RiskEngine.init
    Spec.rich_bundle (VFloat 72.5) =
    [ "🚨 VERDICT: This domain shows multiple indicators of being a SCAM";
      "⚠️ HIGH RISK: Domain is very new (less than 1 month old)";
      "⚠️ WARNING: SSL certificate expiring soon";
      "🚨 CRITICAL: Found on 2 security blacklist(s)";
      "   Blacklists: dbl.spamhaus.org, multi.uribl.com";
      "⚠️ HIGH RISK: Domain name contains scam-related keywords";
      "⚠️ WARNING: Domain uses commonly abused TLD";
      "✅ POSITIVE: Hosted by reputable provider (Cloudflare)";
      "🚨 HIGH RISK: Found 2 high-risk scam keywords in content";
      "   Examples: 'winner', 'act now'";
      "⚠️ MEDIUM: Found 1 marketing-related keywords";
      "⚠️ WARNING: Site contains forms and suspicious keywords (possible phishing)";
      "";
      "ℹ️ Note: This analysis is based on automated checks. Always exercise caution online." ].
Proof. reflexivity. Qed.

(** Outside the interface types the [try] block can raise; the trail is then
    what was appended so far and the error line, without banner or
    disclaimer. *)
Example ill_typed_bundle_trail :
  RiskEngine.generate_explanations Spec.plain_repr RiskEngine.init
    (VDict [ ("hosting", VDict [ ("reputation_score", VNone) ]) ]) (VFloat 10.0) =
    [ "🚨 CRITICAL: Domain is extremely new (less than 1 week old)";
      "🚨 CRITICAL: No HTTPS/SSL certificate detected";
      "Error generating detailed explanations" ].
Proof. reflexivity. Qed.

(** *** From the bundle to the normalized vector *)

Lemma one_if_in_unit (v : value) : Spec.in_range 0 (Some 1%Q) (Main.one_if v) = true.
Proof. unfold Main.one_if. destruct (truthy v); reflexivity. Qed.

Lemma int_at_least_range (v : value) :
  Spec.int_at_least 0 v = true -> Spec.in_range 0 None v = true.
Proof.
  destruct v; try discriminate. simpl. intros H. apply Z.leb_le in H.
  eapply in_range_nonneg_intro; [reflexivity|].
  change 0%Q with (inject_Z 0). rewrite <- Zle_Qle. exact H.
Qed.

Lemma int_between_range (v : value) :
  Spec.int_between 0 100 v = true -> Spec.in_range 0 (Some 100%Q) v = true.
Proof.
  destruct v; try discriminate. simpl. intros H.
  apply andb_prop in H. destruct H as [H0 H1].
  apply Z.leb_le in H0. apply Z.leb_le in H1.
  unfold Spec.in_range. simpl. apply andb_true_intro.
  split; apply Qle_bool_iff.
  - change 0%Q with (inject_Z 0). rewrite <- Zle_Qle. exact H0.
  - change 100%Q with (inject_Z 100). rewrite <- Zle_Qle. exact H1.
Qed.

Lemma extract_features_nominal (signals : value) :
  Spec.ranged_bundle signals = true ->
  exists features,
    Main.extract_features signals = Ok features /\
    Spec.nominal_features features = true.
Proof.
  intros H. destruct signals as [| | | | | |d]; try discriminate H.
  unfold Spec.ranged_bundle in H.
  apply andb_prop in H. destruct H as [H Hcontent].
  apply andb_prop in H. destruct H as [H Hhosting].
  apply andb_prop in H. destruct H as [H Hblacklist].
  apply andb_prop in H. destruct H as [H Hdns].
  apply andb_prop in H. destruct H as [Hwhois Hssl].
  lookup_record Hwhois w Hw Hwok.
  lookup_record Hssl s Hs Hsok.
  lookup_record Hdns n Hn Hnok.
  lookup_record Hblacklist b Hb Hbok.
  lookup_record Hhosting h Hh Hhok.
  lookup_record Hcontent c Hc Hcok.
  apply andb_prop in Hwok. destruct Hwok as [Hage Hdom].
  apply andb_prop in Hcok. destruct Hcok as [Hscam Hkw].
  lookup_field Hage (VInt 0) age Ea Pa.
  lookup_field Hdom (VStr "") dom Ed Pd.
  lookup_field Hbok (VInt 0) hits Eh Ph.
  lookup_field Hhok (VInt 50) rep Er Pr.
  lookup_field Hscam (VFloat 0.5) scam Es Ps.
  lookup_field Hkw (VInt 0) kw Ek Pk.
  destruct dom as [| | | |name| |]; try discriminate Pd.
  unfold Main.extract_features.
  rewrite Hw, Hs, Hb, Hh, Hc. cbn [bind].
  rewrite Ea. cbn [bind]. unfold get at 1 2. cbn [bind].
  rewrite Eh. cbn [bind]. rewrite Er. cbn [bind]. rewrite Es. cbn [bind].
  rewrite Hn. cbn [bind]. unfold get at 1. cbn [bind].
  rewrite Ed. cbn [bind len]. unfold get at 1. cbn [bind].
  rewrite Ek. cbn [bind].
  eexists. split; [reflexivity|].
  unfold Spec.nominal_features, Spec.nominal_ranges, Spec.field_ok.
  cbn [forallb fst snd assoc String.eqb Ascii.eqb Bool.eqb].
  rewrite !one_if_in_unit.
  rewrite (int_at_least_range age Pa), (int_at_least_range hits Ph),
    (int_at_least_range kw Pk), (int_between_range rep Pr), Ps.
  cbn [andb]. rewrite andb_true_r.
  eapply in_range_nonneg_intro; [reflexivity|].
  change 0%Q with (inject_Z 0). rewrite <- Zle_Qle. lia.
Qed.

(** After extraction from a bundle in the interface ranges, every
    normalized feature is in [0,1]. *)
Lemma extracted_features_in_unit (signals : value) :
  Spec.ranged_bundle signals = true ->
  exists features nf,
    Main.extract_features signals = Ok features /\
    MLModel._normalize_features MLModel.init features = Ok nf /\
    Spec.all_features_in_unit nf = true.
Proof.
  intros H. destruct (extract_features_nominal signals H) as (features & He & Hn).
  destruct features as [| | | | | |d]; try discriminate Hn.
  destruct (normalize_features_nominal_aux d Hn) as (nf & qa & Hnf & Hu & _).
  exists (VDict d), nf. repeat split; assumption.
Qed.

Example rich_bundle_features_in_unit :
  exists features nf,
    Main.extract_features Spec.rich_bundle = Ok features /\
    MLModel._normalize_features MLModel.init features = Ok nf /\
    Spec.all_features_in_unit nf = true.
Proof. apply extracted_features_in_unit. reflexivity. Qed.

(* ================================================================= *)
(** ** Further properties of the scoring core *)

(** *** The explanation trail on any input *)

Lemma aor_of_appends (m : RiskEngine.M unit) :
  Spec.appends_lines m -> Props.appends_or_raises m.
Proof.
  intros H ex. destruct (H ex) as (lines & E & N). exists lines, (Ok tt). auto.
Qed.

Lemma aor_ret : Props.appends_or_raises (RiskEngine.ret tt).
Proof. apply aor_of_appends, appends_ret. Qed.

Lemma aor_append (s : string) :
  Spec.is_banner s = false -> Props.appends_or_raises (RiskEngine.append s).
Proof. intros H. apply aor_of_appends, appends_append, H. Qed.

Lemma keeps_lift {A} (r : res A) : Props.keeps_lines (RiskEngine.lift r).
Proof. intros ex. exists r. reflexivity. Qed.

Lemma keeps_ret {A} (a : A) : Props.keeps_lines (RiskEngine.ret a).
Proof. intros ex. exists (Ok a). reflexivity. Qed.

Lemma keeps_bind {A B} (m : RiskEngine.M A) (k : A -> RiskEngine.M B) :
  Props.keeps_lines m -> (forall a, Props.keeps_lines (k a)) ->
  Props.keeps_lines (RiskEngine.bindM m k).
Proof.
  intros Hm Hk ex. destruct (Hm ex) as (r & E). unfold RiskEngine.bindM. rewrite E.
  destruct r as [a|e]; [apply Hk | exists (Raise e); reflexivity].
Qed.

Lemma aor_bind {A} (m : RiskEngine.M A) (k : A -> RiskEngine.M unit) :
  Props.keeps_lines m -> (forall a, Props.appends_or_raises (k a)) ->
  Props.appends_or_raises (RiskEngine.bindM m k).
Proof.
  intros Hm Hk ex. destruct (Hm ex) as (r & E). unfold RiskEngine.bindM. rewrite E.
  destruct r as [a|e]; [apply Hk|].
  exists [], (Raise e). rewrite app_nil_r. split; [reflexivity | constructor].
Qed.

Lemma aor_seq (m k : RiskEngine.M unit) :
  Props.appends_or_raises m -> Props.appends_or_raises k ->
  Props.appends_or_raises (RiskEngine.bindM m (fun _ => k)).
Proof.
  intros Hm Hk ex. destruct (Hm ex) as (l1 & r & E1 & N1).
  unfold RiskEngine.bindM. rewrite E1. destruct r as [[]|e].
  - destruct (Hk (ex ++ l1)%list) as (l2 & r2 & E2 & N2).
    exists (l1 ++ l2)%list, r2. rewrite E2, app_assoc.
    split; [reflexivity | apply no_banner_app; assumption].
  - exists l1, (Raise e). split; [reflexivity | exact N1].
Qed.

Lemma aor_when (b : bool) (m : RiskEngine.M unit) :
  Props.appends_or_raises m -> Props.appends_or_raises (RiskEngine.when b m).
Proof. intros H. destruct b; [exact H | apply aor_ret]. Qed.

Lemma aor_for_each (items : list value) (body : value -> RiskEngine.M unit) :
  (forall x, Props.appends_or_raises (body x)) ->
  Props.appends_or_raises (RiskEngine.for_each items body).
Proof.
  intros Hb. induction items as [|x items IH]; simpl.
  - apply aor_ret.
  - apply aor_seq; [apply Hb | exact IH].
Qed.

Ltac aor_step :=
  first
    [ apply aor_ret
    | apply aor_append; reflexivity
    | apply aor_when
    | apply aor_for_each; intros ?
    | apply aor_seq
    | apply aor_bind;
      [ repeat first [ apply keeps_lift | apply keeps_ret
                     | apply keeps_bind; [|intros ?]
                     | match goal with
                       | |- Props.keeps_lines (if ?b then _ else _) => destruct b
                       end ]
      | intros ? ]
    | match goal with
      | |- Props.appends_or_raises (if ?b then _ else _) => destruct b
      end ].

Lemma explain_age_any (signals : value) :
  Props.appends_or_raises (RiskEngine.explain_age signals).
Proof. unfold RiskEngine.explain_age. repeat aor_step. Qed.

Lemma explain_ssl_any (signals : value) :
  Props.appends_or_raises (RiskEngine.explain_ssl signals).
Proof. unfold RiskEngine.explain_ssl. repeat aor_step. Qed.

Lemma explain_blacklist_any (repr_other : value -> string) (signals : value) :
  Props.appends_or_raises (RiskEngine.explain_blacklist repr_other signals).
Proof. unfold RiskEngine.explain_blacklist. repeat aor_step. Qed.

Lemma explain_hosting_any (repr_other : value -> string) (signals : value) :
  Props.appends_or_raises (RiskEngine.explain_hosting repr_other signals).
Proof. unfold RiskEngine.explain_hosting. repeat aor_step. Qed.

Lemma explain_content_any (repr_other : value -> string) (signals : value) :
  Props.appends_or_raises (RiskEngine.explain_content repr_other signals).
Proof. unfold RiskEngine.explain_content. repeat aor_step. Qed.

Lemma explain_dns_any (signals : value) :
  Props.appends_or_raises (RiskEngine.explain_dns signals).
Proof. unfold RiskEngine.explain_dns. repeat aor_step. Qed.

Lemma block_outcome_seq (m rest : RiskEngine.M unit) :
  Props.appends_or_raises m ->
  (forall ex, Spec.no_banner ex -> Props.block_outcome (rest ex)) ->
  forall ex, Spec.no_banner ex ->
    Props.block_outcome (RiskEngine.bindM m (fun _ => rest) ex).
Proof.
  intros Hm Hrest ex Hex. destruct (Hm ex) as (l & r & E & N).
  unfold RiskEngine.bindM. rewrite E. destruct r as [[]|e].
  - apply Hrest, no_banner_app; assumption.
  - exists (ex ++ l)%list. split; [apply no_banner_app; assumption|].
    right. exists e. reflexivity.
Qed.

Lemma block_outcome_verdict (risk_score : value) (ex : list string) :
  Spec.no_banner ex ->
  Props.block_outcome
    (RiskEngine.bindM (RiskEngine.explain_verdict risk_score)
       (fun _ => RiskEngine.bindM (RiskEngine.append "")
          (fun _ => RiskEngine.append RiskEngine.disclaimer)) ex).
Proof.
  intros Hex. exists ex. split; [exact Hex|].
  unfold RiskEngine.explain_verdict, RiskEngine.bindM, RiskEngine.lift,
    RiskEngine.insert0, RiskEngine.append.
  destruct (ge risk_score (VInt 70)) as [[|]|e].
  - left. exists RiskEngine.scam_banner. split; [reflexivity|].
    simpl. rewrite <- app_assoc. reflexivity.
  - destruct (ge risk_score (VInt 40)) as [[|]|e].
    + left. exists RiskEngine.suspicious_banner. split; [reflexivity|].
      simpl. rewrite <- app_assoc. reflexivity.
    + left. exists RiskEngine.safe_banner. split; [reflexivity|].
      simpl. rewrite <- app_assoc. reflexivity.
    + right. exists e. reflexivity.
  - right. exists e. reflexivity.
Qed.

(** X1.  Whatever the bundle and the score are, the explanation trail has one
    of two shapes: a verdict banner, lines without a banner, the empty line
    and the disclaimer; or lines without a banner followed by the error
    line.  A banner is never anywhere but at the head. *)
Theorem explanations_trail_shape (repr_other : value -> string)
    (self : RiskEngine.t) (signals risk_score : value) :
  Props.trail_shape
    (RiskEngine.generate_explanations repr_other self signals risk_score).
Proof.
  assert (H : Props.block_outcome
                (RiskEngine.explanations_body repr_other signals risk_score [])).
  { unfold RiskEngine.explanations_body.
    apply block_outcome_seq; [apply explain_age_any | intros ? ? | constructor].
    apply block_outcome_seq; [apply explain_ssl_any | intros ? ? | assumption].
    apply block_outcome_seq; [apply explain_blacklist_any | intros ? ? | assumption].
    apply block_outcome_seq; [apply explain_hosting_any | intros ? ? | assumption].
    apply block_outcome_seq; [apply explain_content_any | intros ? ? | assumption].
    apply block_outcome_seq; [apply explain_dns_any | intros ? ? | assumption].
    apply block_outcome_verdict; assumption. }
  destruct H as (lines & N & [(banner & Hb & E) | (e & E)]);
    exists lines; (split; [exact N|]);
    unfold RiskEngine.generate_explanations, RiskEngine.try_exceptM; rewrite E.
  - left. exists banner. split; [exact Hb | reflexivity].
  - right. rewrite every_exn_is_Exception. reflexivity.
Qed.

(** *** The rule score on any input *)

Lemma min_upper (a v : value) (cap : Z) :
  min a (VInt cap) = Ok v ->
  exists q, num_of v = Some q /\ (q <= inject_Z cap)%Q.
Proof.
  unfold min, lt, compare_op. cbn [num_of].
  destruct (num_of a) as [x|] eqn:Ha; cbn [bind]; [|discriminate].
  destruct (Qlt_bool (inject_Z cap) x) eqn:E; intros H; injection H as <-.
  - exists (inject_Z cap). split; [reflexivity | apply Qle_refl].
  - exists x. split; [exact Ha|]. now apply Qlt_bool_false_iff.
Qed.


(** *** The values a category can take *)

Lemma age_loop_values brackets d z :
  RiskEngine.age_loop brackets d = Ok z ->
  z = 0 \/ In z (map (fun b => snd (snd b)) brackets).
Proof.
  induction brackets as [|[level [[lo hi] points]] rest IH]; simpl.
  - intros H. injection H as <-. now left.
  - destruct (le (VInt lo) d) as [c1|e]; cbn [bind]; [|discriminate].
    assert (Hrest : RiskEngine.age_loop rest d = Ok z ->
                    z = 0 \/ (points = z \/ In z (map (fun b => snd (snd b)) rest))).
    { intros H. destruct (IH H) as [->|Hin]; auto. }
    destruct c1.
    + destruct (le d (VInt hi)) as [c|e]; cbn [bind]; [|discriminate].
      destruct c; [|exact Hrest].
      intros H. injection H as <-. auto.
    + cbn [bind]. exact Hrest.
Qed.

Lemma blacklist_score_upper bl v :
  RiskEngine._calculate_blacklist_score RiskEngine.init bl = Ok v ->
  exists q, num_of v = Some q /\ (q <= 50)%Q.
Proof.
  unfold RiskEngine._calculate_blacklist_score. repeat step.
  intros H. exact (min_upper _ _ 50 H).
Qed.

(** X3.  When the seven categories are scored, each one takes a value of its
    point table: the age 0, 5, 10, 20 or 25; SSL 0, 5, 10 or 15; hosting 0,
    10 or 20; content a multiple of 5 up to 30; DNS 0 or 20; the blacklist
    category is a number of at most 50 and the pattern category is not
    negative. *)
Theorem category_scores_values (signals : value) (a s h c d p : Z) (b : value) :
  Spec.category_scores RiskEngine.init signals = Ok (a, s, b, h, c, d, p) ->
  In a [0; 25; 20; 10; 5]
  /\ In s [0; 5; 10; 15]
  /\ (exists q, num_of b = Some q /\ (q <= 50)%Q)
  /\ In h [0; 10; 20]
  /\ In c [0; 5; 10; 15; 20; 25; 30]
  /\ In d [0; 20]
  /\ 0 <= p.
Proof.
  unfold Spec.category_scores.
  step_as whois Ew. step_as age Ea. step_as a' Eas.
  step_as ssl Es. step_as s' Ess.
  step_as bl Eb. step_as b' Ebs.
  step_as hosting Eh. step_as h' Ehs.
  step_as content Ec. step_as c' Ecs.
  step_as dns Ed. step_as d' Eds.
  step_as p' Eps.
  intros H. injection H as -> -> -> -> -> -> ->.
  split; [|split; [|split; [|split; [|split; [|split]]]]].
  - apply age_loop_values in Eas. simpl in Eas. simpl. lia.
  - revert Ess. unfold RiskEngine._calculate_ssl_score. simpl.
    bind_cases; intros H; try discriminate H; injection H as <-; simpl; lia.
  - exact (blacklist_score_upper _ _ Ebs).
  - revert Ehs. unfold RiskEngine._calculate_hosting_score. simpl.
    bind_cases; intros H; try discriminate H; injection H as <-; simpl; lia.
  - revert Ecs. unfold RiskEngine._calculate_content_score. simpl.
    bind_cases; intros H; try discriminate H; injection H as <-; simpl; lia.
  - revert Eds. unfold RiskEngine._calculate_dns_score. simpl.
    bind_cases; intros H; try discriminate H; injection H as <-; simpl; lia.
  - exact (pattern_score_nonneg _ _ Eps).
Qed.

Lemma category_scores_values_witness :
  In 25 [0; 25; 20; 10; 5]
  /\ In 15 [0; 5; 10; 15]
  /\ (exists q, num_of (VInt 50) = Some q /\ (q <= 50)%Q)
  /\ In 20 [0; 10; 20]
  /\ In 0 [0; 5; 10; 15; 20; 25; 30]
  /\ In 20 [0; 20]
  /\ 0 <= 15.
Proof.
  apply (category_scores_values Spec.many_hits_bundle 25 15 20 0 20 15 (VInt 50)).
  reflexivity.
Defined.

(** *** Age: the points and the line *)

Lemma Qle_bool_inject (a b : Z) : Qle_bool (inject_Z a) (inject_Z b) = (a <=? b).
Proof.
  apply eq_true_iff_eq. rewrite Qle_bool_iff, <- Zle_Qle, Z.leb_le. reflexivity.
Qed.

Lemma Qlt_bool_inject (a b : Z) : Qlt_bool (inject_Z a) (inject_Z b) = (a <? b).
Proof.
  unfold Qlt_bool. rewrite Qle_bool_inject. symmetry. apply Z.ltb_antisym.
Qed.

Lemma le_int (a b : Z) : le (VInt a) (VInt b) = Ok (a <=? b).
Proof. unfold le, compare_op. cbn [num_of]. now rewrite Qle_bool_inject. Qed.

Lemma lt_int_Z (a b : Z) : lt (VInt a) (VInt b) = Ok (a <? b).
Proof. rewrite lt_int. now rewrite Qlt_bool_inject. Qed.

Lemma gt_int_Z (a b : Z) : gt (VInt a) (VInt b) = Ok (b <? a).
Proof. rewrite gt_int. now rewrite Qlt_bool_inject. Qed.

Lemma age_score_table (d : Z) :
  RiskEngine._calculate_age_score RiskEngine.init (VInt d) = Ok (Props.age_points d).
Proof.
  unfold RiskEngine._calculate_age_score, Props.age_points.
  cbn [RiskEngine.r_domain_age RiskEngine.risk_rules RiskEngine.init RiskEngine.age_loop].
  rewrite !le_int. cbn [bind].
  repeat match goal with
    | |- context [?a <=? ?b] => destruct (Z.leb_spec a b); cbn [bind]; try lia
    | |- context [?a <? ?b] => destruct (Z.ltb_spec a b); cbn [bind]; try lia
    end; reflexivity.
Qed.

Lemma explain_age_table (signals : value) (d : Z) (ex : list string) :
  Spec.age_lookup signals = Ok (VInt d) ->
  RiskEngine.explain_age signals ex = (Ok tt, (ex ++ Props.age_lines d)%list).
Proof.
  unfold Spec.age_lookup, RiskEngine.explain_age, RiskEngine.bindM, RiskEngine.lift.
  destruct (get signals "whois" (VDict [])) as [whois|e]; cbn [bind]; [|discriminate].
  intros ->. unfold Props.age_lines.
  rewrite !lt_int_Z, gt_int_Z.
  destruct (d <? 7); [reflexivity|].
  destruct (d <? 30); [reflexivity|].
  destruct (d <? 90); [reflexivity|].
  destruct (365 <? d); [reflexivity|].
  unfold RiskEngine.when, RiskEngine.ret. now rewrite app_nil_r.
Qed.

(** X4.  For a bundle whose age is the integer [d], the age category scores
    the bracket of [d] (25 for 0..7, 20 for 8..30, 10 for 31..90, 5 for
    91..180, 0 below 0 and above 180) and the explanation appends the line of
    its own tier (below 7, below 30, below 90, above 365, else none). *)
Theorem age_points_and_line (signals : value) (d : Z) (ex : list string) :
  Spec.age_lookup signals = Ok (VInt d) ->
  RiskEngine._calculate_age_score RiskEngine.init (VInt d) = Ok (Props.age_points d)
  /\ RiskEngine.explain_age signals ex = (Ok tt, (ex ++ Props.age_lines d)%list).
Proof.
  intros H. split; [apply age_score_table | now apply explain_age_table].
Qed.

Lemma age_points_and_line_witness :
  RiskEngine._calculate_age_score RiskEngine.init (VInt 12) = Ok (Props.age_points 12)
  /\ RiskEngine.explain_age Spec.rich_bundle []
     = (Ok tt, ([] ++ Props.age_lines 12)%list).
Proof.
  apply (age_points_and_line Spec.rich_bundle 12 []). reflexivity.
Defined.

(** X5.  The brackets of the score and the tiers of the explanation do not
    coincide: a negative age scores 0 points and is explained as CRITICAL; an
    age of exactly 7, 30 or 90 days is scored in one tier (25, 20, 10 points)
    and explained in the next one (HIGH RISK, MEDIUM, no line); everywhere
    else up to 90 days the points and the line name the same tier. *)
Theorem age_score_and_explanation_tiers (signals : value) (d : Z) (ex : list string) :
  Spec.age_lookup signals = Ok (VInt d) ->
  let score := RiskEngine._calculate_age_score RiskEngine.init (VInt d) in
  let trail := snd (RiskEngine.explain_age signals ex) in
  (d < 0 -> score = Ok 0 /\
     trail = (ex ++ ["🚨 CRITICAL: Domain is extremely new (less than 1 week old)"])%list)
  /\ (0 <= d < 7 -> score = Ok 25 /\
     trail = (ex ++ ["🚨 CRITICAL: Domain is extremely new (less than 1 week old)"])%list)
  /\ (d = 7 -> score = Ok 25 /\
     trail = (ex ++ ["⚠️ HIGH RISK: Domain is very new (less than 1 month old)"])%list)
  /\ (7 < d < 30 -> score = Ok 20 /\
     trail = (ex ++ ["⚠️ HIGH RISK: Domain is very new (less than 1 month old)"])%list)
  /\ (d = 30 -> score = Ok 20 /\
     trail = (ex ++ ["⚠️ MEDIUM: Domain is relatively new (less than 3 months old)"])%list)
  /\ (30 < d < 90 -> score = Ok 10 /\
     trail = (ex ++ ["⚠️ MEDIUM: Domain is relatively new (less than 3 months old)"])%list)
  /\ (d = 90 -> score = Ok 10 /\ trail = ex).
Proof.
  intros H score trail. subst score trail.
  rewrite age_score_table, (explain_age_table signals d ex H).
  unfold Props.age_points, Props.age_lines. cbn [snd].
  repeat match goal with |- (_ -> _) /\ _ => split end; intros Hd;
    repeat match goal with
      | |- context [?a <=? ?b] => destruct (Z.leb_spec a b); try lia
      | |- context [?a <? ?b] => destruct (Z.ltb_spec a b); try lia
      end; rewrite ?app_nil_r; split; reflexivity.
Qed.

Lemma age_score_and_explanation_tiers_witness :
  let signals := VDict [("whois", VDict [("domain_age_days", VInt 7)])] in
  let score := RiskEngine._calculate_age_score RiskEngine.init (VInt 7) in
  let trail := snd (RiskEngine.explain_age signals []) in
  (7 < 0 -> score = Ok 0 /\
     trail = ([] ++ ["🚨 CRITICAL: Domain is extremely new (less than 1 week old)"])%list)
  /\ (0 <= 7 < 7 -> score = Ok 25 /\
     trail = ([] ++ ["🚨 CRITICAL: Domain is extremely new (less than 1 week old)"])%list)
  /\ (7 = 7 -> score = Ok 25 /\
     trail = ([] ++ ["⚠️ HIGH RISK: Domain is very new (less than 1 month old)"])%list)
  /\ (7 < 7 < 30 -> score = Ok 20 /\
     trail = ([] ++ ["⚠️ HIGH RISK: Domain is very new (less than 1 month old)"])%list)
  /\ (7 = 30 -> score = Ok 20 /\
     trail = ([] ++ ["⚠️ MEDIUM: Domain is relatively new (less than 3 months old)"])%list)
  /\ (30 < 7 < 90 -> score = Ok 10 /\
     trail = ([] ++ ["⚠️ MEDIUM: Domain is relatively new (less than 3 months old)"])%list)
  /\ (7 = 90 -> score = Ok 10 /\ trail = []).
Proof.
  apply (age_score_and_explanation_tiers
           (VDict [("whois", VDict [("domain_age_days", VInt 7)])]) 7 []).
  reflexivity.
Defined.

(** *** The weighted score of a normalized vector *)





(** Both bounds are reached: by the vector above and by its mirror image. *)
Example calculate_score_extremes :
  (exists s, MLModel._calculate_score MLModel.init
      (VDict [ ("domain_age_days", VFloat 1.0); ("has_https", VInt 1);
               ("ssl_valid", VInt 1); ("dns_resolved", VInt 1);
               ("has_whois_privacy", VInt 0); ("blacklist_count", VFloat 0.0);
               ("hosting_reputation_score", VFloat 1.0);
               ("content_scam_score", VFloat 0.0); ("domain_length", VFloat 0.0);
               ("content_risk_keywords", VFloat 0.0) ]) = Ok s /\ (s == -0.42)%Q)
  /\ (exists s, MLModel._calculate_score MLModel.init
      (VDict [ ("domain_age_days", VFloat 0.0); ("has_https", VInt 0);
               ("ssl_valid", VInt 0); ("dns_resolved", VInt 0);
               ("has_whois_privacy", VInt 1); ("blacklist_count", VFloat 1.0);
               ("hosting_reputation_score", VFloat 0.0);
               ("content_scam_score", VFloat 1.0); ("domain_length", VFloat 1.0);
               ("content_risk_keywords", VFloat 1.0) ]) = Ok s /\ (s == 0.81)%Q).
Proof.
  split; eexists; (split; [reflexivity|]); reflexivity.
Qed.

(** *** The prediction on any input *)

Lemma quarter_nonneg (k : Z) : 0 <= k -> (0 <= inject_Z k / 4.0)%Q.
Proof.
  intros Hk. apply Qle_shift_div_l; [reflexivity|].
  rewrite Qmult_0_l. change 0%Q with (inject_Z 0). now rewrite <- Zle_Qle.
Qed.

Lemma raise_confidence (c : bool) (x y : Q) (b : value) :
  (0 <= x)%Q -> (0 <= y)%Q ->
  (if c then max (VFloat x) (VFloat y) else Ok (VFloat x)) = Ok b ->
  exists x', b = VFloat x' /\ (0 <= x')%Q.
Proof.
  intros Hx Hy. destruct c.
  - rewrite max_float. intros H. injection H as <-.
    eexists. split; [reflexivity|]. destruct (Qlt_bool x y); assumption.
  - intros H. injection H as <-. eauto.
Qed.

Lemma calculate_confidence_any (self : MLModel.t) (nf v : value) :
  MLModel._calculate_confidence self nf = Ok v ->
  exists c, v = VFloat c /\ (0 <= c <= 0.95)%Q.
Proof.
  unfold MLModel._calculate_confidence.
  step_as v1 E1. step_as v2 E2. step_as c2 Ec2. step_as v3 E3. step_as v4 E4.
  match goal with
  | |- context [VFloat (inject_Z ?k / 4.0)] =>
      assert (Hk : (0 <= inject_Z k / 4.0)%Q);
      [ apply quarter_nonneg;
        destruct (eq_num v1 1), c2, (eq_num v3 0 || eq_num v3 1), (negb (eq_num v4 0.5));
        lia
      | generalize dependent (inject_Z k / 4.0)%Q; intros x Hx ]
  end.
  step_as bl Eb. step_as cb Ecb. step_as b1 Hb1.
  destruct (raise_confidence _ _ 0.9%Q _ Hx ltac:(lra) Hb1) as (x1 & -> & Hx1).
  step_as cs Ecs. step_as c1 Ec1. step_as b2 Hb2.
  destruct (raise_confidence _ _ 0.8%Q _ Hx1 ltac:(lra) Hb2) as (x2 & -> & Hx2).
  rewrite min_float. intros H. injection H as <-.
  eexists. split; [reflexivity|].
  destruct (Qlt_bool 0.95 x2) eqn:E.
  - lra.
  - apply Qlt_bool_false_iff in E. lra.
Qed.

Lemma sigmoid_open_unit (e : Q) :
  (0 < e)%Q -> (0 < 1 / (1 + e))%Q /\ (1 / (1 + e) < 1)%Q.
Proof.
  intros He. split.
  - apply Qlt_shift_div_l; lra.
  - apply Qlt_shift_div_r; lra.
Qed.

Lemma predict_result_shape (np_exp : Q -> Q) (self : MLModel.t) (features : value) :
  (forall x, (0 < np_exp x)%Q) ->
  exists risk_score probability confidence importance last,
    MLModel.predict np_exp self features =
      Ok (VDict [ ("risk_score", VFloat risk_score);
                  ("probability", VFloat probability);
                  ("confidence", VFloat confidence);
                  ("feature_importance", VDict importance);
                  last ])
    /\ (risk_score == probability * 100)%Q
    /\ (0 < probability)%Q /\ (probability < 1)%Q
    /\ (0 <= confidence <= 0.95)%Q.
Proof.
  intros Hpos. unfold MLModel.predict.
  destruct (MLModel.predict_try np_exp self features) as [v|e] eqn:E.
  - revert E. unfold MLModel.predict_try.
    step_as nf En. step_as score Es. step_as p Ep. step_as fi Ef. step_as c Ec.
    intros H. injection H as <-.
    destruct (calculate_confidence_any _ _ _ Ec) as (q & -> & Hq).
    unfold MLModel._sigmoid, try_except in Ep. injection Ep as <-.
    revert Ef. unfold MLModel._calculate_feature_importance.
    step_as imp Ei. intros H. injection H as <-.
    destruct (sigmoid_open_unit _ (Hpos (- (score * 5))%Q)) as [Hlo Hhi].
    do 5 eexists. cbn [try_except]. split; [reflexivity|].
    split; [reflexivity|]. split; [exact Hlo|]. split; [exact Hhi | exact Hq].
  - exists 50.0%Q, 0.5%Q, 0.5%Q, [], ("error", VStr (exn_msg e)).
    unfold try_except. rewrite every_exn_is_Exception.
    split; [reflexivity|]. split; [reflexivity|]. repeat split; lra.
Qed.



(** *** The importance table *)

Lemma insert_desc_forall (P : string * Q -> Prop) (x : string * Q) (l : list (string * Q)) :
  P x -> Forall P l -> Forall P (MLModel.insert_desc x l).
Proof.
  intros Hx Hl. induction Hl as [|y l Hy Hl IH]; simpl.
  - constructor; [exact Hx | constructor].
  - destruct (Qlt_bool (snd y) (snd x)); repeat constructor; assumption.
Qed.

Lemma insert_desc_perm (x : string * Q) (l : list (string * Q)) :
  Permutation (x :: l) (MLModel.insert_desc x l).
Proof.
  induction l as [|y l IH]; simpl.
  - apply Permutation_refl.
  - destruct (Qlt_bool (snd y) (snd x)).
    + apply Permutation_refl.
    + eapply perm_trans; [apply perm_swap|]. apply perm_skip. exact IH.
Qed.

Lemma insert_desc_sorted (x : string * Q) (l : list (string * Q)) :
  StronglySorted Props.value_ge l ->
  StronglySorted Props.value_ge (MLModel.insert_desc x l).
Proof.
  intros Hl. induction Hl as [|y l Hl IH Hy]; simpl.
  - constructor; constructor.
  - destruct (Qlt_bool (snd y) (snd x)) eqn:E.
    + apply Qlt_bool_iff in E. constructor.
      * constructor; assumption.
      * constructor.
        -- unfold Props.value_ge. lra.
        -- eapply Forall_impl; [|exact Hy]. unfold Props.value_ge.
           intros z Hz. lra.
    + apply Qlt_bool_false_iff in E. constructor; [exact IH|].
      apply insert_desc_forall; [exact E | exact Hy].
Qed.

Lemma sorted_desc_from (l acc : list (string * Q)) :
  StronglySorted Props.value_ge acc ->
  StronglySorted Props.value_ge (fold_left (fun acc x => MLModel.insert_desc x acc) l acc)
  /\ Permutation (acc ++ l)
       (fold_left (fun acc x => MLModel.insert_desc x acc) l acc).
Proof.
  revert acc. induction l as [|x l IH]; intros acc Hacc; simpl.
  - split; [exact Hacc | rewrite app_nil_r; apply Permutation_refl].
  - destruct (IH (MLModel.insert_desc x acc) (insert_desc_sorted x acc Hacc)) as [Hs Hp].
    split; [exact Hs|].
    eapply perm_trans; [|exact Hp].
    eapply perm_trans; [apply Permutation_sym, Permutation_middle|].
    change (x :: acc ++ l)%list with ((x :: acc) ++ l)%list.
    apply Permutation_app_tail, insert_desc_perm.
Qed.

Lemma round_half_even_nonneg (x : Q) : (0 <= x)%Q -> 0 <= round_half_even x.
Proof.
  intros Hx. unfold round_half_even.
  assert (Hf : 0 <= Qfloor x).
  { change 0 with (Qfloor 0). now apply Qfloor_resp_le. }
  destruct (Qcompare _ _); [destruct (Z.even _)| |]; lia.
Qed.

Lemma round_nonneg (x : Q) (n : nat) : (0 <= x)%Q -> (0 <= round x n)%Q.
Proof.
  intros Hx. unfold round.
  assert (Hp : (0 < inject_Z (10 ^ Z.of_nat n))%Q).
  { change 0%Q with (inject_Z 0). rewrite <- Zlt_Qlt. apply Z.pow_pos_nonneg; lia. }
  apply Qle_shift_div_l; [exact Hp|]. rewrite Qmult_0_l.
  change 0%Q with (inject_Z 0). rewrite <- Zle_Qle.
  apply round_half_even_nonneg. apply Qmult_le_0_compat; [exact Hx|].
  now apply Qlt_le_weak.
Qed.

Lemma dict_set_forall {A} (P : string * A -> Prop) (d : list (string * A)) k v :
  Forall P d -> P (k, v) -> Forall P (dict_set d k v).
Proof.
  intros Hd Hv. induction Hd as [|[k' v'] d Hy Hd IH]; simpl.
  - constructor; [exact Hv | constructor].
  - destruct (String.eqb k k'); constructor; assumption.
Qed.

Lemma dict_set_new_key {A} (d : list (string * A)) k v :
  ~ In k (map fst d) -> map fst (dict_set d k v) = (map fst d ++ [k])%list.
Proof.
  induction d as [|[k' v'] d IH]; simpl; intros Hn.
  - reflexivity.
  - destruct (String.eqb_spec k k') as [->|Hne].
    + exfalso. apply Hn. now left.
    + simpl. f_equal. apply IH. intros Hin. apply Hn. now right.
Qed.

Lemma importance_loop_table (nf : value) (ws : list (string * Q))
    (acc imp : list (string * Q)) :
  MLModel.importance_loop nf ws acc = Ok imp ->
  Forall (fun kv => (0 <= snd kv)%Q) acc ->
  Forall (fun kv => (0 <= snd kv)%Q) imp
  /\ (NoDup (map fst acc ++ map fst ws) ->
      map fst imp = (map fst acc ++ map fst ws)%list).
Proof.
  revert acc. induction ws as [|[name w] ws IH]; intros acc; simpl.
  - intros H Hacc. injection H as <-. split; [exact Hacc|].
    intros _. now rewrite app_nil_r.
  - step_as fv Ef. step_as p Ep. intros H Hacc.
    destruct (IH _ H) as [Hpos Hkeys].
    { apply dict_set_forall; [exact Hacc|]. simpl. apply round_nonneg, Qabs_nonneg. }
    split; [exact Hpos|].
    intros Hnd.
    assert (Hnew : ~ In name (map fst acc)).
    { intros Hin. apply NoDup_remove_2 in Hnd. apply Hnd.
      apply in_or_app. now left. }
    rewrite Hkeys; rewrite (dict_set_new_key _ _ _ Hnew).
    + rewrite <- app_assoc. reflexivity.
    + rewrite <- app_assoc. exact Hnd.
Qed.

(** X8.  The importance table [_calculate_feature_importance] returns is
    sorted by value, largest first, holds no negative value, and (the names
    of the weight table being distinct) has exactly the names of the weight
    table as keys. *)
Theorem feature_importance_sorted (self : MLModel.t) (nf fi : value) :
  MLModel._calculate_feature_importance self nf = Ok fi ->
  exists items,
    fi = VDict (map (fun kv => (fst kv, VFloat (snd kv))) items)
    /\ StronglySorted Props.value_ge items
    /\ Forall (fun kv => (0 <= snd kv)%Q) items
    /\ (NoDup (map fst (MLModel.weights self)) ->
        Permutation (map fst (MLModel.weights self)) (map fst items)).
Proof.
  unfold MLModel._calculate_feature_importance.
  step_as imp Ei. intros H. injection H as <-.
  exists (MLModel.sorted_desc imp).
  destruct (importance_loop_table _ _ _ _ Ei (Forall_nil _)) as [Hpos Hkeys].
  destruct (sorted_desc_from imp [] (SSorted_nil _)) as [Hs Hp].
  split; [reflexivity|]. split; [exact Hs|]. split.
  - eapply Permutation_Forall; [exact Hp | exact Hpos].
  - intros Hnd. simpl in Hkeys. rewrite <- (Hkeys Hnd). apply Permutation_map. exact Hp.
Qed.

Lemma feature_importance_sorted_witness :
  exists items,
    VDict [ ("has_https", VFloat 0.150); ("ssl_valid", VFloat 0.100);
            ("dns_resolved", VFloat 0.100); ("content_scam_score", VFloat 0.080);
            ("domain_age_days", VFloat 0.050);
            ("hosting_reputation_score", VFloat 0.016);
            ("domain_length", VFloat 0.002); ("blacklist_count", VFloat 0.000);
            ("has_whois_privacy", VFloat 0.000);
            ("content_risk_keywords", VFloat 0.000) ]
      = VDict (map (fun kv => (fst kv, VFloat (snd kv))) items)
    /\ StronglySorted Props.value_ge items
    /\ Forall (fun kv => (0 <= snd kv)%Q) items
    /\ (NoDup (map fst (MLModel.weights MLModel.init)) ->
        Permutation (map fst (MLModel.weights MLModel.init)) (map fst items)).
Proof.
  apply (feature_importance_sorted MLModel.init
           (VDict [ ("domain_age_days", VFloat 1.0); ("has_https", VInt 1);
                    ("ssl_valid", VInt 1); ("dns_resolved", VInt 1);
                    ("has_whois_privacy", VInt 0); ("blacklist_count", VFloat 0.0);
                    ("hosting_reputation_score", VFloat 0.8);
                    ("content_scam_score", VFloat 0.2); ("domain_length", VFloat 0.22);
                    ("content_risk_keywords", VFloat 0.0) ])).
  reflexivity.
Defined.

(** *** The whole scoring tail of [check_domain] *)

Lemma extract_features_typed (signals : value) :
  Spec.signal_bundle signals = true ->
  exists features, Main.extract_features signals = Ok features.
Proof.
  intros H. destruct signals as [| | | | | |d]; try discriminate H.
  unfold Spec.signal_bundle in H.
  apply andb_prop in H. destruct H as [H Hcontent].
  apply andb_prop in H. destruct H as [H Hhosting].
  apply andb_prop in H. destruct H as [H Hblacklist].
  apply andb_prop in H. destruct H as [H Hdns].
  apply andb_prop in H. destruct H as [Hwhois Hssl].
  lookup_record Hwhois w Hw Hwok.
  lookup_record Hssl s Hs Hsok.
  lookup_record Hdns n Hn Hnok.
  lookup_record Hblacklist b Hb Hbok.
  lookup_record Hhosting h Hh Hhok.
  lookup_record Hcontent c Hc Hcok.
  unfold Spec.whois_ok in Hwok.
  apply andb_prop in Hwok. destruct Hwok as [_ Hdom].
  lookup_field Hdom (VStr "") dom Ed Pd.
  destruct dom as [| | | |name| |]; try discriminate Pd.
  unfold Main.extract_features.
  rewrite Hw, Hs, Hb, Hh, Hc, Hn. cbn [bind].
  unfold get at 1 2 3 4 5 6 7. cbn [bind].
  rewrite Ed. cbn [bind len]. unfold get. cbn [bind].
  eexists. reflexivity.
Qed.

Lemma risk_score_number_range (signals : value) :
  Spec.hits_nonneg signals = true ->
  exists v q,
    RiskEngine.calculate_risk_score RiskEngine.init signals = Ok v
    /\ num_of v = Some q /\ (0 <= q <= 100)%Q.
Proof.
  intros Hh. unfold RiskEngine.calculate_risk_score.
  match goal with
  | |- context [try_except ?body _] => destruct body as [v|e] eqn:E
  end.
  - pose proof (risk_score_body_range signals v Hh E) as Hr.
    destruct (in_range_num _ _ _ Hr) as (q & Hq & Hlo & Hhi).
    exists v, q. split; [reflexivity|]. auto.
  - exists (VFloat 50.0), 50.0%Q. unfold try_except.
    rewrite every_exn_is_Exception. split; [reflexivity|].
    split; [reflexivity|]. lra.
Qed.

Lemma round_half_even_le (x : Q) (n : Z) :
  (x <= inject_Z n)%Q -> round_half_even x <= n.
Proof.
  intros Hx. unfold round_half_even.
  assert (Hf : Qfloor x <= n).
  { rewrite <- (Qfloor_Z n). now apply Qfloor_resp_le. }
  pose proof (Qfloor_le x) as Hlo.
  destruct (Z.eq_dec (Qfloor x) n) as [Heq|Hne].
  - rewrite Heq in *.
    destruct (Qcompare_spec (x - inject_Z n) (1 # 2)) as [E|E|E]; try lra. lia.
  - destruct (Qcompare _ _); [destruct (Z.even _)| |]; lia.
Qed.

Lemma round_two_range (x : Q) :
  (0 <= x <= 100)%Q -> (0 <= round x 2 <= 100)%Q.
Proof.
  intros [Hlo Hhi]. split; [now apply round_nonneg|].
  unfold round. change (inject_Z (10 ^ Z.of_nat 2)) with 100%Q.
  apply Qle_shift_div_r; [reflexivity|].
  change (100 * 100)%Q with (inject_Z 10000). rewrite <- Zle_Qle.
  apply round_half_even_le. change (inject_Z 10000) with (100 * 100)%Q.
  apply Qmult_le_compat_r; [exact Hhi | discriminate].
Qed.

Lemma verdict_for_values (h q : Q) :
  In (fst (Spec.verdict_for h q)) Spec.verdict_strings
  /\ In (round (snd (Spec.verdict_for h q)) 2) [0.95; 0.85; 0.75; 0.80]%Q.
Proof.
  unfold Spec.verdict_for.
  destruct (Qlt_bool 0 h); [|destruct (Qle_bool 70 q); [|destruct (Qle_bool 40 q)]];
    simpl; auto 8.
Qed.

Lemma typed_trail (repr_other : value -> string) (self : RiskEngine.t)
    (signals risk_score : value) (q : Q) :
  Spec.signal_bundle signals = true ->
  num_of risk_score = Some q ->
  exists lines,
    RiskEngine.generate_explanations repr_other self signals risk_score
      = (Spec.banner_for q :: lines ++ [""; RiskEngine.disclaimer])%list /\
    Spec.no_banner lines.
Proof.
  intros Hs Hq. destruct signals as [| | | | | |d]; try discriminate Hs.
  unfold Spec.signal_bundle in Hs.
  apply andb_prop in Hs. destruct Hs as [Hs Hcontent].
  apply andb_prop in Hs. destruct Hs as [Hs Hhosting].
  apply andb_prop in Hs. destruct Hs as [Hs Hblacklist].
  apply andb_prop in Hs. destruct Hs as [Hs Hdns].
  apply andb_prop in Hs. destruct Hs as [Hwhois Hssl].
  unfold RiskEngine.generate_explanations, RiskEngine.try_exceptM,
    RiskEngine.explanations_body.
  run_block (explain_age_appends d Hwhois) l1 N1.
  run_block (explain_ssl_appends d Hssl) l2 N2.
  run_block (explain_blacklist_appends repr_other d Hblacklist) l3 N3.
  run_block (explain_hosting_appends repr_other d Hhosting) l4 N4.
  run_block (explain_content_appends repr_other d Hcontent) l5 N5.
  run_block (explain_dns_appends d Hdns) l6 N6.
  set (lines := (((((([] ++ l1) ++ l2) ++ l3) ++ l4) ++ l5) ++ l6)%list).
  assert (Nl : Spec.no_banner lines).
  { subst lines. repeat apply no_banner_app; try assumption. constructor. }
  clearbody lines.
  exists lines. split; [|exact Nl].
  unfold RiskEngine.explain_verdict, RiskEngine.bindM, RiskEngine.lift,
    RiskEngine.insert0, RiskEngine.append.
  rewrite (ge_num risk_score (VInt 70) q 70 Hq eq_refl).
  rewrite (ge_num risk_score (VInt 40) q 40 Hq eq_refl).
  unfold Spec.banner_for.
  destruct (Qle_bool 70 q); [|destruct (Qle_bool 40 q)];
    cbn [snd]; rewrite <- app_assoc; reflexivity.
Qed.

Lemma banner_for_is_banner (q : Q) : Spec.is_banner (Spec.banner_for q) = true.
Proof.
  unfold Spec.banner_for.
  destruct (Qle_bool 70 q); [reflexivity|]. destruct (Qle_bool 40 q); reflexivity.
Qed.

Lemma check_domain_typed (np_exp : Q -> Q) (repr_other : value -> string)
    (domain : string) (signals : value) (now : string) :
  (forall x, (0 < np_exp x)%Q) ->
  Spec.signal_bundle signals = true ->
  Spec.hits_nonneg signals = true ->
  exists resp shown banner lines,
    Main.check_domain np_exp repr_other MLModel.init RiskEngine.init domain signals now
      = Ok resp
    /\ Main.risk_score resp = VFloat shown /\ (0 <= shown <= 100)%Q
    /\ In (Main.verdict resp) Spec.verdict_strings
    /\ In (Main.confidence resp) [0.95; 0.85; 0.75; 0.80]%Q
    /\ Main.detailed_reasons resp
         = (banner :: lines ++ [""; RiskEngine.disclaimer])%list
    /\ Spec.is_banner banner = true /\ Spec.no_banner lines
    /\ Main.technical_signals resp = signals
    /\ Main.domain resp = domain
    /\ Main.analysis_timestamp resp = now.
Proof.
  intros Hpos Hs Hh.
  destruct (extract_features_typed signals Hs) as (features & Hf).
  destruct (predict_result_shape np_exp MLModel.init features Hpos)
    as (ml & p & c & imp & last & Hp & Hml & Hp0 & Hp1 & _).
  destruct (risk_score_number_range signals Hh) as (rule & r & Hr & Hrq & Hr0 & Hr1).
  assert (Hhit : exists hv h, Spec.hit_count signals = Ok hv /\ num_of hv = Some h).
  { destruct signals as [| | | | | |d]; try discriminate Hs.
    unfold Spec.signal_bundle in Hs.
    apply andb_prop in Hs. destruct Hs as [Hs _].
    apply andb_prop in Hs. destruct Hs as [Hs _].
    apply andb_prop in Hs. destruct Hs as [_ Hbl].
    lookup_record Hbl b Hb Hbok.
    unfold Spec.blacklist_ok in Hbok.
    apply andb_prop in Hbok. destruct Hbok as [Hbok _].
    apply andb_prop in Hbok. destruct Hbok as [Hbok _].
    apply andb_prop in Hbok. destruct Hbok as [Hhits _].
    lookup_field Hhits (VInt 0) hv Ehv Phv.
    destruct hv as [| |z| | | |]; try discriminate Phv.
    exists (VInt z), (inject_Z z). unfold Spec.hit_count. rewrite Hb. cbn [bind].
    rewrite Ehv. split; reflexivity. }
  destruct Hhit as (hv & h & Hhv & Hhq).
  set (final := (ml * 0.6 + r * 0.4)%Q).
  assert (Hfinal : (0 <= final <= 100)%Q).
  { subst final. rewrite Hml. split; nra. }
  destruct (typed_trail repr_other RiskEngine.init signals (VFloat final) final Hs eq_refl)
    as (lines & Ht & Nl).
  destruct (verdict_for_values h final) as [Hv Hc].
  destruct (Spec.verdict_for h final) as [v cf] eqn:Ev.
  eexists. exists (round final 2), (Spec.banner_for final), lines.
  split.
  - unfold Main.check_domain. rewrite Hf. cbn [bind]. rewrite Hp. cbn [bind].
    rewrite Hr. cbn [bind]. unfold Main.combine. cbn [getitem assoc String.eqb Ascii.eqb
      Bool.eqb bind].
    rewrite (mul_num_float (VFloat ml) ml 0.6 eq_refl). cbn [bind].
    rewrite (mul_num_float rule r 0.4 Hrq). cbn [bind].
    change (add (VFloat (ml * 0.6)) (VFloat (r * 0.4))) with (Ok (A:=value) (VFloat final)).
    cbn [bind].
    rewrite (determine_verdict_table (VFloat final) signals hv final h Hhv Hhq eq_refl).
    rewrite Ev. cbn [bind round_value try_except]. reflexivity.
  - cbn [Main.risk_score Main.verdict Main.confidence Main.detailed_reasons
         Main.technical_signals Main.domain Main.analysis_timestamp].
    split; [reflexivity|]. split; [apply round_two_range; exact Hfinal|].
    split; [exact Hv|]. split; [exact Hc|]. split; [exact Ht|].
    split; [apply banner_for_is_banner|]. split; [exact Nl|]. auto.
Qed.

(** X9.  With a positive exponential, the scoring tail of [check_domain]
    answers every bundle of the interface types whose hit count is not
    negative: no exception reaches the handler that would turn it into a
    status 500.  The score shown is a float in [0,100], the verdict one of
    the three strings, the confidence one of 0.95, 0.85, 0.75 and 0.80, and
    the reasons are a banner, lines without a banner, the empty line and the
    disclaimer; the bundle and the domain are handed back unchanged. *)
Theorem check_domain_answers (np_exp : Q -> Q) (repr_other : value -> string)
    (domain : string) (signals : value) (now : string) :
  (forall x, (0 < np_exp x)%Q) ->
  Spec.signal_bundle signals = true ->
  Spec.hits_nonneg signals = true ->
  exists resp shown banner lines,
    Main.check_domain np_exp repr_other MLModel.init RiskEngine.init domain signals now
      = Ok resp
    /\ Main.risk_score resp = VFloat shown /\ (0 <= shown <= 100)%Q
    /\ In (Main.verdict resp) Spec.verdict_strings
    /\ In (Main.confidence resp) [0.95; 0.85; 0.75; 0.80]%Q
    /\ Main.detailed_reasons resp
         = (banner :: lines ++ [""; RiskEngine.disclaimer])%list
    /\ Spec.is_banner banner = true /\ Spec.no_banner lines
    /\ Main.technical_signals resp = signals
    /\ Main.domain resp = domain
    /\ Main.analysis_timestamp resp = now.
Proof. apply check_domain_typed. Qed.

Lemma check_domain_answers_witness :
  exists resp shown banner lines,
    Main.check_domain (fun _ => 1%Q) Spec.plain_repr MLModel.init RiskEngine.init
      "win-prize-now.top" Spec.rich_bundle "2024-01-01T00:00:00" = Ok resp
    /\ Main.risk_score resp = VFloat shown /\ (0 <= shown <= 100)%Q
    /\ In (Main.verdict resp) Spec.verdict_strings
    /\ In (Main.confidence resp) [0.95; 0.85; 0.75; 0.80]%Q
    /\ Main.detailed_reasons resp
         = (banner :: lines ++ [""; RiskEngine.disclaimer])%list
    /\ Spec.is_banner banner = true /\ Spec.no_banner lines
    /\ Main.technical_signals resp = Spec.rich_bundle
    /\ Main.domain resp = "win-prize-now.top"
    /\ Main.analysis_timestamp resp = "2024-01-01T00:00:00".
Proof.
  apply (check_domain_answers (fun _ => 1%Q) Spec.plain_repr "win-prize-now.top"
           Spec.rich_bundle "2024-01-01T00:00:00").
  - intros x. reflexivity.
  - reflexivity.
  - reflexivity.
Defined.

(** *** Verdict and banner *)

(** X10.  The verdict of the response and the banner of the trail are taken
    from the same score with the same thresholds: without a blacklist hit
    they name the same class.  With a hit the verdict is LIKELY SCAM at 0.95
    while the banner still follows the score. *)
Theorem verdict_agrees_with_banner (signals risk_score hv : value) (q h : Q) :
  Spec.hit_count signals = Ok hv ->
  num_of hv = Some h ->
  num_of risk_score = Some q ->
  exists v c banner,
    Main.determine_verdict risk_score signals = Ok (v, c)
    /\ (forall ex, RiskEngine.explain_verdict risk_score ex = (Ok tt, banner :: ex))
    /\ (~ (0 < h)%Q -> In (v, banner) Props.verdict_banners)
    /\ ((0 < h)%Q -> v = "LIKELY SCAM" /\ c = 0.95%Q /\ banner = Spec.banner_for q).
Proof.
  intros Hc Hh Hq.
  rewrite (determine_verdict_table risk_score signals hv q h Hc Hh Hq).
  unfold RiskEngine.explain_verdict, RiskEngine.bindM, RiskEngine.lift, RiskEngine.insert0.
  rewrite (ge_num risk_score (VInt 70) q 70 Hq eq_refl).
  rewrite (ge_num risk_score (VInt 40) q 40 Hq eq_refl).
  unfold Spec.verdict_for, Spec.banner_for, Props.verdict_banners.
  destruct (Qlt_bool 0 h) eqn:E0.
  - apply Qlt_bool_iff in E0.
    destruct (Qle_bool 70 q); [|destruct (Qle_bool 40 q)];
      (do 3 eexists; split; [reflexivity|]; split;
       [ intros ex; reflexivity
       | split; [intros Hn; contradiction | intros _; auto] ]).
  - assert (Hn : ~ (0 < h)%Q).
    { intros Hpos. apply Qlt_bool_iff in Hpos. congruence. }
    destruct (Qle_bool 70 q); [|destruct (Qle_bool 40 q)];
      (do 3 eexists; split; [reflexivity|]; split;
       [ intros ex; reflexivity
       | split; [intros _; simpl; auto | intros Hpos; contradiction] ]).
Qed.

Lemma verdict_agrees_with_banner_witness :
  exists v c banner,
    Main.determine_verdict (VFloat 10.0) Spec.blacklisted_bundle = Ok (v, c)
    /\ (forall ex, RiskEngine.explain_verdict (VFloat 10.0) ex = (Ok tt, banner :: ex))
    /\ (~ (0 < inject_Z 1)%Q -> In (v, banner) Props.verdict_banners)
    /\ ((0 < inject_Z 1)%Q ->
        v = "LIKELY SCAM" /\ c = 0.95%Q /\ banner = Spec.banner_for 10.0).
Proof.
  apply (verdict_agrees_with_banner Spec.blacklisted_bundle (VFloat 10.0) (VInt 1)
           10.0%Q (inject_Z 1)); reflexivity.
Defined.

(** A listed domain with a low score: the verdict says LIKELY SCAM, the
    banner of the same response says SAFE. *)
Example blacklisted_low_score_mismatch :
  Main.determine_verdict (VFloat 10.0) Spec.blacklisted_bundle = Ok ("LIKELY SCAM", 0.95%Q)
  /\ hd "" (RiskEngine.generate_explanations Spec.plain_repr RiskEngine.init
              Spec.blacklisted_bundle (VFloat 10.0))
     = RiskEngine.safe_banner.
Proof. split; reflexivity. Qed.

(* ================================================================= *)
(** ** Properties of the collaborators *)

(** *** The content score *)

Lemma len_nonneg (v : value) (n : Z) : len v = Ok n -> 0 <= n.
Proof.
  destruct v; simpl; intros H; try discriminate H; injection H as <-; lia.
Qed.

Lemma add_capped_float (s : Q) (n : Z) (per cap : Q) (v : value) :
  (0 <= s)%Q -> 0 <= n -> (0 <= per)%Q -> (0 <= cap)%Q ->
  ContentAnalyzer.add_capped (VFloat s) n per cap = Ok v ->
  exists s', v = VFloat s' /\ (s <= s' <= s + cap)%Q.
Proof.
  intros Hs Hn Hper Hcap. unfold ContentAnalyzer.add_capped.
  cbn [mul int_of num_of bind]. rewrite min_float. cbn [bind add int_of num_of].
  intros H. injection H as <-. eexists. split; [reflexivity|].
  assert (Hp : (0 <= inject_Z n * per)%Q).
  { apply Qmult_le_0_compat; [|exact Hper].
    change 0%Q with (inject_Z 0). now rewrite <- Zle_Qle. }
  destruct (Qlt_bool cap (inject_Z n * per)) eqn:E.
  - lra.
  - apply Qlt_bool_false_iff in E. lra.
Qed.

Lemma add_bonus (c : bool) (s bonus : Q) (v : value) :
  (0 <= s)%Q -> (0 <= bonus)%Q ->
  (if c then add (VFloat s) (VFloat bonus) else Ok (VFloat s)) = Ok v ->
  exists s', v = VFloat s' /\ (0 <= s')%Q.
Proof.
  intros Hs Hb. destruct c; cbn [add int_of num_of]; intros H; injection H as <-;
    eexists; (split; [reflexivity|]); lra.
Qed.

Lemma content_score_unit (result v : value) :
  ContentAnalyzer._calculate_content_score result = Ok v ->
  exists q, v = VFloat q /\ (0 <= q <= 1)%Q.
Proof.
  unfold ContentAnalyzer._calculate_content_score.
  step_as high Eh. step_as nh Enh. apply len_nonneg in Enh. step_as s1 E1.
  destruct (add_capped_float 0.0%Q nh 0.15%Q 0.6%Q s1 ltac:(lra) Enh ltac:(lra) ltac:(lra) E1)
    as (q1 & -> & H1).
  step_as medium Em. step_as nm Enm. apply len_nonneg in Enm. step_as s2 E2.
  destruct (add_capped_float q1 nm 0.05%Q 0.2%Q s2 ltac:(lra) Enm ltac:(lra) ltac:(lra) E2)
    as (q2 & -> & H2).
  step_as patterns Ep. step_as np Enp. apply len_nonneg in Enp. step_as s3 E3.
  destruct (add_capped_float q2 np 0.1%Q 0.3%Q s3 ltac:(lra) Enp ltac:(lra) ltac:(lra) E3)
    as (q3 & -> & H3).
  step_as forms Ef. step_as c1 Ec1. step_as s4 E4.
  destruct (add_bonus _ q3 0.2%Q _ ltac:(lra) ltac:(lra) E4) as (q4 & -> & H4).
  step_as tlen Et. step_as c2 Ec2. step_as c3 Ec3. step_as s5 E5.
  destruct (add_bonus _ q4 0.1%Q _ H4 ltac:(lra) E5) as (q5 & -> & H5).
  step_as links El. step_as c4 Ec4. step_as s6 E6.
  destruct (add_bonus _ q5 0.1%Q _ H5 ltac:(lra) E6) as (q6 & -> & H6).
  rewrite min_float_one. intros H. injection H as <-.
  eexists. split; [reflexivity|]. split.
  - now apply clamp1_nonneg.
  - apply clamp1_le_one.
Qed.

(** *** The content record *)

Ltac split_ifs :=
  repeat match goal with
    | |- context [if ?b then _ else _] => destruct b
    end.

Lemma parsed_page_scores (text : string) (patterns : list string) (forms links : nat)
    (domain : string) (avail : value) (score0 analysis0 : value) :
  let result :=
    VDict [ ("domain", VStr domain);
            ("content_available", avail);
            ("scam_score", score0);
            ("risk_keyword_count",
             VInt (Z.of_nat (List.length (ContentAnalyzer.found_in text
                                            ContentAnalyzer.HIGH_RISK_KEYWORDS))
                   + Z.of_nat (List.length (ContentAnalyzer.found_in text
                                              ContentAnalyzer.MEDIUM_RISK_KEYWORDS))));
            ("high_risk_keywords",
             VList (map VStr (ContentAnalyzer.found_in text
                                ContentAnalyzer.HIGH_RISK_KEYWORDS)));
            ("medium_risk_keywords",
             VList (map VStr (ContentAnalyzer.found_in text
                                ContentAnalyzer.MEDIUM_RISK_KEYWORDS)));
            ("suspicious_patterns", VList (map VStr patterns));
            ("text_length", VInt (Z.of_nat (String.length text)));
            ("has_forms", VBool (Z.of_nat forms >? 0));
            ("external_links_count", VInt (Z.of_nat links));
            ("analysis", analysis0) ] in
  (exists v, ContentAnalyzer._calculate_content_score result = Ok v)
  /\ (forall repr_other,
        exists lines, ContentAnalyzer._generate_content_analysis repr_other result = Ok lines).
Proof.
  intros result. subst result. split.
  - unfold ContentAnalyzer._calculate_content_score, ContentAnalyzer.add_capped.
    cbn [getitem assoc String.eqb Ascii.eqb Bool.eqb bind len mul int_of num_of truthy].
    repeat first
      [ progress cbn [bind add int_of num_of gt lt compare_op]
      | rewrite min_float
      | progress split_ifs ].
    all: eexists; reflexivity.
  - intros repr_other. unfold ContentAnalyzer._generate_content_analysis.
    cbn [getitem assoc String.eqb Ascii.eqb Bool.eqb bind len truthy].
    repeat first
      [ progress cbn [getitem assoc String.eqb Ascii.eqb Bool.eqb bind len gt lt
                      compare_op num_of]
      | progress split_ifs ].
    all: eexists; reflexivity.
Qed.

Lemma filter_length_le {A} (p : A -> bool) (l : list A) :
  (List.length (filter p l) <= List.length l)%nat.
Proof.
  induction l as [|x l IH]; simpl; [lia|]. destruct (p x); simpl; lia.
Qed.

Lemma strings_are_str (l : list string) : forallb Spec.is_str (map VStr l) = true.
Proof. induction l as [|x l IH]; simpl; [reflexivity | exact IH]. Qed.

Lemma analyze_content_typed (repr_other : value -> string) (domain : string)
    (fetched : option ContentAnalyzer.page) :
  exists r score count,
    ContentAnalyzer.analyze_content repr_other domain fetched = VDict r
    /\ Spec.content_ok r = true
    /\ assoc "scam_score" r = Some (VFloat score) /\ (0 <= score <= 1)%Q
    /\ assoc "risk_keyword_count" r = Some (VInt count) /\ 0 <= count <= 35
    /\ assoc "error" r = None
    /\ assoc "content_available" r
       = Some (VBool (match fetched with Some _ => true | None => false end)).
Proof.
  destruct fetched as [[text patterns forms links]|].
  - unfold ContentAnalyzer.analyze_content.
    cbn [ContentAnalyzer.text ContentAnalyzer.pattern_matches ContentAnalyzer.forms
         ContentAnalyzer.external_links ContentAnalyzer._analyze_keywords
         ContentAnalyzer.update fold_left dict_set fst snd
         String.eqb Ascii.eqb Bool.eqb].
    match goal with
    | |- context [ContentAnalyzer._calculate_content_score ?res] =>
        destruct (proj1 (parsed_page_scores text patterns forms links domain
                           (VBool true) (VFloat 0.5) (VList []))) as (v & Hv);
        rewrite Hv;
        destruct (content_score_unit _ _ Hv) as (q & -> & Hq)
    end.
    cbn [dict_set String.eqb Ascii.eqb Bool.eqb].
    destruct (proj2 (parsed_page_scores text patterns forms links domain
                       (VBool true) (VFloat q) (VList [])) repr_other) as (lines & Hl).
    rewrite Hl. cbn [dict_set String.eqb Ascii.eqb Bool.eqb].
    eexists. exists q. eexists. split; [reflexivity|].
    split.
    { unfold Spec.content_ok, Spec.field_ok.
      cbn [assoc String.eqb Ascii.eqb Bool.eqb Spec.is_number num_of Spec.is_int
           Spec.is_bool Spec.is_list_of andb].
      now rewrite !strings_are_str. }
    split; [reflexivity|]. split; [exact Hq|]. split; [reflexivity|].
    split; [|split; reflexivity].
    pose proof (filter_length_le
                  (fun keyword => str_contains (PyStr.lower keyword) text)
                  ContentAnalyzer.HIGH_RISK_KEYWORDS) as Hh.
    pose proof (filter_length_le
                  (fun keyword => str_contains (PyStr.lower keyword) text)
                  ContentAnalyzer.MEDIUM_RISK_KEYWORDS) as Hm.
    unfold ContentAnalyzer.found_in.
    change (List.length ContentAnalyzer.HIGH_RISK_KEYWORDS) with 22%nat in Hh.
    change (List.length ContentAnalyzer.MEDIUM_RISK_KEYWORDS) with 13%nat in Hm.
    lia.
  - exists [ ("domain", VStr domain);
             ("content_available", VBool false);
             ("scam_score", VFloat 0.5);
             ("risk_keyword_count", VInt 0);
             ("high_risk_keywords", VList []);
             ("medium_risk_keywords", VList []);
             ("suspicious_patterns", VList []);
             ("text_length", VInt 0);
             ("has_forms", VBool false);
             ("external_links_count", VInt 0);
             ("analysis", VList [VStr "Website content could not be retrieved"]) ],
      0.5%Q, 0.
    split; [reflexivity|]. split; [reflexivity|]. split; [reflexivity|].
    split; [lra|]. split; [reflexivity|]. split; [lia|]. split; reflexivity.
Qed.

(** X11.  The content record of [analyze_content], for a page that was
    fetched and for one that was not, has the types of the collaborator
    interface; its scam score is a number in [0,1], its keyword count is
    between 0 and 35, and the two scoring steps never put an [error] in
    it. *)
Theorem analyze_content_record (repr_other : value -> string) (domain : string)
    (fetched : option ContentAnalyzer.page) :
  exists r score count,
    ContentAnalyzer.analyze_content repr_other domain fetched = VDict r
    /\ Spec.content_ok r = true
    /\ assoc "scam_score" r = Some (VFloat score) /\ (0 <= score <= 1)%Q
    /\ assoc "risk_keyword_count" r = Some (VInt count) /\ 0 <= count <= 35
    /\ assoc "error" r = None
    /\ assoc "content_available" r
       = Some (VBool (match fetched with Some _ => true | None => false end)).
Proof. apply analyze_content_typed. Qed.

(** *** A quiet analysis *)

Lemma falsy_len (v : value) (n : Z) : truthy v = false -> len v = Ok n -> n = 0.
Proof.
  destruct v as [| | | |s|l|d]; simpl; intros Ht H; try discriminate H;
    injection H as <-.
  - destruct s; [reflexivity | discriminate Ht].
  - destruct l; [reflexivity | discriminate Ht].
  - destruct d; [reflexivity | discriminate Ht].
Qed.

Lemma Ok_inj {A} (a b : A) : Ok a = Ok b -> a = b.
Proof. intros H. now injection H. Qed.

Lemma loud_head (x y : string) (rest : list string) :
  String.eqb x y = false -> x :: rest = [y] -> False.
Proof.
  intros Hne H. injection H as -> _. rewrite String.eqb_refl in Hne. discriminate Hne.
Qed.

Ltac walk :=
  repeat match goal with
    | |- bind (Ok _) _ = Ok _ -> _ => cbn [bind]
    | |- bind (Raise _) _ = Ok _ -> _ => cbn [bind]; discriminate
    | |- bind (if ?b then _ else _) _ = Ok _ -> _ => destruct b
    | |- bind (bind ?m _) _ = Ok _ -> _ =>
        let E := fresh "E" in destruct m eqn:E; cbn [bind]; [|discriminate]
    | |- bind ?m _ = Ok _ -> _ =>
        let E := fresh "E" in destruct m eqn:E; cbn [bind]; [|discriminate]
    | |- context [if ?b then _ else _] =>
        match type of b with bool => destruct b end
    end.

Ltac loud_case :=
  walk; intros H; apply Ok_inj in H; cbn [app] in H; exfalso;
  refine (loud_head _ _ _ _ H); reflexivity.

Lemma quiet_analysis (repr_other : value -> string) (result : value) :
  ContentAnalyzer._generate_content_analysis repr_other result = Ok [Props.quiet_line] ->
  exists high medium patterns has_forms text_length c1 links,
    getitem result "high_risk_keywords" = Ok high /\ truthy high = false
    /\ getitem result "medium_risk_keywords" = Ok medium /\ truthy medium = false
    /\ getitem result "suspicious_patterns" = Ok patterns /\ truthy patterns = false
    /\ getitem result "has_forms" = Ok has_forms /\ truthy has_forms = false
    /\ getitem result "text_length" = Ok text_length
    /\ lt text_length (VInt 200) = Ok c1
    /\ (if c1 then gt text_length (VInt 0) else Ok false) = Ok false
    /\ getitem result "external_links_count" = Ok links
    /\ gt links (VInt 50) = Ok false.
Proof.
  unfold ContentAnalyzer._generate_content_analysis, Props.quiet_line.
  step_as high Eh. destruct (truthy high) eqn:Th; [loud_case|]. cbn [bind].
  step_as medium Em. destruct (truthy medium) eqn:Tm; [loud_case|]. cbn [bind].
  step_as patterns Ep. destruct (truthy patterns) eqn:Tp; [loud_case|]. cbn [bind].
  step_as has_forms Ef. destruct (truthy has_forms) eqn:Tf; [loud_case|].
  step_as text_length Et. step_as c1 Ec1. step_as c Ec.
  destruct c; [loud_case|].
  step_as links El. step_as c2 Ec2.
  destruct c2; [loud_case|]. cbn [bind]. intros _.
  cbn [bind] in Ec.
  exists high, medium, patterns, has_forms, text_length, c1, links.
  repeat (split; [assumption || reflexivity|]). assumption.
Qed.

(** X12.  When the analysis of a content record is the single line that no
    indicator was detected, the score of the same record, if it is computed,
    is 0. *)
Theorem quiet_analysis_scores_zero (repr_other : value -> string) (result v : value) :
  ContentAnalyzer._generate_content_analysis repr_other result = Ok [Props.quiet_line] ->
  ContentAnalyzer._calculate_content_score result = Ok v ->
  exists q, v = VFloat q /\ (q == 0)%Q.
Proof.
  intros Hq.
  destruct (quiet_analysis repr_other result Hq)
    as (high & medium & patterns & has_forms & text_length & c1 & links
        & Eh & Th & Em & Tm & Ep & Tp & Ef & Tf & Et & Ec1 & Ec & El & Ec2).
  unfold ContentAnalyzer._calculate_content_score, ContentAnalyzer.add_capped.
  rewrite Eh. cbn [bind]. step_as nh Enh. apply (falsy_len _ _ Th) in Enh. subst nh.
  cbn [mul int_of num_of bind]. rewrite min_float. cbn [bind add int_of num_of].
  rewrite Em. cbn [bind]. step_as nm Enm. apply (falsy_len _ _ Tm) in Enm. subst nm.
  cbn [mul int_of num_of bind]. rewrite min_float. cbn [bind add int_of num_of].
  rewrite Ep. cbn [bind]. step_as np Enp. apply (falsy_len _ _ Tp) in Enp. subst np.
  cbn [mul int_of num_of bind]. rewrite min_float. cbn [bind add int_of num_of].
  rewrite Ef. cbn [bind]. rewrite Tf. cbn [bind].
  rewrite Et. cbn [bind]. rewrite Ec1. cbn [bind]. rewrite Ec. cbn [bind].
  rewrite El. cbn [bind]. rewrite Ec2. cbn [bind].
  rewrite min_float. intros H. injection H as <-.
  eexists. split; [reflexivity|]. reflexivity.
Qed.

Lemma quiet_analysis_scores_zero_witness :
  exists q, VFloat 0.000000 = VFloat q /\ (q == 0)%Q.
Proof.
  apply (quiet_analysis_scores_zero Spec.plain_repr
           (VDict [ ("high_risk_keywords", VList []); ("medium_risk_keywords", VList []);
                    ("suspicious_patterns", VList []); ("has_forms", VBool false);
                    ("risk_keyword_count", VInt 0); ("text_length", VInt 4000);
                    ("external_links_count", VInt 12) ])
           (VFloat 0.000000)); reflexivity.
Defined.

(** Forms on a page without keywords are mentioned in the analysis and add
    nothing to the score. *)
Example forms_without_keywords :
  ContentAnalyzer._generate_content_analysis Spec.plain_repr
    (VDict [ ("high_risk_keywords", VList []); ("medium_risk_keywords", VList []);
             ("suspicious_patterns", VList []); ("has_forms", VBool true);
             ("risk_keyword_count", VInt 0); ("text_length", VInt 4000);
             ("external_links_count", VInt 12) ])
    = Ok ["Website contains forms (possible credential harvesting)"]
  /\ ContentAnalyzer._calculate_content_score
       (VDict [ ("high_risk_keywords", VList []); ("medium_risk_keywords", VList []);
                ("suspicious_patterns", VList []); ("has_forms", VBool true);
                ("risk_keyword_count", VInt 0); ("text_length", VInt 4000);
                ("external_links_count", VInt 12) ])
     = Ok (VFloat 0.000000).
Proof. split; reflexivity. Qed.

(** X13.  Whatever the record holds, a content score that is computed is a
    float in [0,1]: the three capped sums and the three bonuses are not
    negative and the result is cut at 1.0. *)
Theorem content_score_in_unit (result v : value) :
  ContentAnalyzer._calculate_content_score result = Ok v ->
  exists q, v = VFloat q /\ (0 <= q <= 1)%Q.
Proof. apply content_score_unit. Qed.

Lemma content_score_in_unit_witness :
  exists q, VFloat 1.0 = VFloat q /\ (0 <= q <= 1)%Q.
Proof.
  apply (content_score_in_unit
           (VDict [ ("high_risk_keywords",
                     VList [VStr "winner"; VStr "act now"; VStr "free money";
                            VStr "tax refund"; VStr "inheritance"]);
                    ("medium_risk_keywords",
                     VList [VStr "free gift"; VStr "act fast"; VStr "lowest price";
                            VStr "work from home"; VStr "limited spots"]);
                    ("suspicious_patterns", VList [VStr "p1"; VStr "p2"; VStr "p3"]);
                    ("has_forms", VBool true);
                    ("risk_keyword_count", VInt 10); ("text_length", VInt 150);
                    ("external_links_count", VInt 60) ])).
  reflexivity.
Defined.

(** *** The hosting record *)

Lemma first_provider_score (text : string) (info : Z * string) :
  HostingService.first_provider text HostingService.HOSTING_REPUTATION = Some info ->
  55 <= fst info <= 80.
Proof.
  unfold HostingService.HOSTING_REPUTATION. cbn [HostingService.first_provider].
  repeat match goal with
    | |- context [if ?b then _ else _] => destruct b
    end;
    intros H; try discriminate H; injection H as <-; simpl; lia.
Qed.

Lemma hosting_record_typed (domain : string) (ip reverse_dns : option string)
    (suspicious : bool) (asn country : value) :
  exists r score,
    HostingService.get_hosting_info domain ip reverse_dns suspicious asn country = VDict r
    /\ Spec.hosting_ok r = true
    /\ assoc "reputation_score" r = Some (VInt score)
    /\ 10 <= score <= 80
    /\ (ip = None ->
        score = 50 /\ assoc "hosting_provider" r = Some (VStr "Unknown")
        /\ assoc "risk_factors" r = Some (VList [])).
Proof.
  unfold HostingService.get_hosting_info.
  destruct ip as [s|].
  - destruct (negb (String.eqb s "")); cbn [andb].
    + destruct reverse_dns as [hostname|].
      * destruct (negb (String.eqb hostname "")).
        -- destruct (HostingService._get_provider_reputation
                       (HostingService._identify_provider hostname))
             as [info|] eqn:Ei.
           ++ apply first_provider_score in Ei.
              destruct suspicious;
                match goal with
                | |- context [existsb ?f ?l] => destruct (existsb f l)
                end;
                do 2 eexists; (split; [reflexivity|]);
                (split; [reflexivity|]); (split; [reflexivity|]);
                (split; [lia | discriminate]).
           ++ destruct suspicious;
                match goal with
                | |- context [existsb ?f ?l] => destruct (existsb f l)
                end;
                do 2 eexists; (split; [reflexivity|]);
                (split; [reflexivity|]); (split; [reflexivity|]);
                (split; [lia | discriminate]).
        -- destruct suspicious;
             do 2 eexists; (split; [reflexivity|]);
             (split; [reflexivity|]); (split; [reflexivity|]);
             (split; [simpl; lia | discriminate]).
      * destruct suspicious;
          do 2 eexists; (split; [reflexivity|]);
          (split; [reflexivity|]); (split; [reflexivity|]);
          (split; [simpl; lia | discriminate]).
    + do 2 eexists. split; [reflexivity|].
      split; [reflexivity|]. split; [reflexivity|].
      split; [simpl; lia | discriminate].
  - do 2 eexists. split; [reflexivity|].
    split; [reflexivity|]. split; [reflexivity|].
    split; [simpl; lia|]. intros _. repeat split; reflexivity.
Qed.

(** X14.  The hosting record has the types of the collaborator interface,
    and its reputation score is an integer between 10 and 80: the table
    gives 55 to 80, the neutral start is 50, and the two deductions take at
    most 40 together, so the final cut to 0..100 never changes the score.
    Without an IP address the record is the neutral one, with score 50. *)
Theorem hosting_reputation_range (domain : string) (ip reverse_dns : option string)
    (suspicious : bool) (asn country : value) :
  exists r score,
    HostingService.get_hosting_info domain ip reverse_dns suspicious asn country = VDict r
    /\ Spec.hosting_ok r = true
    /\ assoc "reputation_score" r = Some (VInt score)
    /\ 10 <= score <= 80
    /\ (ip = None ->
        score = 50 /\ assoc "hosting_provider" r = Some (VStr "Unknown")
        /\ assoc "risk_factors" r = Some (VList [])).
Proof. apply hosting_record_typed. Qed.

(** *** The simulated WHOIS record *)

Lemma whois_fallback_record (creation_date_text : Z -> string)
    (expiration_date_text domain : string) :
  exists r age points,
    WhoisService._generate_fallback_data creation_date_text expiration_date_text domain
      = VDict r
    /\ Spec.whois_ok r = true
    /\ assoc "domain" r = Some (VStr domain)
    /\ assoc "domain_age_days" r = Some (VInt age)
    /\ RiskEngine._calculate_age_score RiskEngine.init (VInt age) = Ok points
    /\ In (age, points) [(15, 20); (45, 10); (800, 0)].
Proof.
  unfold WhoisService._generate_fallback_data.
  match goal with
  | |- context [if ?b then 15 else _] => destruct b
  end.
  - do 3 eexists. repeat (split; [reflexivity|]). simpl. auto.
  - match goal with
    | |- context [if ?b then 45 else _] => destruct b
    end; do 3 eexists; repeat (split; [reflexivity|]); simpl; auto.
Qed.

(** X15.  The simulated WHOIS record has the types of the collaborator
    interface and carries the domain it was asked for; its age is 15, 45 or
    800 days, which the age category scores 20, 10 and 0 points: simulated
    data never puts a domain in the critical bracket. *)
Theorem whois_fallback_ages (creation_date_text : Z -> string)
    (expiration_date_text domain : string) :
  exists r age points,
    WhoisService._generate_fallback_data creation_date_text expiration_date_text domain
      = VDict r
    /\ Spec.whois_ok r = true
    /\ assoc "domain" r = Some (VStr domain)
    /\ assoc "domain_age_days" r = Some (VInt age)
    /\ RiskEngine._calculate_age_score RiskEngine.init (VInt age) = Ok points
    /\ In (age, points) [(15, 20); (45, 10); (800, 0)].
Proof. apply whois_fallback_record. Qed.

(** *** The blacklist record *)

Lemma hits_forall {A} (p : value -> bool) (f : A -> list value) (l : list A) :
  (forall x, forallb p (f x) = true) -> forallb p (flat_map f l) = true.
Proof.
  intros Hf. induction l as [|x l IH]; simpl; [reflexivity|].
  rewrite forallb_app, Hf, IH. reflexivity.
Qed.

Lemma hits_length {A} (f : A -> list value) (l : list A) :
  (forall x, (List.length (f x) <= 1)%nat) ->
  (List.length (flat_map f l) <= List.length l)%nat.
Proof.
  intros Hf. induction l as [|x l IH]; simpl; [lia|].
  rewrite length_app. specialize (Hf x). lia.
Qed.

Lemma hits_none {A} (f : A -> list value) (l : list A) :
  (forall x, f x = []) -> flat_map f l = [].
Proof.
  intros Hf. induction l as [|x l IH]; simpl; [reflexivity|].
  rewrite Hf, IH. reflexivity.
Qed.

Lemma domain_blacklists_entries (_dns_lookup : string -> bool) (domain : string) :
  let entries := BlacklistService._check_domain_blacklists _dns_lookup domain in
  forallb Spec.is_blacklist_entry entries = true
  /\ (List.length entries <= 4)%nat
  /\ ((forall query, _dns_lookup query = false) -> entries = []).
Proof.
  unfold BlacklistService._check_domain_blacklists. split; [|split].
  - apply hits_forall. intros bl. destruct (BlacklistService._query_dbl _ _ _); reflexivity.
  - change 4%nat with (List.length BlacklistService.DOMAIN_BLACKLISTS).
    apply hits_length. intros bl.
    destruct (BlacklistService._query_dbl _ _ _); simpl; lia.
  - intros Hno. apply hits_none. intros bl.
    unfold BlacklistService._query_dbl. now rewrite Hno.
Qed.

Lemma ip_blacklists_entries (_dns_lookup : string -> bool) (ip : string) :
  let entries := BlacklistService._check_ip_blacklists _dns_lookup ip in
  forallb Spec.is_blacklist_entry entries = true
  /\ (List.length entries <= 4)%nat
  /\ ((forall query, _dns_lookup query = false) -> entries = []).
Proof.
  unfold BlacklistService._check_ip_blacklists. split; [|split].
  - apply hits_forall. intros bl. destruct (BlacklistService._query_dnsbl _ _ _); reflexivity.
  - change 4%nat with (List.length BlacklistService.IP_BLACKLISTS).
    apply hits_length. intros bl.
    destruct (BlacklistService._query_dnsbl _ _ _); simpl; lia.
  - intros Hno. apply hits_none. intros bl.
    unfold BlacklistService._query_dnsbl. now rewrite Hno.
Qed.

Lemma blacklist_record_typed (_dns_lookup : string -> bool) (domain : string)
    (ip : option string) :
  exists r hits entries,
    BlacklistService.check_domain _dns_lookup domain ip = VDict r
    /\ Spec.blacklist_ok r = true
    /\ assoc "blacklist_hits" r = Some (VInt hits)
    /\ assoc "blacklists" r = Some (VList entries)
    /\ hits = Z.of_nat (List.length entries)
    /\ 0 <= hits <= 8
    /\ (ip = None -> hits <= 4)
    /\ ((forall query, _dns_lookup query = false) -> hits = 0).
Proof.
  unfold BlacklistService.check_domain.
  destruct (domain_blacklists_entries _dns_lookup domain) as (Fd & Ld & Nd).
  set (by_domain := BlacklistService._check_domain_blacklists _dns_lookup domain) in *.
  set (entries :=
         match ip with
         | Some s =>
             if negb (String.eqb s "")
             then (by_domain ++ BlacklistService._check_ip_blacklists _dns_lookup s)%list
             else by_domain
         | None => by_domain
         end).
  assert (He : forallb Spec.is_blacklist_entry entries = true
               /\ (List.length entries <= 8)%nat
               /\ (ip = None -> (List.length entries <= 4)%nat)
               /\ ((forall query, _dns_lookup query = false) -> entries = [])).
  { subst entries. destruct ip as [s|].
    - destruct (ip_blacklists_entries _dns_lookup s) as (Fi & Li & Ni).
      destruct (negb (String.eqb s "")).
      + split; [rewrite forallb_app, Fd, Fi; reflexivity|].
        split; [rewrite length_app; lia|]. split; [discriminate|].
        intros Hno. rewrite (Nd Hno), (Ni Hno). reflexivity.
      + split; [exact Fd|]. split; [lia|]. split; [discriminate | exact Nd].
    - split; [exact Fd|]. split; [lia|]. split; [intros _; exact Ld | exact Nd]. }
  destruct He as (Fe & Le & Lnone & Ne).
  eexists. exists (Z.of_nat (List.length entries)), entries.
  split; [reflexivity|]. split.
  { unfold Spec.blacklist_ok, Spec.field_ok.
    cbn [assoc String.eqb Ascii.eqb Bool.eqb Spec.is_int Spec.is_bool Spec.is_list_of andb].
    rewrite Fe, strings_are_str. reflexivity. }
  split; [reflexivity|]. split; [reflexivity|]. split; [reflexivity|].
  split; [lia|]. split; [intros Hip; specialize (Lnone Hip); lia|].
  intros Hno. rewrite (Ne Hno). reflexivity.
Qed.

(** X16.  The blacklist record has the types of the collaborator interface;
    its hit count is the length of its list of entries, at most four per
    table queried (so at most 4 without an IP address and 8 with one), and
    0 when no lookup resolves. *)
Theorem blacklist_hits_count (_dns_lookup : string -> bool) (domain : string)
    (ip : option string) :
  exists r hits entries,
    BlacklistService.check_domain _dns_lookup domain ip = VDict r
    /\ Spec.blacklist_ok r = true
    /\ assoc "blacklist_hits" r = Some (VInt hits)
    /\ assoc "blacklists" r = Some (VList entries)
    /\ hits = Z.of_nat (List.length entries)
    /\ 0 <= hits <= 8
    /\ (ip = None -> hits <= 4)
    /\ ((forall query, _dns_lookup query = false) -> hits = 0).
Proof. apply blacklist_record_typed. Qed.

(** X17.  Each indicator the blacklist check emits mentions at most one of
    the two words the pattern loop looks for, so on its output the loop adds
    10 exactly when the domain ends in a listed TLD and 15 exactly when it
    holds a non-ASCII character; the keyword indicator adds nothing. *)
Theorem blacklist_indicator_points (_dns_lookup : string -> bool) (domain : string)
    (ip : option string) :
  exists indicators,
    get (BlacklistService.check_domain _dns_lookup domain ip) "risk_indicators" (VList [])
      = Ok (VList (map VStr indicators))
    /\ RiskEngine.indicator_loop RiskEngine.init (map VStr indicators) 0
       = Ok ((if existsb (fun tld => PyStr.endswith tld domain)
                   BlacklistService.suspicious_tlds then 10 else 0)
             + (if BlacklistService._has_unicode_chars domain then 15 else 0))
    /\ Forall (fun i => str_contains "TLD" i && str_contains "homograph" i = false)
         indicators.
Proof.
  unfold BlacklistService.check_domain.
  cbn [get assoc String.eqb Ascii.eqb Bool.eqb].
  destruct (BlacklistService._check_scam_patterns domain);
    destruct (existsb (fun tld => PyStr.endswith tld domain)
                BlacklistService.suspicious_tlds);
    destruct (BlacklistService._has_unicode_chars domain);
    eexists; (split; [reflexivity|]); (split; [reflexivity|]);
    repeat constructor.
Qed.

(** *** From the collaborators to the response *)

Lemma collected_typed (whois_data ssl_data dns_data : value)
    (_dns_lookup : string -> bool) (repr_other : value -> string) (domain : string)
    (ip reverse_dns : option string) (suspicious : bool) (asn country : value)
    (fetched : option ContentAnalyzer.page) :
  Props.record_of Spec.whois_ok whois_data = true ->
  Props.record_of Spec.ssl_ok ssl_data = true ->
  Props.record_of Spec.dns_ok dns_data = true ->
  let signals :=
    Props.collected whois_data ssl_data dns_data
      (BlacklistService.check_domain _dns_lookup domain None)
      (HostingService.get_hosting_info domain ip reverse_dns suspicious asn country)
      (ContentAnalyzer.analyze_content repr_other domain fetched) in
  Spec.signal_bundle signals = true /\ Spec.hits_nonneg signals = true.
Proof.
  intros Hw Hs Hd signals. subst signals.
  destruct whois_data as [| | | | | |w]; try discriminate Hw.
  destruct ssl_data as [| | | | | |s]; try discriminate Hs.
  destruct dns_data as [| | | | | |d]; try discriminate Hd.
  cbn [Props.record_of] in Hw, Hs, Hd.
  destruct (blacklist_record_typed _dns_lookup domain None)
    as (b & hits & entries & -> & Hb & Hhits & _ & _ & Hrange & _).
  destruct (hosting_record_typed domain ip reverse_dns suspicious asn country)
    as (h & score & -> & Hh & _).
  destruct (analyze_content_typed repr_other domain fetched)
    as (c & q & n & -> & Hc & _).
  split.
  - unfold Spec.signal_bundle, Props.collected, Spec.record_ok.
    cbn [assoc String.eqb Ascii.eqb Bool.eqb].
    rewrite Hw, Hs, Hd, Hb, Hh, Hc. reflexivity.
  - unfold Spec.hits_nonneg, Spec.hit_count, Props.collected.
    cbn [get assoc String.eqb Ascii.eqb Bool.eqb bind]. rewrite Hhits.
    cbn [num_of]. apply Qle_bool_iff. change 0%Q with (inject_Z 0).
    rewrite <- Zle_Qle. lia.
Qed.

(** X18.  With a positive exponential, [check_domain] answers whatever the
    blacklist, hosting and content collaborators return, provided the WHOIS,
    SSL and DNS records have the types of the interface: the bundle filled
    from the six answers is well typed, its hit count is not negative, and
    the response has a score in [0,100], one of the three verdicts and a
    trail with the banner first and the disclaimer last. *)
Theorem collected_bundle_answers (np_exp : Q -> Q) (repr_other : value -> string)
    (whois_data ssl_data dns_data : value) (_dns_lookup : string -> bool)
    (domain : string) (ip reverse_dns : option string) (suspicious : bool)
    (asn country : value) (fetched : option ContentAnalyzer.page) (now : string) :
  (forall x, (0 < np_exp x)%Q) ->
  Props.record_of Spec.whois_ok whois_data = true ->
  Props.record_of Spec.ssl_ok ssl_data = true ->
  Props.record_of Spec.dns_ok dns_data = true ->
  let signals :=
    Props.collected whois_data ssl_data dns_data
      (BlacklistService.check_domain _dns_lookup domain None)
      (HostingService.get_hosting_info domain ip reverse_dns suspicious asn country)
      (ContentAnalyzer.analyze_content repr_other domain fetched) in
  exists resp shown banner lines,
    Main.check_domain np_exp repr_other MLModel.init RiskEngine.init domain signals now
      = Ok resp
    /\ Main.risk_score resp = VFloat shown /\ (0 <= shown <= 100)%Q
    /\ In (Main.verdict resp) Spec.verdict_strings
    /\ Main.detailed_reasons resp
         = (banner :: lines ++ [""; RiskEngine.disclaimer])%list
    /\ Spec.is_banner banner = true /\ Spec.no_banner lines
    /\ Main.technical_signals resp = signals.
Proof.
  intros Hpos Hw Hs Hd signals.
  destruct (collected_typed whois_data ssl_data dns_data _dns_lookup repr_other domain
              ip reverse_dns suspicious asn country fetched Hw Hs Hd) as [Hb Hh].
  fold signals in Hb, Hh.
  destruct (check_domain_typed np_exp repr_other domain signals now Hpos Hb Hh)
    as (resp & shown & banner & lines & E & Hr & Hrange & Hv & _ & Ht & Hbn & Hl & Hsig & _).
  exists resp, shown, banner, lines. repeat (split; [assumption|]). assumption.
Qed.

(** A domain that cannot be reached: simulated WHOIS data, no SSL answer, no
    DNS answer, hence no IP address for the hosting lookup, no page and no
    blacklist answer. *)
Lemma collected_bundle_answers_witness :
  let signals :=
    Props.collected
      (WhoisService._generate_fallback_data (fun _ => "2024-01-01T00:00:00")
         "2025-01-16T00:00:00" "win-prize-now.top")
      (SSLService._get_no_ssl_response "win-prize-now.top" "timeout")
      (DNSService._get_failed_resolution "win-prize-now.top" "timeout")
      (BlacklistService.check_domain (fun _ => false) "win-prize-now.top" None)
      (HostingService.get_hosting_info "win-prize-now.top" None None false VNone VNone)
      (ContentAnalyzer.analyze_content Spec.plain_repr "win-prize-now.top" None) in
  exists resp shown banner lines,
    Main.check_domain (fun _ => 1%Q) Spec.plain_repr MLModel.init RiskEngine.init
      "win-prize-now.top" signals "2024-01-16T00:00:00" = Ok resp
    /\ Main.risk_score resp = VFloat shown /\ (0 <= shown <= 100)%Q
    /\ In (Main.verdict resp) Spec.verdict_strings
    /\ Main.detailed_reasons resp
         = (banner :: lines ++ [""; RiskEngine.disclaimer])%list
    /\ Spec.is_banner banner = true /\ Spec.no_banner lines
    /\ Main.technical_signals resp = signals.
Proof.
  apply (collected_bundle_answers (fun _ => 1%Q) Spec.plain_repr
           (WhoisService._generate_fallback_data (fun _ => "2024-01-01T00:00:00")
              "2025-01-16T00:00:00" "win-prize-now.top")
           (SSLService._get_no_ssl_response "win-prize-now.top" "timeout")
           (DNSService._get_failed_resolution "win-prize-now.top" "timeout")
           (fun _ => false) "win-prize-now.top" None None false VNone VNone None
           "2024-01-16T00:00:00").
  - intros x. reflexivity.
  - reflexivity.
  - reflexivity.
  - reflexivity.
Defined.

(** *** A domain that cannot be reached *)

Lemma pattern_score_value
    (signals blacklist whois : value) (indicators : list string) (name : string) :
  get signals "blacklist" (VDict []) = Ok blacklist ->
  get blacklist "risk_indicators" (VList []) = Ok (VList (map VStr indicators)) ->
  get signals "whois" (VDict []) = Ok whois ->
  get whois "domain" (VStr "") = Ok (VStr name) ->
  RiskEngine._calculate_pattern_score RiskEngine.init signals
    = Ok (Spec.pattern_points indicators name).
Proof.
  intros Hb Hr Hw Hd.
  unfold RiskEngine._calculate_pattern_score.
  rewrite Hb. cbn [bind]. rewrite Hr. cbn [bind iter].
  rewrite indicator_loop_sum. cbn [bind].
  rewrite Hw. cbn [bind]. rewrite Hd. cbn [bind len iter].
  rewrite digit_sum_count. cbn [bind].
  unfold Spec.pattern_points, Spec.domain_points.
  cbn [RiskEngine.long_domain RiskEngine.many_numbers RiskEngine.r_patterns
       RiskEngine.risk_rules RiskEngine.init].
  f_equal.
  destruct (Z.of_nat (String.length name) >? 30);
    destruct (0 + Spec.count_digits name >? 5) eqn:E;
    rewrite Z.add_0_l in E; rewrite E; lia.
Qed.

Lemma sum_points_nonneg (inds : list string) :
  0 <= Spec.sum_points Spec.indicator_points inds.
Proof.
  induction inds as [|i inds IH]; cbn [Spec.sum_points]; [lia|].
  unfold Spec.indicator_points in *.
  destruct (str_contains "TLD" i); [lia|]. destruct (str_contains "homograph" i); lia.
Qed.

(** X19.  For a domain that cannot be reached (simulated WHOIS data, the
    answers of a failed SSL and a failed DNS check, hence no IP address for
    the hosting lookup, and no page), the rule score is an integer of at
    least 35: the 15 points of the SSL category and the 20 of the DNS
    category are always there, whatever the blacklists answer. *)
Theorem unreachable_domain_rule_score
    (creation_date_text : Z -> string) (expiration_date_text : string)
    (_dns_lookup : string -> bool) (repr_other : value -> string)
    (domain ssl_error dns_error : string)
    (reverse_dns : option string) (suspicious : bool) (asn country : value) :
  let signals :=
    Props.collected
      (WhoisService._generate_fallback_data creation_date_text expiration_date_text domain)
      (SSLService._get_no_ssl_response domain ssl_error)
      (DNSService._get_failed_resolution domain dns_error)
      (BlacklistService.check_domain _dns_lookup domain None)
      (HostingService.get_hosting_info domain None reverse_dns suspicious asn country)
      (ContentAnalyzer.analyze_content repr_other domain None) in
  exists score,
    RiskEngine.calculate_risk_score RiskEngine.init signals = Ok (VInt score)
    /\ 35 <= score <= 100.
Proof.
  intros signals.
  destruct (whois_fallback_record creation_date_text expiration_date_text domain)
    as (w & age & points & Ew & _ & Edom & Eage & Epts & Hin).
  destruct (blacklist_record_typed _dns_lookup domain None)
    as (b & hits & entries & Eb & _ & Ehits & _ & _ & Hrange & _).
  assert (Hind : exists indicators,
             get (VDict b) "risk_indicators" (VList []) = Ok (VList (map VStr indicators))).
  { rewrite <- Eb. unfold BlacklistService.check_domain.
    cbn [get assoc String.eqb Ascii.eqb Bool.eqb]. eexists. reflexivity. }
  destruct Hind as (indicators & Eind).
  assert (Hcat : Spec.category_scores RiskEngine.init signals
                 = Ok (points, 15, VInt (Z.min (hits * 30) 50), 0, 0, 20,
                       Spec.pattern_points indicators domain)).
  { unfold Spec.category_scores.
    rewrite (pattern_score_value signals (VDict b) (VDict w) indicators domain).
    - subst signals. unfold Props.collected.
      cbn [get assoc String.eqb Ascii.eqb Bool.eqb bind].
      rewrite Ew, Eb. cbn [get bind]. rewrite Eage. rewrite Epts. cbn [bind].
      rewrite (blacklist_score_formula (VDict b) hits)
        by (cbn [get]; rewrite Ehits; reflexivity).
      reflexivity.
    - subst signals. unfold Props.collected.
      cbn [get assoc String.eqb Ascii.eqb Bool.eqb]. now rewrite Eb.
    - exact Eind.
    - subst signals. unfold Props.collected.
      cbn [get assoc String.eqb Ascii.eqb Bool.eqb]. now rewrite Ew.
    - cbn [get]. now rewrite Edom. }
  rewrite (risk_score_sum_cap signals _ _ _ _ _ _ _ Hcat).
  eexists. split; [reflexivity|].
  pose proof (sum_points_nonneg indicators) as Hs.
  assert (Hd : 0 <= Spec.domain_points domain).
  { unfold Spec.domain_points.
    destruct (_ >? 30); destruct (_ >? 5); lia. }
  unfold Spec.pattern_points.
  assert (Hp : 0 <= points).
  { simpl in Hin. destruct Hin as [H|[H|[H|[]]]]; injection H as _ <-; lia. }
  lia.
Qed.

(* ================================================================= *)
(** ** Further properties across the scoring core *)

(** *** From the bundle to the weighted score *)



(** *** Points and lines of the SSL and DNS categories *)

(** X21.  The SSL block and the DNS block of the explanation test what the
    SSL and the DNS category test: whenever the category is scored, the
    block appends the line of that score (for SSL one of four lines, for DNS
    the CRITICAL line at 20 points and nothing at 0). *)
Theorem ssl_and_dns_lines_follow_points (signals ssl dns : value) (s d : Z)
    (ex : list string) :
  get signals "ssl" (VDict []) = Ok ssl ->
  RiskEngine._calculate_ssl_score RiskEngine.init ssl = Ok s ->
  get signals "dns" (VDict []) = Ok dns ->
  RiskEngine._calculate_dns_score RiskEngine.init dns = Ok d ->
  RiskEngine.explain_ssl signals ex = (Ok tt, (ex ++ [Props.ssl_line s])%list)
  /\ RiskEngine.explain_dns signals ex = (Ok tt, (ex ++ Props.dns_lines d)%list).
Proof.
  intros Hs Hss Hd Hds. split.
  - revert Hss.
    unfold RiskEngine._calculate_ssl_score, RiskEngine.explain_ssl,
      RiskEngine.bindM, RiskEngine.lift.
    rewrite Hs.
    destruct (get ssl "has_ssl" (VBool false)) as [has|e]; cbn [bind]; [|discriminate].
    destruct (negb (truthy has)).
    { intros H. injection H as <-. reflexivity. }
    destruct (get ssl "ssl_valid" (VBool false)) as [valid|e]; cbn [bind]; [|discriminate].
    destruct (negb (truthy valid)).
    { intros H. injection H as <-. reflexivity. }
    destruct (get ssl "days_until_expiry" VNone) as [days|e]; cbn [bind]; [|discriminate].
    destruct (if truthy days then lt days (VInt 30) else Ok false) as [c|e];
      cbn [bind]; [|discriminate].
    destruct c; intros H; injection H as <-; reflexivity.
  - revert Hds.
    unfold RiskEngine._calculate_dns_score, RiskEngine.explain_dns,
      RiskEngine.bindM, RiskEngine.lift.
    rewrite Hd.
    destruct (get dns "resolved" (VBool false)) as [resolved|e]; cbn [bind]; [|discriminate].
    destruct (negb (truthy resolved)); intros H; injection H as <-.
    + reflexivity.
    + unfold RiskEngine.when, RiskEngine.ret, Props.dns_lines. cbn.
      now rewrite app_nil_r.
Qed.

Lemma ssl_and_dns_lines_follow_points_witness :
  RiskEngine.explain_ssl Spec.rich_bundle [] = (Ok tt, ([] ++ [Props.ssl_line 5])%list)
  /\ RiskEngine.explain_dns Spec.rich_bundle [] = (Ok tt, ([] ++ Props.dns_lines 0)%list).
Proof.
  apply (ssl_and_dns_lines_follow_points Spec.rich_bundle
           (VDict [ ("has_ssl", VBool true); ("ssl_valid", VBool true);
                    ("days_until_expiry", VInt 12) ])
           (VDict [ ("resolved", VBool true) ]) 5 0 []); reflexivity.
Defined.

(** *** Points and line of the hosting category *)

(** X22.  For an integer reputation the hosting category and the hosting
    block draw their lines differently: below 30 the category scores the 20
    points it calls bulletproof and the block speaks of a low reputation,
    from 30 to 39 both agree on 10 points and the low-reputation line, from
    40 to 49 the category still scores 10 while the block is silent, from 50
    to 70 nothing is scored or said, and above 70 the block praises the
    provider. *)
Theorem hosting_points_and_line (repr_other : value -> string)
    (signals hosting : value) (r : Z) (provider : string) (ex : list string) :
  get signals "hosting" (VDict []) = Ok hosting ->
  get hosting "reputation_score" (VInt 50) = Ok (VInt r) ->
  get hosting "hosting_provider" (VStr "Unknown") = Ok (VStr provider) ->
  let score := RiskEngine._calculate_hosting_score RiskEngine.init hosting in
  let trail := snd (RiskEngine.explain_hosting repr_other signals ex) in
  (r < 30 -> score = Ok 20 /\
     trail = (ex ++ ["⚠️ MEDIUM: Hosted on service with low reputation score"])%list)
  /\ (30 <= r < 40 -> score = Ok 10 /\
     trail = (ex ++ ["⚠️ MEDIUM: Hosted on service with low reputation score"])%list)
  /\ (40 <= r < 50 -> score = Ok 10 /\ trail = ex)
  /\ (50 <= r <= 70 -> score = Ok 0 /\ trail = ex)
  /\ (70 < r -> score = Ok 0 /\
     trail = (ex ++ [("✅ POSITIVE: Hosted by reputable provider (" ++ provider ++ ")")%string])%list).
Proof.
  intros Hh Hr Hp score trail. subst score trail.
  unfold RiskEngine._calculate_hosting_score, RiskEngine.explain_hosting,
    RiskEngine.bindM, RiskEngine.lift.
  rewrite Hh, Hr. cbn [bind]. rewrite !lt_int_Z, gt_int_Z. cbn [bind].
  repeat match goal with |- (_ -> _) /\ _ => split end; intros Hd;
    repeat match goal with
      | |- context [?a <? ?b] => destruct (Z.ltb_spec a b); try lia
      end;
    cbn [bind snd RiskEngine.when RiskEngine.ret RiskEngine.append];
    rewrite ?Hp; cbn [snd str]; (split; [reflexivity|]);
    rewrite ?app_nil_r; reflexivity.
Qed.

Lemma hosting_points_and_line_witness :
  let hosting := VDict [ ("reputation_score", VInt 45);
                         ("hosting_provider", VStr "example.net") ] in
  let signals := VDict [ ("hosting", hosting) ] in
  let score := RiskEngine._calculate_hosting_score RiskEngine.init hosting in
  let trail := snd (RiskEngine.explain_hosting Spec.plain_repr signals []) in
  (45 < 30 -> score = Ok 20 /\
     trail = ([] ++ ["⚠️ MEDIUM: Hosted on service with low reputation score"])%list)
  /\ (30 <= 45 < 40 -> score = Ok 10 /\
     trail = ([] ++ ["⚠️ MEDIUM: Hosted on service with low reputation score"])%list)
  /\ (40 <= 45 < 50 -> score = Ok 10 /\ trail = [])
  /\ (50 <= 45 <= 70 -> score = Ok 0 /\ trail = [])
  /\ (70 < 45 -> score = Ok 0 /\
     trail = ([] ++ [("✅ POSITIVE: Hosted by reputable provider (" ++ "example.net" ++ ")")%string])%list).
Proof.
  apply (hosting_points_and_line Spec.plain_repr
           (VDict [ ("hosting", VDict [ ("reputation_score", VInt 45);
                                        ("hosting_provider", VStr "example.net") ]) ])
           (VDict [ ("reputation_score", VInt 45);
                    ("hosting_provider", VStr "example.net") ])
           45 "example.net" []); reflexivity.
Defined.

(** *** A hit count that is not a number *)

(** X23.  Both scorers absorb a hit count that is not a number (the model
    answers its neutral prediction, the rule engine its neutral 50.0), but
    the verdict step compares it with 0: such a bundle never gets a
    response, the request fails with the status-500 exception. *)
Theorem non_numeric_hit_count_fails (np_exp : Q -> Q) (repr_other : value -> string)
    (ml_model : MLModel.t) (risk_engine : RiskEngine.t)
    (domain : string) (signals hv : value) (now : string) :
  Spec.hit_count signals = Ok hv ->
  num_of hv = None ->
  exists msg,
    Main.check_domain np_exp repr_other ml_model risk_engine domain signals now
      = Raise (mk_exn HTTPException ("Analysis failed: " ++ msg)).
Proof.
  intros Hc Hn.
  destruct (Main.check_domain np_exp repr_other ml_model risk_engine domain signals now)
    as [resp|e] eqn:E.
  - exfalso.
    destruct (check_domain_response _ _ _ _ _ _ _ _ E)
      as (features & ml & rule & final & v & c & _ & _ & _ & Hcomb & _).
    assert (Hv : forall rs, exists e, Main.determine_verdict rs signals = Raise e).
    { intros rs. unfold Main.determine_verdict. unfold Spec.hit_count in Hc.
      destruct (get signals "blacklist" (VDict [])) as [bl|e]; cbn [bind] in *;
        [|discriminate Hc].
      rewrite Hc. cbn [bind]. unfold gt, compare_op. rewrite Hn. cbn [bind].
      eexists. reflexivity. }
    revert Hcomb. unfold Main.combine. step. step. step. step.
    match goal with
    | |- context [Main.determine_verdict ?rs signals] => destruct (Hv rs) as (e & ->)
    end.
    discriminate.
  - revert E. unfold Main.check_domain, try_except.
    match goal with
    | |- match ?body with _ => _ end = _ -> _ => destruct body as [resp|e']
    end; [discriminate|].
    rewrite every_exn_is_Exception. intros H. injection H as <-.
    eexists. reflexivity.
Qed.

Lemma non_numeric_hit_count_fails_witness :
  exists msg,
    Main.check_domain (fun _ => 1%Q) Spec.plain_repr MLModel.init RiskEngine.init
      "example.com"
      (VDict [ ("whois", VDict [ ("domain", VStr "example.com") ]);
               ("blacklist", VDict [ ("blacklist_hits", VStr "2") ]) ])
      "2024-01-16T00:00:00"
      = Raise (mk_exn HTTPException ("Analysis failed: " ++ msg)).
Proof.
  apply (non_numeric_hit_count_fails (fun _ => 1%Q) Spec.plain_repr MLModel.init
           RiskEngine.init "example.com"
           (VDict [ ("whois", VDict [ ("domain", VStr "example.com") ]);
                    ("blacklist", VDict [ ("blacklist_hits", VStr "2") ]) ])
           (VStr "2") "2024-01-16T00:00:00"); reflexivity.
Defined.

(** The same bundle, seen by the two scorers and by the whole request. *)
Example string_hit_count :
  let signals :=
    VDict [ ("whois", VDict [ ("domain", VStr "example.com") ]);
            ("blacklist", VDict [ ("blacklist_hits", VStr "2") ]) ] in
  RiskEngine.calculate_risk_score RiskEngine.init signals = Ok (VFloat 50.0)
  /\ Main.check_domain (fun _ => 1%Q) Spec.plain_repr MLModel.init RiskEngine.init
       "example.com" signals "2024-01-16T00:00:00"
     = Raise (mk_exn HTTPException
                "Analysis failed: '>' not supported between instances of 'str' and 'int'").
Proof. split; reflexivity. Qed.

(** *** The blacklist block on the record of the blacklist check *)

Lemma exactly_ret : Props.appends_exactly (RiskEngine.ret tt) [].
Proof. intros ex. unfold RiskEngine.ret. now rewrite app_nil_r. Qed.

Lemma exactly_append (s : string) : Props.appends_exactly (RiskEngine.append s) [s].
Proof. intros ex. reflexivity. Qed.

Lemma exactly_bind_lift {A} (r : res A) (a : A) (k : A -> RiskEngine.M unit)
    (lines : list string) :
  r = Ok a -> Props.appends_exactly (k a) lines ->
  Props.appends_exactly (RiskEngine.bindM (RiskEngine.lift r) k) lines.
Proof.
  intros -> Hk ex. unfold RiskEngine.bindM, RiskEngine.lift. apply Hk.
Qed.

Lemma exactly_seq (m k : RiskEngine.M unit) (l1 l2 : list string) :
  Props.appends_exactly m l1 -> Props.appends_exactly k l2 ->
  Props.appends_exactly (RiskEngine.bindM m (fun _ => k)) (l1 ++ l2).
Proof.
  intros Hm Hk ex. unfold RiskEngine.bindM. rewrite Hm, Hk.
  now rewrite app_assoc.
Qed.

Lemma exactly_when (b : bool) (m : RiskEngine.M unit) (lines : list string) :
  Props.appends_exactly m lines ->
  Props.appends_exactly (RiskEngine.when b m) (if b then lines else []).
Proof. intros Hm. destruct b; [exact Hm | apply exactly_ret]. Qed.

Lemma warnings_appended (repr_other : value -> string) (indicators : list string) :
  Props.appends_exactly
    (RiskEngine.for_each (map VStr indicators)
       (fun indicator => RiskEngine.append ("⚠️ WARNING: " ++ str repr_other indicator)))
    (map Props.warning_line indicators).
Proof.
  induction indicators as [|i indicators IH].
  - apply exactly_ret.
  - cbn [map RiskEngine.for_each].
    change (Props.warning_line i :: map Props.warning_line indicators)
      with ([Props.warning_line i] ++ map Props.warning_line indicators)%list.
    apply exactly_seq; [apply exactly_append | exact IH].
Qed.

Lemma blacklist_block_lines (repr_other : value -> string) (signals : value)
    (r : list (string * value)) (h : Z) (entries : list value) (scam : bool)
    (indicators : list string) :
  get signals "blacklist" (VDict []) = Ok (VDict r) ->
  assoc "blacklist_hits" r = Some (VInt h) ->
  assoc "blacklists" r = Some (VList entries) ->
  forallb Spec.is_blacklist_entry entries = true ->
  assoc "scam_pattern_detected" r = Some (VBool scam) ->
  assoc "risk_indicators" r = Some (VList (map VStr indicators)) ->
  exists hit_lines,
    Props.appends_exactly (RiskEngine.explain_blacklist repr_other signals)
      (hit_lines
       ++ (if scam then [Props.scam_keywords_line] else [])
       ++ map Props.warning_line indicators).
Proof.
  intros Hb Hh He Ht Hs Hi.
  destruct (comprehension_names entries Ht) as (names & Hn & Hstr).
  destruct (join_strings ", " (firstn 3 names) 0 (forallb_firstn _ 3 _ Hstr))
    as (joined & Hj).
  eexists. unfold RiskEngine.explain_blacklist.
  eapply exactly_bind_lift; [exact Hb|].
  eapply exactly_bind_lift; [cbn [get]; rewrite Hh; reflexivity|].
  eapply exactly_bind_lift; [apply gt_int_Z|].
  apply exactly_seq.
  - apply exactly_when.
    apply exactly_seq; [apply exactly_append|].
    eapply exactly_bind_lift; [cbn [get]; rewrite He; reflexivity|].
    apply exactly_when.
    eapply exactly_bind_lift; [cbn [get]; rewrite He; reflexivity|].
    eapply exactly_bind_lift; [reflexivity|].
    eapply exactly_bind_lift; [exact Hn|].
    eapply exactly_bind_lift; [exact Hj|].
    apply exactly_append.
  - eapply exactly_bind_lift; [cbn [get]; rewrite Hs; reflexivity|].
    apply exactly_seq.
    + change (if scam then [Props.scam_keywords_line] else [])
        with (if truthy (VBool scam) then [Props.scam_keywords_line] else []).
      apply exactly_when. apply exactly_append.
    + eapply exactly_bind_lift; [cbn [get]; rewrite Hi; reflexivity|].
      eapply exactly_bind_lift; [reflexivity|].
      apply warnings_appended.
Qed.

(** X24.  A domain the blacklist check flags for a scam pattern (a keyword,
    more than five digits or more than three hyphens) is reported twice in
    the blacklist block of the explanation: once as HIGH RISK for the flag,
    once as WARNING for the indicator the check added with it. *)
Theorem scam_pattern_reported_twice (_dns_lookup : string -> bool)
    (repr_other : value -> string) (domain : string) (ip : option string)
    (signals : value) (ex : list string) :
  get signals "blacklist" (VDict [])
    = Ok (BlacklistService.check_domain _dns_lookup domain ip) ->
  BlacklistService._check_scam_patterns domain = true ->
  exists lines,
    RiskEngine.explain_blacklist repr_other signals ex = (Ok tt, (ex ++ lines)%list)
    /\ In Props.scam_keywords_line lines
    /\ In (Props.warning_line "Domain name contains scam-related keywords") lines.
Proof.
  intros Hb Hscam.
  destruct (blacklist_record_typed _dns_lookup domain ip)
    as (r & hits & entries & Er & Hok & Hh & He & _).
  assert (Hfields :
            forallb Spec.is_blacklist_entry entries = true
            /\ assoc "scam_pattern_detected" r = Some (VBool true)
            /\ exists rest,
                 assoc "risk_indicators" r
                 = Some (VList (map VStr
                                  ("Domain name contains scam-related keywords" :: rest)))).
  { revert Er He. unfold BlacklistService.check_domain. rewrite Hscam.
    destruct (existsb (fun tld => PyStr.endswith tld domain)
                BlacklistService.suspicious_tlds);
      destruct (BlacklistService._has_unicode_chars domain);
      intros Er He; injection Er as <-;
      cbn [assoc String.eqb Ascii.eqb Bool.eqb] in He |- *; injection He as <-;
      (split;
       [|split;
         [ reflexivity
         | first
             [ exists ["Domain uses commonly abused TLD";
                       "Domain contains non-ASCII characters (possible homograph attack)"];
               reflexivity
             | exists ["Domain uses commonly abused TLD"]; reflexivity
             | exists ["Domain contains non-ASCII characters (possible homograph attack)"];
               reflexivity
             | exists []; reflexivity ] ]]);
      unfold Spec.blacklist_ok, Spec.field_ok in Hok;
      cbn [assoc String.eqb Ascii.eqb Bool.eqb Spec.is_int Spec.is_list_of andb] in Hok;
      apply andb_prop in Hok; destruct Hok as [Hok _];
      apply andb_prop in Hok; destruct Hok as [Hok _]; exact Hok. }
  destruct Hfields as (Ht & Hs & rest & Hi).
  rewrite Er in Hb.
  destruct (blacklist_block_lines repr_other signals r hits entries true _ Hb Hh He Ht Hs Hi)
    as (hit_lines & Hlines).
  eexists. split; [apply Hlines|]. split.
  - apply in_or_app. right. apply in_or_app. left. now left.
  - apply in_or_app. right. apply in_or_app. right. now left.
Qed.

Lemma scam_pattern_reported_twice_witness :
  exists lines,
    RiskEngine.explain_blacklist Spec.plain_repr
      (VDict [ ("blacklist",
                BlacklistService.check_domain (fun _ => false) "pay-4-7-1-9-2-6.example.com"
                  None) ]) []
      = (Ok tt, ([] ++ lines)%list)
    /\ In Props.scam_keywords_line lines
    /\ In (Props.warning_line "Domain name contains scam-related keywords") lines.
Proof.
  apply (scam_pattern_reported_twice (fun _ => false) Spec.plain_repr
           "pay-4-7-1-9-2-6.example.com" None
           (VDict [ ("blacklist",
                     BlacklistService.check_domain (fun _ => false)
                       "pay-4-7-1-9-2-6.example.com" None) ]) []);
    reflexivity.
Defined.

(** *** The keys of a normalized vector *)

(** X25.  A normalized vector holds exactly the ten features, whatever else
    the raw dict held and whatever it lacked: the weighted score, the
    importance table and the confidence never fall back on their defaults
    for a vector that comes from [_normalize_features]. *)
Theorem normalized_vector_keys (self : MLModel.t) (features nf : value) :
  MLModel._normalize_features self features = Ok nf ->
  exists d,
    nf = VDict d
    /\ map fst d
       = [ "domain_age_days"; "has_https"; "ssl_valid"; "dns_resolved";
           "has_whois_privacy"; "blacklist_count"; "hosting_reputation_score";
           "content_scam_score"; "domain_length"; "content_risk_keywords" ]
    /\ (forall name default,
          In name (map fst (MLModel.weights MLModel.init)) ->
          exists v, get nf name default = Ok v /\ getitem nf name = Ok v).
Proof.
  unfold MLModel._normalize_features. repeat step.
  intros H. injection H as <-.
  cbn [dict_set String.eqb Ascii.eqb Bool.eqb].
  eexists. split; [reflexivity|]. split; [reflexivity|].
  intros name default Hin. cbn [MLModel.weights MLModel.init map fst] in Hin.
  cbn [In] in Hin.
  repeat match type of Hin with
    | _ \/ _ => destruct Hin as [<-|Hin]; [eexists; split; reflexivity|]
    end.
  contradiction.
Qed.

Lemma normalized_vector_keys_witness :
  exists d,
    VDict [ ("domain_age_days", VFloat (inject_Z 0 / inject_Z (365 * 3)));
            ("has_https", VInt 0); ("ssl_valid", VInt 0); ("dns_resolved", VInt 0);
            ("has_whois_privacy", VInt 0);
            ("blacklist_count", VFloat (inject_Z 0 / 5.0));
            ("hosting_reputation_score", VFloat (inject_Z 50 / 100.0));
            ("content_scam_score", VFloat 0.5);
            ("domain_length", VFloat (inject_Z 0 / 50.0));
            ("content_risk_keywords", VFloat (inject_Z 0 / 10.0)) ] = VDict d
    /\ map fst d
       = [ "domain_age_days"; "has_https"; "ssl_valid"; "dns_resolved";
           "has_whois_privacy"; "blacklist_count"; "hosting_reputation_score";
           "content_scam_score"; "domain_length"; "content_risk_keywords" ]
    /\ (forall name default,
          In name (map fst (MLModel.weights MLModel.init)) ->
          exists v,
            get (VDict [ ("domain_age_days", VFloat (inject_Z 0 / inject_Z (365 * 3)));
                         ("has_https", VInt 0); ("ssl_valid", VInt 0);
                         ("dns_resolved", VInt 0); ("has_whois_privacy", VInt 0);
                         ("blacklist_count", VFloat (inject_Z 0 / 5.0));
                         ("hosting_reputation_score", VFloat (inject_Z 50 / 100.0));
                         ("content_scam_score", VFloat 0.5);
                         ("domain_length", VFloat (inject_Z 0 / 50.0));
                         ("content_risk_keywords", VFloat (inject_Z 0 / 10.0)) ])
              name default = Ok v
            /\ getitem
                 (VDict [ ("domain_age_days", VFloat (inject_Z 0 / inject_Z (365 * 3)));
                          ("has_https", VInt 0); ("ssl_valid", VInt 0);
                          ("dns_resolved", VInt 0); ("has_whois_privacy", VInt 0);
                          ("blacklist_count", VFloat (inject_Z 0 / 5.0));
                          ("hosting_reputation_score", VFloat (inject_Z 50 / 100.0));
                          ("content_scam_score", VFloat 0.5);
                          ("domain_length", VFloat (inject_Z 0 / 50.0));
                          ("content_risk_keywords", VFloat (inject_Z 0 / 10.0)) ])
                 name = Ok v).
Proof.
  apply (normalized_vector_keys MLModel.init (VDict [])). reflexivity.
Defined.

(** *** The extracted features *)

(** X26.  Whenever [extract_features] returns, the dict holds exactly the
    ten features in the order of the source; the four flags are the
    integers 0 or 1 and the domain length is an integer that is not
    negative, whatever the bundle holds. *)
Theorem extracted_features_shape (signals features : value) :
  Main.extract_features signals = Ok features ->
  exists d,
    features = VDict d
    /\ map fst d
       = [ "domain_age_days"; "has_https"; "ssl_valid"; "blacklist_count";
           "hosting_reputation_score"; "content_scam_score"; "dns_resolved";
           "domain_length"; "has_whois_privacy"; "content_risk_keywords" ]
    /\ (forall name,
          In name ["has_https"; "ssl_valid"; "dns_resolved"; "has_whois_privacy"] ->
          assoc name d = Some (VInt 0) \/ assoc name d = Some (VInt 1))
    /\ (exists n, assoc "domain_length" d = Some (VInt n) /\ 0 <= n).
Proof.
  unfold Main.extract_features.
  step_as whois Ew. step_as ssl Es. step_as blacklist Eb. step_as hosting Eh.
  step_as content Ec. step_as age Ea. step_as has_ssl Ehs. step_as ssl_valid Ev.
  step_as hits Ehit. step_as rep Er. step_as scam Esc. step_as dns Ed.
  step_as resolved Ere. step_as name Ename. step_as n En.
  step_as privacy Ep. step_as kw Ek.
  intros H. injection H as <-.
  eexists. split; [reflexivity|]. split; [reflexivity|]. split.
  - intros key Hin. cbn [In] in Hin.
    repeat match type of Hin with
      | _ \/ _ => destruct Hin as [<-|Hin]
      end; try contradiction;
      cbn [assoc String.eqb Ascii.eqb Bool.eqb]; unfold Main.one_if;
      match goal with |- context [truthy ?v] => destruct (truthy v) end; auto.
  - exists n. split; [reflexivity|]. exact (len_nonneg _ _ En).
Qed.

Lemma extracted_features_shape_witness :
  exists d,
    VDict [ ("domain_age_days", VInt 12); ("has_https", VInt 1); ("ssl_valid", VInt 1);
            ("blacklist_count", VInt 2); ("hosting_reputation_score", VInt 80);
            ("content_scam_score", VFloat 0.8); ("dns_resolved", VInt 1);
            ("domain_length", VInt 17); ("has_whois_privacy", VInt 1);
            ("content_risk_keywords", VInt 3) ] = VDict d
    /\ map fst d
       = [ "domain_age_days"; "has_https"; "ssl_valid"; "blacklist_count";
           "hosting_reputation_score"; "content_scam_score"; "dns_resolved";
           "domain_length"; "has_whois_privacy"; "content_risk_keywords" ]
    /\ (forall name,
          In name ["has_https"; "ssl_valid"; "dns_resolved"; "has_whois_privacy"] ->
          assoc name d = Some (VInt 0) \/ assoc name d = Some (VInt 1))
    /\ (exists n, assoc "domain_length" d = Some (VInt n) /\ 0 <= n).
Proof.
  apply (extracted_features_shape Spec.rich_bundle). reflexivity.
Defined.

(** *** The model branch of the prediction *)



(** *** A recognised provider *)

Lemma lower_app (a b : string) : PyStr.lower (a ++ b) = (PyStr.lower a ++ PyStr.lower b)%string.
Proof. induction a as [|c a IH]; simpl; [reflexivity | now rewrite IH]. Qed.

Lemma str_app_assoc (a b c : string) : ((a ++ b) ++ c = a ++ (b ++ c))%string.
Proof. induction a as [|x a IH]; simpl; [reflexivity | now rewrite IH]. Qed.

Lemma str_contains_app_r (needle a b : string) :
  str_contains needle b = true -> str_contains needle (a ++ b) = true.
Proof.
  intros H. induction a as [|c a IH]; [exact H|].
  cbn [append str_contains]. rewrite IH. apply orb_true_r.
Qed.

Lemma split_nonempty (sep : ascii) (s : string) : PyStr.split sep s <> [].
Proof.
  destruct s as [|c s]; cbn [PyStr.split]; [discriminate|].
  destruct (Ascii.eqb c sep); [discriminate|].
  destruct (PyStr.split sep s); discriminate.
Qed.

Lemma split_concat (sep : ascii) (s : string) :
  String.concat (String sep "") (PyStr.split sep s) = s.
Proof.
  induction s as [|c s IH]; [reflexivity|].
  cbn [PyStr.split]. pose proof (split_nonempty sep s) as Hne.
  destruct (Ascii.eqb_spec c sep) as [->|Hc].
  - destruct (PyStr.split sep s) as [|h t]; [contradiction|].
    cbn [String.concat] in *. rewrite IH. reflexivity.
  - destruct (PyStr.split sep s) as [|h t]; [contradiction|].
    destruct t as [|h' t']; cbn [String.concat] in *; rewrite <- IH; reflexivity.
Qed.

Lemma last_two_suffix (sep : string) (parts : list string) (a b : string) :
  HostingService.last_two parts = Some (a, b) ->
  exists front, String.concat sep parts = (front ++ (a ++ sep ++ b))%string.
Proof.
  induction parts as [|x parts IH]; [discriminate|].
  destruct parts as [|y parts']; [discriminate|].
  destruct parts' as [|z parts''].
  - cbn [HostingService.last_two]. intros H. injection H as <- <-.
    exists "". reflexivity.
  - intros H.
    assert (H' : HostingService.last_two (y :: z :: parts'') = Some (a, b)) by exact H.
    destruct (IH H') as (front & Hf).
    exists (x ++ sep ++ front)%string.
    change (String.concat sep (x :: y :: z :: parts''))
      with (x ++ sep ++ String.concat sep (y :: z :: parts''))%string.
    rewrite Hf. rewrite !str_app_assoc. reflexivity.
Qed.

Lemma first_provider_none (text : string) (table : list (string * (Z * string))) :
  HostingService.first_provider text table = None ->
  forall key info, In (key, info) table -> str_contains key text = false.
Proof.
  induction table as [|[k i] table IH]; intros H key info Hin; [contradiction|].
  cbn [HostingService.first_provider] in H.
  destruct (str_contains k text) eqn:E; [discriminate|].
  destruct Hin as [Heq|Hin].
  - injection Heq as <- <-. exact E.
  - eapply IH; eassumption.
Qed.

Lemma first_provider_some (text : string) (table : list (string * (Z * string)))
    (info : Z * string) :
  HostingService.first_provider text table = Some info ->
  exists key, In (key, info) table /\ str_contains key text = true.
Proof.
  induction table as [|[k i] table IH]; intros H; [discriminate|].
  cbn [HostingService.first_provider] in H.
  destruct (str_contains k text) eqn:E.
  - injection H as <-. exists k. split; [now left | exact E].
  - destruct (IH H) as (key & Hin & Hk). exists key. split; [now right | exact Hk].
Qed.

Lemma recognised_provider (hostname : string) (info : Z * string) :
  HostingService._get_provider_reputation (HostingService._identify_provider hostname)
    = Some info ->
  existsb (fun indicator =>
             str_contains indicator
               (PyStr.lower (HostingService._identify_provider hostname)))
    HostingService.BULLETPROOF_INDICATORS = false
  /\ 55 <= fst info <= 80.
Proof.
  intros H. split; [|exact (first_provider_score _ _ H)].
  revert H. unfold HostingService._get_provider_reputation, HostingService._identify_provider.
  destruct (HostingService.first_provider (PyStr.lower hostname)
              HostingService.HOSTING_REPUTATION) as [named|] eqn:E.
  - intros _. revert E. unfold HostingService.HOSTING_REPUTATION.
    cbn [HostingService.first_provider].
    repeat match goal with
      | |- context [if ?b then _ else _] => destruct b
      end;
      intros E; try discriminate E; injection E as <-; reflexivity.
  - intros H. exfalso.
    destruct (first_provider_some _ _ _ H) as (key & Hin & Hk).
    pose proof (first_provider_none _ _ E key info Hin) as Hno.
    assert (Hsuffix : exists front provider,
               hostname = (front ++ provider)%string
               /\ str_contains key (PyStr.lower provider) = true).
    { destruct (HostingService.last_two (PyStr.split "." hostname)) as [[a b]|] eqn:El.
      - destruct (last_two_suffix "." _ _ _ El) as (front & Hf).
        rewrite split_concat in Hf. exists front, (a ++ "." ++ b)%string. auto.
      - exists "", hostname. auto. }
    destruct Hsuffix as (front & provider & -> & Hp).
    rewrite lower_app in Hno. rewrite (str_contains_app_r _ _ _ Hp) in Hno.
    discriminate Hno.
Qed.

(** X28.  A hosting record marked [is_cloud] is never flagged as possible
    bulletproof hosting and has a reputation of 40 to 80: the provider of
    such a record is one of the names of the reputation table, the only
    deduction it can get is the 15 points of a suspicious address, and the
    hosting category of the rule engine charges it 10 points at most. *)
Theorem cloud_record_not_bulletproof (domain : string) (ip reverse_dns : option string)
    (suspicious : bool) (asn country : value) :
  exists r score factors,
    HostingService.get_hosting_info domain ip reverse_dns suspicious asn country = VDict r
    /\ assoc "reputation_score" r = Some (VInt score)
    /\ assoc "risk_factors" r = Some (VList (map VStr factors))
    /\ (assoc "is_cloud" r = Some (VBool true) ->
        40 <= score <= 80
        /\ ~ In "Possible bulletproof hosting" factors
        /\ exists points,
             RiskEngine._calculate_hosting_score RiskEngine.init (VDict r) = Ok points
             /\ 0 <= points <= 10).
Proof.
  unfold HostingService.get_hosting_info.
  assert (Hplain : forall (provider : string) (score : Z) (factors : list string)
                     (ipv a c : value),
             exists r score' factors',
               VDict [ ("domain", VStr domain); ("ip", ipv);
                       ("hosting_provider", VStr provider);
                       ("reputation_score", VInt score); ("asn", a); ("country", c);
                       ("is_cloud", VBool false);
                       ("risk_factors", VList (map VStr factors)) ] = VDict r
               /\ assoc "reputation_score" r = Some (VInt score')
               /\ assoc "risk_factors" r = Some (VList (map VStr factors'))
               /\ (assoc "is_cloud" r = Some (VBool true) ->
                   40 <= score' <= 80
                   /\ ~ In "Possible bulletproof hosting" factors'
                   /\ exists points,
                        RiskEngine._calculate_hosting_score RiskEngine.init (VDict r)
                          = Ok points
                        /\ 0 <= points <= 10)).
  { intros provider score factors ipv a c. do 3 eexists.
    split; [reflexivity|]. split; [reflexivity|]. split; [reflexivity|].
    cbn [assoc String.eqb Ascii.eqb Bool.eqb]. discriminate. }
  destruct ip as [s|]; [|apply (Hplain _ _ [])].
  destruct (negb (String.eqb s "")); cbn [andb]; [|apply (Hplain _ _ [])].
  destruct reverse_dns as [hostname|].
  - destruct (negb (String.eqb hostname "")).
    + destruct (HostingService._get_provider_reputation
                  (HostingService._identify_provider hostname)) as [info|] eqn:Ei.
      * destruct (recognised_provider hostname info Ei) as [Hb Hs]. rewrite Hb.
        destruct suspicious; do 3 eexists;
          (split; [reflexivity|]); (split; [reflexivity|]); (split; [reflexivity|]);
          intros _;
          (split; [lia|]);
          (split; [cbn [In app]; intuition discriminate|]);
          unfold RiskEngine._calculate_hosting_score;
          cbn [get assoc String.eqb Ascii.eqb Bool.eqb bind];
          rewrite !lt_int_Z; cbn [bind];
          repeat match goal with
            | |- context [?a <? ?b] => destruct (Z.ltb_spec a b); try lia
            end;
          cbn [bind]; eexists; (split; [reflexivity|]); simpl; lia.
      * destruct suspicious;
          match goal with
          | |- context [existsb ?f ?l] => destruct (existsb f l)
          end;
          first [ apply (Hplain _ _ []) | apply (Hplain _ _ [_]) | apply (Hplain _ _ [_; _]) ].
    + destruct suspicious; first [ apply (Hplain _ _ []) | apply (Hplain _ _ [_]) ].
  - destruct suspicious; first [ apply (Hplain _ _ []) | apply (Hplain _ _ [_]) ].
Qed.

(** A reverse name that mentions a provider and an indicator at once: the
    table wins, the record is a cloud record of Amazon. *)
Example offshore_amazon_host :
  get (HostingService.get_hosting_info "example.com" (Some "203.0.113.9")
         (Some "offshore.amazon-hosting.example.net") false VNone VNone)
    "hosting_provider" VNone = Ok (VStr "Amazon Web Services")
  /\ get (HostingService.get_hosting_info "example.com" (Some "203.0.113.9")
            (Some "offshore.amazon-hosting.example.net") false VNone VNone)
       "reputation_score" VNone = Ok (VInt 70)
  /\ get (HostingService.get_hosting_info "example.com" (Some "203.0.113.9")
            (Some "offshore.amazon-hosting.example.net") false VNone VNone)
       "is_cloud" VNone = Ok (VBool true)
  /\ get (HostingService.get_hosting_info "example.com" (Some "203.0.113.9")
            (Some "vps7.offshore-servers.example") false VNone VNone)
       "reputation_score" VNone = Ok (VInt 25).
Proof. repeat split; reflexivity. Qed.
